(** * Sneaker arbitrage workbench: ingestion and matching, verified

    A shallow embedding of the spreadsheet-ingestion and arbitrage-matching
    code of the application ([utils], the [DataManager] component and the
    [ArbitrageAnalyzer] component), followed by the properties proved about
    it.

    Conventions of the embedding.

    - A JavaScript string is the list of its code points ([jsstring]);
      literals are written in UTF-8 and decoded by [utf8].
    - A JavaScript number is [NaN], one of the two infinities or a finite
      number, held as an exact rational ([Fin q]).  Text is turned into a
      number as the host does it where that decides what the code does
      next: a decimal literal beyond the binary64 range and the literal
      [Infinity] give an infinity, a literal below that range gives 0, and
      [parseInt] rounds a run of digits to the nearest binary64 value.
      Arithmetic follows IEEE 754 on NaN and the infinities and is exact
      on finite numbers: the rounding of fractions and of the results of
      finite arithmetic, and the sign of zero, are outside the model.
    - A spreadsheet cell is a [value]: undefined, null, a boolean, a number
      or a string.  A row is a list of cells; reading past its end, or at a
      negative index, gives [Undefined], as array indexing does.  An empty
      cell inside a row is the value [Undefined].
    - [toUpperCase] maps the ASCII letters; product codes are ASCII.
    - Loops over rows are folds; [continue] is an early result of the loop
      body.  The clock ([today], [now]) and the host's date parser are
      explicit arguments. *)

From Stdlib Require Import Ascii String.
From Stdlib Require Import List Bool Arith ZArith NArith QArith Lia Lqa.
From Stdlib Require Import Sorted Permutation.
Import ListNotations.

Local Open Scope Z_scope.
Local Open Scope list_scope.

(* ================================================================== *)
(** * Part I. The host language: strings, numbers, values             *)
(* ================================================================== *)

Module JS.

(** ** Strings *)

Definition jsstring := list N.

(** Decoder of UTF-8 literals into code points. *)
Fixpoint utf8 (s : string) : jsstring :=
  match s with
  | EmptyString => []
  | String a s1 =>
    let b := N_of_ascii a in
    if (b <? 128)%N then b :: utf8 s1
    else if (b <? 224)%N then
      match s1 with
      | String a2 s2 => ((b - 192) * 64 + (N_of_ascii a2 - 128))%N :: utf8 s2
      | _ => [b]
      end
    else if (b <? 240)%N then
      match s1 with
      | String a2 (String a3 s3) =>
        ((b - 224) * 4096 + (N_of_ascii a2 - 128) * 64
         + (N_of_ascii a3 - 128))%N :: utf8 s3
      | _ => [b]
      end
    else
      match s1 with
      | String a2 (String a3 (String a4 s4)) =>
        ((b - 240) * 262144 + (N_of_ascii a2 - 128) * 4096
         + (N_of_ascii a3 - 128) * 64 + (N_of_ascii a4 - 128))%N :: utf8 s4
      | _ => [b]
      end
  end.

Definition str_eqb (s t : jsstring) : bool :=
  if list_eq_dec N.eq_dec s t then true else false.

(** The double-quote character, U+0022. *)
Definition dquote : jsstring := [34%N].

(** [WhiteSpace] and [LineTerminator] code points, the set that
    [String.prototype.trim] and [parseFloat] strip. *)
Definition is_ws (c : N) : bool :=
  ((9 <=? c) && (c <=? 13) || (c =? 32) || (c =? 160) || (c =? 5760)
   || (8192 <=? c) && (c <=? 8202) || (c =? 8232) || (c =? 8233)
   || (c =? 8239) || (c =? 8287) || (c =? 12288) || (c =? 65279))%N.

Definition is_digit (c : N) : bool := ((48 <=? c) && (c <=? 57))%N.

Fixpoint dropWhile {A} (p : A -> bool) (l : list A) : list A :=
  match l with
  | [] => []
  | x :: l' => if p x then dropWhile p l' else l
  end.

Fixpoint takeWhile {A} (p : A -> bool) (l : list A) : list A :=
  match l with
  | [] => []
  | x :: l' => if p x then x :: takeWhile p l' else []
  end.

Definition trimStart (s : jsstring) : jsstring := dropWhile is_ws s.
Definition trimEnd (s : jsstring) : jsstring := rev (dropWhile is_ws (rev s)).
Definition trim (s : jsstring) : jsstring := trimEnd (trimStart s).

(** [toUpperCase]: the simple case mapping of the ASCII letters; code
    points outside a-z are left as they are. *)
Definition upper (c : N) : N :=
  if ((97 <=? c) && (c <=? 122))%N then (c - 32)%N else c.
Definition toUpperCase (s : jsstring) : jsstring := map upper s.

Fixpoint startsWith (s k : jsstring) : bool :=
  match k, s with
  | [], _ => true
  | _ :: _, [] => false
  | c :: k', d :: s' => (c =? d)%N && startsWith s' k'
  end.

(** [s.includes(k)]: [k] occurs in [s] as a contiguous substring. *)
Fixpoint includes (s k : jsstring) : bool :=
  startsWith s k ||
  match s with
  | [] => false
  | _ :: s' => includes s' k
  end.

(** [arr.join(sep)]. *)
Fixpoint join (sep : jsstring) (l : list jsstring) : jsstring :=
  match l with
  | [] => []
  | [x] => x
  | x :: l' => x ++ sep ++ join sep l'
  end.

(** [s.match(/\d+/)]: the leftmost, longest run of decimal digits. *)
Fixpoint match_digits (s : jsstring) : option jsstring :=
  match s with
  | [] => None
  | c :: s' => if is_digit c then Some (takeWhile is_digit s)
               else match_digits s'
  end.

(** Value of a string of decimal digits, most significant first. *)
Definition digits_value (ds : jsstring) : N :=
  fold_left (fun acc c => (acc * 10 + (c - 48))%N) ds 0%N.

(** Decimal digits of a natural number. *)
Fixpoint N_digits (fuel : nat) (n : N) (acc : jsstring) : jsstring :=
  match fuel with
  | O => acc
  | S f =>
    let acc' := (48 + n mod 10)%N :: acc in
    if (n / 10 =? 0)%N then acc' else N_digits f (n / 10)%N acc'
  end.
Definition N_toString (n : N) : jsstring :=
  N_digits (S (N.to_nat (N.log2 n))) n [].

(** ** Numbers *)

(** [Inf false] is [Infinity], [Inf true] is [-Infinity]. *)
Inductive number := NaN | Fin (q : Q) | Inf (negative : bool).

Definition isNaN (x : number) : bool :=
  match x with NaN => true | _ => false end.

Definition Qltb (a b : Q) : bool := negb (Qle_bool b a).

Definition nadd (x y : number) : number :=
  match x, y with
  | Fin a, Fin b => Fin (a + b)
  | Fin _, Inf s | Inf s, Fin _ => Inf s
  | Inf s, Inf t => if Bool.eqb s t then Inf s else NaN
  | _, _ => NaN
  end.
Definition nsub (x y : number) : number :=
  match x, y with
  | Fin a, Fin b => Fin (a - b)
  | Fin _, Inf t => Inf (negb t)
  | Inf s, Fin _ => Inf s
  | Inf s, Inf t => if Bool.eqb s t then NaN else Inf s
  | _, _ => NaN
  end.
Definition nmul (x y : number) : number :=
  match x, y with
  | Fin a, Fin b => Fin (a * b)
  | Fin a, Inf s | Inf s, Fin a =>
    if Qeq_bool a 0 then NaN else Inf (xorb (Qltb a 0) s)
  | Inf s, Inf t => Inf (xorb s t)
  | _, _ => NaN
  end.
Definition nneg (x : number) : number :=
  match x with Fin a => Fin (- a) | Inf s => Inf (negb s) | NaN => NaN end.
(** Division.  A zero divisor is read as +0; the code embedded below
    divides by 10 and by a cost above 0 only. *)
Definition ndiv (x y : number) : number :=
  match x, y with
  | Fin a, Fin b =>
    if Qeq_bool b 0
    then (if Qeq_bool a 0 then NaN else Inf (Qltb a 0))
    else Fin (a / b)
  | Fin _, Inf _ => Fin 0
  | Inf s, Fin b => Inf (xorb s (Qltb b 0))
  | _, _ => NaN
  end.
(** [x > y] and [x < y]: false as soon as one side is NaN. *)
Definition ngt (x y : number) : bool :=
  match x, y with
  | Fin a, Fin b => Qltb b a
  | Fin _, Inf t => t
  | Inf s, Fin _ => negb s
  | Inf s, Inf t => negb s && t
  | _, _ => false
  end.
Definition nlt (x y : number) : bool := ngt y x.

Definition num_truthy (x : number) : bool :=
  match x with
  | NaN => false
  | Fin a => negb (Qeq_bool a 0)
  | Inf _ => true
  end.

(** [x || d] on numbers. *)
Definition num_or (x d : number) : number := if num_truthy x then x else d.

Definition ofN (n : N) : number := Fin (Z.of_N n # 1).

(** The number value of a natural number: the nearest binary64 value, ties
    to the even significand; from [2^1024] on the rounded value is
    Infinity.  With [e] the number of binary digits beyond 53, [q] is the
    leading 53 digits and [r] what is cut off. *)
Definition roundN (n : N) : number :=
  let e := (N.size n - 53)%N in
  let q := N.shiftr n e in
  let r := (n - N.shiftl q e)%N in
  let half := N.shiftl 1 (e - 1) in
  let up :=
    negb (e =? 0)%N && ((half <? r)%N || (r =? half)%N && N.odd q) in
  let v := N.shiftl (if up then q + 1 else q)%N e in
  if (N.shiftl 1 1024 <=? v)%N then Inf false else ofN v.

(** A decimal literal of this size or more denotes Infinity: the midpoint
    between the greatest binary64 value and [2^1024]. *)
Definition overflows (q : Q) : bool :=
  Qle_bool ((Z.shiftl 1 1024 - Z.shiftl 1 970) # 1) q.

(** A decimal literal of this size or less denotes 0: half the least
    positive binary64 value. *)
Definition underflows (q : Q) : bool :=
  Qle_bool q (1 # Pos.shiftl 1 1075).

(** [String(x)] for a number: sign, integer part and the digits of the
    fractional part (at most 20 of them; exponent notation is not
    produced). *)
Fixpoint frac_digits (fuel : nat) (r d : N) : jsstring :=
  match fuel with
  | O => []
  | S f =>
    if (r =? 0)%N then []
    else (48 + (r * 10) / d)%N :: frac_digits f ((r * 10) mod d)%N d
  end.

Definition Number_toString (x : number) : jsstring :=
  match x with
  | NaN => utf8 "NaN"
  | Inf false => utf8 "Infinity"
  | Inf true => utf8 "-Infinity"
  | Fin q =>
    let a := Z.abs_N (Qnum q) in
    let d := Npos (Qden q) in
    let fr := frac_digits 20 (a mod d)%N d in
    (if (Qnum q <? 0)%Z then utf8 "-" else [])
      ++ N_toString (a / d)%N
      ++ (match fr with [] => [] | _ => utf8 "." ++ fr end)
  end.

(** [parseFloat] on a string: leading white space is skipped, then an
    optional sign and either the literal [Infinity] or the longest prefix
    of the form [digits (. digits?)? exponent?] or [. digits exponent?] is
    read; no such prefix gives NaN.  A literal beyond the binary64 range
    is Infinity, and one too small for it is 0. *)
Definition is_sign (c : N) : bool := ((c =? 43) || (c =? 45))%N.

Definition parse_exponent (s : jsstring) : Z :=
  match s with
  | c :: s1 =>
    if ((c =? 101) || (c =? 69))%N then
      match s1 with
      | c1 :: s2 =>
        if is_digit c1 then Z.of_N (digits_value (takeWhile is_digit s1))
        else if is_sign c1 then
          match takeWhile is_digit s2 with
          | [] => 0
          | ds => if (c1 =? 45)%N then - Z.of_N (digits_value ds)
                  else Z.of_N (digits_value ds)
          end
        else 0
      | [] => 0
      end
    else 0
  | [] => 0
  end.

Definition scale10 (m : N) (e : Z) : Q :=
  if (0 <=? e)%Z then (Z.of_N m * 10 ^ e) # 1
  else Z.of_N m # Z.to_pos (10 ^ (- e)).

Definition parse_unsigned (s : jsstring) : option Q :=
  let ip := takeWhile is_digit s in
  let s1 := dropWhile is_digit s in
  let has_dot := match s1 with c :: _ => (c =? 46)%N | [] => false end in
  if has_dot then
    let s2 := tl s1 in
    let fp := takeWhile is_digit s2 in
    let s3 := dropWhile is_digit s2 in
    match ip ++ fp with
    | [] => None
    | ds => Some (scale10 (digits_value ds)
                          (parse_exponent s3 - Z.of_nat (length fp)))
    end
  else
    match ip with
    | [] => None
    | _ => Some (scale10 (digits_value ip) (parse_exponent s1))
    end.

(** The unsigned part of what [parseFloat] reads. *)
Definition parse_magnitude (s : jsstring) : number :=
  if startsWith s (utf8 "Infinity") then Inf false
  else
    match parse_unsigned s with
    | Some q =>
      if overflows q then Inf false
      else if underflows q then Fin 0 else Fin q
    | None => NaN
    end.

Definition parseFloat (s : jsstring) : number :=
  match trimStart s with
  | c :: s1 =>
    if (c =? 45)%N then nneg (parse_magnitude s1)
    else if (c =? 43)%N then parse_magnitude s1
    else parse_magnitude (c :: s1)
  | [] => NaN
  end.

(** [parseInt(s, 10)]: white space, an optional sign, then decimal digits;
    their exact value is rounded to a number, as the engines do it (the
    language would also allow the digits after the 20th to be read as
    zeros). *)
Definition parseInt10 (s : jsstring) : number :=
  let body (neg : bool) (t : jsstring) :=
    match takeWhile is_digit t with
    | [] => NaN
    | ds => if neg then nneg (roundN (digits_value ds))
            else roundN (digits_value ds)
    end in
  match trimStart s with
  | c :: s1 =>
    if (c =? 45)%N then body true s1
    else if (c =? 43)%N then body false s1
    else body false (c :: s1)
  | [] => NaN
  end.

(** ** Values ([any]) *)

Inductive value :=
| Undefined
| Null
| Bool (b : bool)
| Num (n : number)
| Str (s : jsstring).

Definition is_undefined (v : value) : bool :=
  match v with Undefined => true | _ => false end.

(** [String(v)]. *)
Definition String_ (v : value) : jsstring :=
  match v with
  | Undefined => utf8 "undefined"
  | Null => utf8 "null"
  | Bool true => utf8 "true"
  | Bool false => utf8 "false"
  | Num n => Number_toString n
  | Str s => s
  end.

(** Truthiness: [!v] is [negb (truthy v)]. *)
Definition truthy (v : value) : bool :=
  match v with
  | Undefined | Null => false
  | Bool b => b
  | Num n => num_truthy n
  | Str s => negb (str_eqb s [])
  end.

(** [row[i]]. *)
Definition get (row : list value) (i : Z) : value :=
  if (i <? 0)%Z then Undefined else nth (Z.to_nat i) row Undefined.

(** ** Insertion-ordered [Map] with string keys *)

Fixpoint Map_get {V} (m : list (jsstring * V)) (k : jsstring) : option V :=
  match m with
  | [] => None
  | (k', v) :: m' => if str_eqb k' k then Some v else Map_get m' k
  end.

(** [m.set(k, v)]: an existing key keeps its position. *)
Fixpoint Map_set {V} (m : list (jsstring * V)) (k : jsstring) (v : V)
  : list (jsstring * V) :=
  match m with
  | [] => [(k, v)]
  | (k', v') :: m' =>
    if str_eqb k' k then (k', v) :: m' else (k', v') :: Map_set m' k v
  end.

Definition Map_values {V} (m : list (jsstring * V)) : list V := map snd m.

(** ** [Array.prototype.sort] with a comparator

    The sort is stable; an element moves behind another only when the
    comparator says so with a positive number (NaN counts as zero). *)
Fixpoint sort_insert {A} (cmp : A -> A -> number) (x : A) (l : list A)
  : list A :=
  match l with
  | [] => [x]
  | y :: l' => if ngt (cmp x y) (Fin 0) then y :: sort_insert cmp x l'
               else x :: l
  end.

Definition Array_sort {A} (cmp : A -> A -> number) (l : list A) : list A :=
  fold_right (sort_insert cmp) [] l.

End JS.

Import JS.

(* ================================================================== *)
(** * Part II. The application                                         *)
(* ================================================================== *)

(** ** types.ts *)

Inductive DataType := MARKET | SUPPLIER | INVENTORY | FUTURE.

Definition DataType_eqb (a b : DataType) : bool :=
  match a, b with
  | MARKET, MARKET | SUPPLIER, SUPPLIER
  | INVENTORY, INVENTORY | FUTURE, FUTURE => true
  | _, _ => false
  end.

Module ShoeRecord.
Record t := mk {
  id : jsstring;
  productCode : jsstring;
  size : jsstring;
  price : number;
  discount : number;
  salesNum : number;
  salesRaw : jsstring;
  platform : jsstring;
  sourceFile : option jsstring;
  dataType : DataType;
  updateDate : jsstring
}.
End ShoeRecord.

Module SalesHistoryItem.
Record t := mk {
  date : jsstring;
  file : jsstring;
  sales : number;
  platform : jsstring
}.
End SalesHistoryItem.

Module ArbitrageResult.
Record t := mk {
  productCode : jsstring;
  tagPrice : number;
  costPrice : number;
  marketPrice : number;
  netRevenue : number;
  profit : number;
  roi : number;
  supplierName : jsstring;
  supplierSourceFile : jsstring;
  supplierDate : jsstring;
  salesVolume : number;
  salesHistory : list SalesHistoryItem.t;
  inventoryCount : number;
  futureCount : number
}.
End ArbitrageResult.

(** A sheet as [readExcelFile] delivers it: rows of cells; a row may be
    missing altogether. *)
Definition row := list value.
Definition sheet := list (option row).

(** The rows after the header, each with its index in the sheet: the range
    of [for (let i = headerIndex + 1; i < rawData.length; i++)]. *)
Definition indexed {A} (l : list A) : list (nat * A) :=
  combine (seq 0 (length l)) l.
Definition dataRows (rawData : sheet) (headerIndex : nat)
  : list (nat * option row) :=
  skipn (S headerIndex) (indexed rawData).

(** ** utils.ts *)

Module Utils.

Definition cleanProductCode (code : value) : jsstring :=
  if negb (truthy code) then []
  else toUpperCase (trim (String_ code)).

Definition extractSalesNum (raw : value) : number :=
  match raw with
  | Num n => n
  | _ =>
    if negb (truthy raw) then Fin 0
    else
      match match_digits (String_ raw) with
      | Some m => parseInt10 m
      | None => Fin 0
      end
  end.

Definition parseDiscount (raw : value) : number :=
  if negb (truthy raw) then Fin 10
  else
    let num := parseFloat (String_ raw) in
    if isNaN num then Fin 10 else num.

End Utils.

Import Utils.

(** ** components/DataManager.tsx *)

Module ColMap.
Record t := mk { sku : Z; size : Z; price : Z; discount : Z; sales : Z }.
Definition absent : t := mk (-1) (-1) (-1) (-1) (-1).
End ColMap.

Module SavedMapping.
Record t := mk { signature : jsstring; map : ColMap.t; name : jsstring }.
End SavedMapping.

(** A file of the upload after [readExcelFile] and [findHeaderRow]. *)
Module UploadedFile.
Record t := mk { name : jsstring; rawData : sheet; headerIndex : nat }.
End UploadedFile.

Module PendingFile.
Record t := mk {
  file : UploadedFile.t;
  guessedHeaderIndex : nat;
  headerSignature : jsstring;
  autoMap : ColMap.t
}.
End PendingFile.

Module DataManager.

Definition rowLabel (i : nat) (sku : jsstring) : jsstring :=
  utf8 "行 " ++ N_toString (N.of_nat (i + 1)) ++ utf8 " [SKU: " ++ sku
    ++ utf8 "]: ".

Definition quoted (v : value) : jsstring := dquote ++ String_ v ++ dquote.

Definition msgPriceFormat (i : nat) (sku : jsstring) (pVal : value) :=
  rowLabel i sku ++ utf8 "价格格式错误 (值: " ++ quoted pVal
    ++ utf8 ")。建议: 去除货币符号(¥/$)或文本，仅保留数字。".

Definition msgPriceNegative (i : nat) (sku : jsstring) (pVal : value) :=
  rowLabel i sku ++ utf8 "价格不能为负数 (值: " ++ quoted pVal ++ utf8 ")。".

Definition msgPriceMissing (i : nat) (sku : jsstring) :=
  rowLabel i sku ++ utf8 "价格缺失。市场数据必须包含价格。".

Definition msgDiscountFormat (i : nat) (sku : jsstring) (dVal : value) :=
  rowLabel i sku ++ utf8 "折扣格式错误 (值: " ++ quoted dVal
    ++ utf8 ")。建议: 使用数字格式 (如 6.5 表示 65折)。".

Definition nonblank (v : value) : bool :=
  negb (is_undefined v) && negb (str_eqb (trim (String_ v)) []).

(** Step 1 of the loop body: the price, or [None] for [continue], with the
    problems pushed on the way. *)
Definition priceField (map : ColMap.t) (type : DataType) (i : nat)
    (sku : jsstring) (r : row) : option number * list jsstring :=
  if ColMap.price map =? -1 then (Some (Fin 0), [])
  else
    let pVal := get r (ColMap.price map) in
    if nonblank pVal then
      let pNum := parseFloat (String_ pVal) in
      if isNaN pNum then
        (if DataType_eqb type MARKET then None else Some (Fin 0),
         [msgPriceFormat i sku pVal])
      else if nlt pNum (Fin 0) then
        (if DataType_eqb type MARKET then None else Some (Fin 0),
         [msgPriceNegative i sku pVal])
      else (Some pNum, [])
    else if DataType_eqb type MARKET then (None, [msgPriceMissing i sku])
    else (Some (Fin 0), []).

(** Step 2: the discount. *)
Definition discountField (map : ColMap.t) (type : DataType) (i : nat)
    (sku : jsstring) (r : row) : option number * list jsstring :=
  if ColMap.discount map =? -1 then (Some (Fin 10), [])
  else
    let dVal := get r (ColMap.discount map) in
    if nonblank dVal then
      let dNum := parseFloat (String_ dVal) in
      if isNaN dNum then
        (if DataType_eqb type SUPPLIER then None else Some (Fin 10),
         [msgDiscountFormat i sku dVal])
      else (Some (parseDiscount dVal), [])
    else (Some (Fin 10), []).

Inductive iteration :=
| Continue (errs : list jsstring)
| Push (errs : list jsstring) (rec : ShoeRecord.t).

Section Extraction.

Variables (map : ColMap.t) (fileName platform : jsstring) (type : DataType).
(** [today]: the ISO date of the run; [now i]: [Date.now()] as read while
    row [i] is built. *)
Variables (today : jsstring) (now : nat -> N).

Definition recordId (sku : jsstring) (i : nat) : jsstring :=
  sku ++ utf8 "-" ++ platform ++ utf8 "-" ++ fileName ++ utf8 "-"
    ++ N_toString (N.of_nat i) ++ utf8 "-" ++ N_toString (now i).

Definition extractRow (i : nat) (orow : option row) : iteration :=
  match orow with
  | None => Continue []
  | Some r =>
    if (length r =? 0)%nat then Continue []
    else if (ColMap.sku map =? -1) || is_undefined (get r (ColMap.sku map))
    then Continue []
    else
      let skuRaw := get r (ColMap.sku map) in
      let sku := cleanProductCode skuRaw in
      if str_eqb sku [] then Continue []
      else
        match priceField map type i sku r with
        | (None, errs1) => Continue errs1
        | (Some price, errs1) =>
          match discountField map type i sku r with
          | (None, errs2) => Continue (errs1 ++ errs2)
          | (Some discount, errs2) =>
            let hasSales :=
              negb (ColMap.sales map =? -1)
              && negb (is_undefined (get r (ColMap.sales map))) in
            let salesRaw :=
              if hasSales then String_ (get r (ColMap.sales map))
              else utf8 "0" in
            let salesNum :=
              if hasSales then extractSalesNum (Str salesRaw) else Fin 0 in
            let size :=
              if negb (ColMap.size map =? -1)
                 && negb (is_undefined (get r (ColMap.size map)))
              then String_ (get r (ColMap.size map))
              else utf8 "-" in
            Push (errs1 ++ errs2)
              (ShoeRecord.mk (recordId sku i) sku size price discount
                 salesNum salesRaw platform (Some fileName) type today)
          end
        end
  end.

Definition pushIteration (st : list ShoeRecord.t * list jsstring)
    (it : iteration) : list ShoeRecord.t * list jsstring :=
  match it with
  | Continue errs => (fst st, snd st ++ errs)
  | Push errs rec => (fst st ++ [rec], snd st ++ errs)
  end.

(** The loop, from a given state of [newRecords] and [validationErrors]. *)
Definition extractRows (rows : list (nat * option row))
    (st : list ShoeRecord.t * list jsstring)
  : list ShoeRecord.t * list jsstring :=
  fold_left (fun st ir => pushIteration st (extractRow (fst ir) (snd ir)))
            rows st.

(** [extractRecords]: the records and the validation problems, in row
    order. *)
Definition extractRecords (rawData : sheet) (headerIndex : nat)
  : list ShoeRecord.t * list jsstring :=
  extractRows (dataRows rawData headerIndex) ([], []).

End Extraction.

Definition kwSku := List.map utf8 ["货号"; "SKU"; "款号"; "Product Code"; "Art No"]%string.
Definition kwSize := List.map utf8 ["尺码"; "Size"; "码数"]%string.
Definition kwPrice :=
  List.map utf8 ["平台最低价"; "Price"; "价格"; "Tag Price"; "牌价"; "原价"]%string.
Definition kwDiscount := List.map utf8 ["平台平均下单折扣"; "折扣"; "Discount"]%string.
Definition kwSales :=
  List.map utf8 ["销量"; "Sales"; "累计销量"; "热度"; "库存"; "Quantity"]%string.

(** [kws.some(k => c.includes(k))]. *)
Definition someIncludes (kws : list jsstring) (c : jsstring) : bool :=
  existsb (fun k => includes c k) kws.

Definition detectStep (m : ColMap.t) (ic : nat * value) : ColMap.t :=
  let idx := Z.of_nat (fst ic) in
  let c := trim (String_ (snd ic)) in
  let m := if someIncludes kwSku c
           then ColMap.mk idx (ColMap.size m) (ColMap.price m)
                          (ColMap.discount m) (ColMap.sales m) else m in
  let m := if someIncludes kwSize c
           then ColMap.mk (ColMap.sku m) idx (ColMap.price m)
                          (ColMap.discount m) (ColMap.sales m) else m in
  let m := if someIncludes kwPrice c
           then ColMap.mk (ColMap.sku m) (ColMap.size m) idx
                          (ColMap.discount m) (ColMap.sales m) else m in
  let m := if someIncludes kwDiscount c
           then ColMap.mk (ColMap.sku m) (ColMap.size m) (ColMap.price m)
                          idx (ColMap.sales m) else m in
  let m := if someIncludes kwSales c
           then ColMap.mk (ColMap.sku m) (ColMap.size m) (ColMap.price m)
                          (ColMap.discount m) idx else m in
  m.

(** [autoDetectColumns]: [forEach] over the header cells, each matching
    cell overwriting the role's index. *)
Definition autoDetectColumns (headerRow : list value) : ColMap.t :=
  fold_left detectStep (indexed headerRow) ColMap.absent.

(** The orchestrator's test "complete enough to extract without asking". *)
Definition isComplete (selectedType : DataType) (colMap : ColMap.t)
    (usedSavedMap : bool) : bool :=
  let isComplete := negb (ColMap.sku colMap =? -1) in
  let isComplete :=
    if DataType_eqb selectedType MARKET && (ColMap.price colMap =? -1)
    then false else isComplete in
  let isComplete :=
    if (DataType_eqb selectedType INVENTORY
        || DataType_eqb selectedType FUTURE)
       && (ColMap.sales colMap =? -1)
    then false else isComplete in
  if usedSavedMap then true else isComplete.

Definition headerRowOf (rawData : sheet) (headerIndex : nat)
  : list jsstring :=
  match nth_error rawData headerIndex with
  | Some (Some r) => List.map (fun c => trim (String_ c)) r
  | _ => []
  end.

Definition findSaved (savedMappings : list SavedMapping.t)
    (headerSignature : jsstring) : option SavedMapping.t :=
  find (fun m => str_eqb (SavedMapping.signature m) headerSignature)
       savedMappings.

(** The mapping chosen for a sheet and whether it was a remembered one. *)
Definition chooseMapping (savedMappings : list SavedMapping.t)
    (headerRow : list jsstring) : ColMap.t * bool :=
  match findSaved savedMappings (join (utf8 "|") headerRow) with
  | Some savedMap => (SavedMapping.map savedMap, true)
  | None => (autoDetectColumns (List.map Str headerRow), false)
  end.

Module UploadState.
Record t := mk {
  allNewRecords : list ShoeRecord.t;
  successCount : nat;
  mappingQueue : list PendingFile.t;
  errors : list jsstring
}.
End UploadState.

Section Upload.

Variables (savedMappings : list SavedMapping.t).
Variables (selectedPlatform : jsstring) (selectedType : DataType).
Variables (today : jsstring) (now : nat -> N).

(** One turn of the loop over the uploaded files. *)
Definition uploadFile (st : UploadState.t) (f : UploadedFile.t)
  : UploadState.t :=
  let rawData := UploadedFile.rawData f in
  let headerIndex := UploadedFile.headerIndex f in
  if (length rawData =? 0)%nat then
    UploadState.mk (UploadState.allNewRecords st)
      (UploadState.successCount st) (UploadState.mappingQueue st)
      (UploadState.errors st
         ++ [UploadedFile.name f ++ utf8 ": 文件内容为空"])
  else
    let headerRow := headerRowOf rawData headerIndex in
    let headerSignature := join (utf8 "|") headerRow in
    let (colMap, usedSavedMap) := chooseMapping savedMappings headerRow in
    if isComplete selectedType colMap usedSavedMap then
      let (records, fileErrors) :=
        extractRecords colMap (UploadedFile.name f) selectedPlatform
          selectedType today now rawData headerIndex in
      let errors :=
        match fileErrors with
        | [] => UploadState.errors st
        | _ => UploadState.errors st
                 ++ [utf8 "--- " ++ UploadedFile.name f ++ utf8 " 警告 ---"
                       ++ [10%N] ++ join [10%N] fileErrors]
        end in
      match records with
      | [] => UploadState.mk (UploadState.allNewRecords st)
                (UploadState.successCount st)
                (UploadState.mappingQueue st) errors
      | _ => UploadState.mk (UploadState.allNewRecords st ++ records)
               (S (UploadState.successCount st))
               (UploadState.mappingQueue st) errors
      end
    else
      UploadState.mk (UploadState.allNewRecords st)
        (UploadState.successCount st)
        (UploadState.mappingQueue st
           ++ [PendingFile.mk f headerIndex headerSignature colMap])
        (UploadState.errors st).

Definition sameSlot (p : ShoeRecord.t) : bool :=
  str_eqb (ShoeRecord.platform p) selectedPlatform
  && DataType_eqb (ShoeRecord.dataType p) selectedType.

(** The store update that commits the automatically extracted records. *)
Definition commitUpload (allNewRecords prev : list ShoeRecord.t)
  : list ShoeRecord.t :=
  match allNewRecords with
  | [] => prev
  | _ => filter (fun p => negb (sameSlot p)) prev ++ allNewRecords
  end.

(** [handleFileUpload]: the new store and the files left for manual
    mapping. *)
Definition handleFileUpload (files : list UploadedFile.t)
    (prev : list ShoeRecord.t) : list ShoeRecord.t * UploadState.t :=
  let st := fold_left uploadFile files (UploadState.mk [] 0 [] []) in
  (commitUpload (UploadState.allNewRecords st) prev, st).

(** The five selections of the mapping dialog: a column index, or nothing
    chosen. *)
Record Selection := {
  sel_sku : option nat;
  sel_size : option nat;
  sel_price : option nat;
  sel_discount : option nat;
  sel_sales : option nat
}.

Definition selected (s : option nat) : Z :=
  match s with Some i => Z.of_nat i | None => -1 end.

(** [handleConfirmMapping]: the new store and the new mapping memory. *)
Definition handleConfirmMapping (rememberMapping : bool) (label : jsstring)
    (currentMappingFile : option PendingFile.t) (colMapping : Selection)
    (prev : list ShoeRecord.t)
  : list ShoeRecord.t * list SavedMapping.t :=
  match currentMappingFile, sel_sku colMapping with
  | None, _ => (prev, savedMappings)
  | Some _, None => (prev, savedMappings)
  | Some cur, Some skuIdx =>
    let map :=
      ColMap.mk (Z.of_nat skuIdx) (selected (sel_size colMapping))
        (selected (sel_price colMapping))
        (selected (sel_discount colMapping))
        (selected (sel_sales colMapping)) in
    let (records, errors) :=
      extractRecords map (UploadedFile.name (PendingFile.file cur))
        selectedPlatform selectedType today now
        (UploadedFile.rawData (PendingFile.file cur))
        (PendingFile.guessedHeaderIndex cur) in
    let data :=
      match records with
      | [] => prev
      | _ => prev ++ records
      end in
    let saved :=
      if rememberMapping then
        filter (fun m => negb (str_eqb (SavedMapping.signature m)
                                       (PendingFile.headerSignature cur)))
               savedMappings
          ++ [SavedMapping.mk (PendingFile.headerSignature cur) map label]
      else savedMappings in
    (data, saved)
  end.

End Upload.

End DataManager.

Import DataManager.

(** ** components/ArbitrageAnalyzer.tsx *)

Module Columns.
Record t := mk { skuIdx : Z; tagPriceIdx : Z; discountIdx : Z; salesIdx : Z }.
Definition absent : t := mk (-1) (-1) (-1) (-1).
End Columns.

(** What a run of [processArbitrage] leaves on screen: an error message
    and no result, or the ranked results.  [Threw] is a run that fails with
    an error of the host (reading the cells of a header row that is not
    there), whose message the host words. *)
Inductive outcome :=
| Threw
| ErrorMsg (msg : jsstring)
| Results (finalResults : list ArbitrageResult.t).

Module ArbitrageAnalyzer.

Definition kwSku := List.map utf8 ["货号"; "SKU"; "款号"; "Product Code"; "Art No"]%string.
Definition kwTagPrice :=
  List.map utf8 ["牌价"; "原价"; "Tag Price"; "MSRP"; "发售价"]%string.
Definition kwDiscount := List.map utf8 ["折扣"; "Discount"; "下单折扣"]%string.
Definition kwSales :=
  List.map utf8 ["销量"; "Sales"; "累计销量"; "近30天销量"; "热度"; "平台销量"]%string.

Definition detectStep (m : Columns.t) (ic : nat * jsstring) : Columns.t :=
  let idx := Z.of_nat (fst ic) in
  let col := snd ic in
  let m := if someIncludes kwSku col
           then Columns.mk idx (Columns.tagPriceIdx m)
                           (Columns.discountIdx m) (Columns.salesIdx m)
           else m in
  let m := if someIncludes kwTagPrice col
           then Columns.mk (Columns.skuIdx m) idx
                           (Columns.discountIdx m) (Columns.salesIdx m)
           else m in
  let m := if someIncludes kwDiscount col
           then Columns.mk (Columns.skuIdx m) (Columns.tagPriceIdx m)
                           idx (Columns.salesIdx m)
           else m in
  let m := if someIncludes kwSales col
           then Columns.mk (Columns.skuIdx m) (Columns.tagPriceIdx m)
                           (Columns.discountIdx m) idx
           else m in
  m.

Definition detectColumns (headerRow : list jsstring) : Columns.t :=
  fold_left detectStep (indexed headerRow) Columns.absent.

(** [Math.max(...l)]: NaN as soon as one argument is NaN. *)
Definition nmax (x y : number) : number :=
  match x, y with
  | NaN, _ | _, NaN => NaN
  | _, _ => if ngt y x then y else x
  end.
Definition Math_max (l : list number) : number :=
  match l with
  | [] => Inf true
  | x :: l' => fold_left nmax l' x
  end.

Section Matching.

Variable masterData : list ShoeRecord.t.
(** Name of the purchase sheet, the date of the run, and
    [s => new Date(s).getTime()]. *)
Variables (fileName todayDate : jsstring) (getTime : jsstring -> number).
Variable cols : Columns.t.

Definition stored (sku : jsstring) (ty : DataType) : list ShoeRecord.t :=
  filter (fun d => str_eqb (ShoeRecord.productCode d) sku
                   && DataType_eqb (ShoeRecord.dataType d) ty) masterData.

Definition marketPriceOf (sku : jsstring) : number :=
  match stored sku MARKET with
  | d :: _ => ShoeRecord.price d
  | [] => Fin 0
  end.

Definition countOf (sku : jsstring) (ty : DataType) : number :=
  fold_left (fun sum r => nadd sum (ShoeRecord.salesNum r)) (stored sku ty)
            (Fin 0).

Definition tagPriceOf (r : row) : number :=
  num_or (parseFloat (String_ (get r (Columns.tagPriceIdx cols)))) (Fin 0).

Definition hasUploadSales (r : row) : bool :=
  negb (Columns.salesIdx cols =? -1)
  && negb (is_undefined (get r (Columns.salesIdx cols)))
  && negb (str_eqb (trim (String_ (get r (Columns.salesIdx cols)))) []).

Definition hasUploadDiscount (r : row) : bool :=
  negb (Columns.discountIdx cols =? -1)
  && negb (is_undefined (get r (Columns.discountIdx cols))).

Definition effectiveDiscount (r : row) : number :=
  if hasUploadDiscount r then parseDiscount (get r (Columns.discountIdx cols))
  else Fin 10.

Definition sourceOrUnknown (m : ShoeRecord.t) : jsstring :=
  match ShoeRecord.sourceFile m with
  | Some s => if str_eqb s [] then utf8 "Unknown" else s
  | None => utf8 "Unknown"
  end.

Definition historyKey (m : ShoeRecord.t) : jsstring :=
  ShoeRecord.updateDate m ++ utf8 "#" ++ sourceOrUnknown m ++ utf8 "#"
    ++ ShoeRecord.platform m.

Definition addHistory (uniqueHistoryMap : list (jsstring * SalesHistoryItem.t))
    (m : ShoeRecord.t) : list (jsstring * SalesHistoryItem.t) :=
  let item := SalesHistoryItem.mk (ShoeRecord.updateDate m)
                (sourceOrUnknown m) (ShoeRecord.salesNum m)
                (ShoeRecord.platform m) in
  match Map_get uniqueHistoryMap (historyKey m) with
  | Some existing =>
    if ngt (ShoeRecord.salesNum m) (SalesHistoryItem.sales existing)
    then Map_set uniqueHistoryMap (historyKey m) item
    else uniqueHistoryMap
  | None => Map_set uniqueHistoryMap (historyKey m) item
  end.

(** Sales history and display sales of a row. *)
Definition salesOf (sku : jsstring) (r : row)
  : list SalesHistoryItem.t * number :=
  if hasUploadSales r then
    let uploadSales := extractSalesNum (get r (Columns.salesIdx cols)) in
    ([SalesHistoryItem.mk todayDate fileName uploadSales (utf8 "本次导入")],
     uploadSales)
  else
    let historyMatches :=
      filter (fun d =>
                str_eqb (ShoeRecord.productCode d) sku
                && ngt (ShoeRecord.salesNum d) (Fin 0)
                && (DataType_eqb (ShoeRecord.dataType d) SUPPLIER
                    || DataType_eqb (ShoeRecord.dataType d) MARKET))
             masterData in
    match historyMatches with
    | [] => ([], Fin 0)
    | _ =>
      let salesHistory :=
        Array_sort
          (fun a b => nsub (getTime (SalesHistoryItem.date b))
                           (getTime (SalesHistoryItem.date a)))
          (Map_values (fold_left addHistory historyMatches [])) in
      (salesHistory, Math_max (List.map SalesHistoryItem.sales salesHistory))
    end.

(** The loop body up to the result it builds; [None] is [continue]. *)
Definition arbitrageRow (orow : option row) : option ArbitrageResult.t :=
  match orow with
  | None => None
  | Some r =>
    if negb (truthy (get r (Columns.skuIdx cols))) then None
    else
      let sku := cleanProductCode (get r (Columns.skuIdx cols)) in
      if str_eqb sku [] then None
      else
        let tagPrice := tagPriceOf r in
        let marketPrice := marketPriceOf sku in
        let invCount := countOf sku INVENTORY in
        let futureCount := countOf sku FUTURE in
        let effectiveDiscount := effectiveDiscount r in
        let costPrice := nmul tagPrice (ndiv effectiveDiscount (Fin 10)) in
        let netRevenue :=
          if ngt marketPrice (Fin 0) then nmul marketPrice (Fin 0.88)
          else Fin 0 in
        let profit :=
          if ngt marketPrice (Fin 0) then nsub netRevenue costPrice
          else nneg costPrice in
        let roi :=
          if ngt costPrice (Fin 0) && ngt marketPrice (Fin 0)
          then ndiv profit costPrice else Fin 0 in
        let (salesHistory, displaySales) := salesOf sku r in
        Some (ArbitrageResult.mk sku tagPrice costPrice marketPrice
                netRevenue profit roi
                (if hasUploadSales r then utf8 "本次导入" else utf8 "历史匹配")
                fileName todayDate displaySales salesHistory
                invCount futureCount)
  end.

(** "Group by SKU": a later row replaces the kept one only with a strictly
    greater profit. *)
Definition groupStep (skuMap : list (jsstring * ArbitrageResult.t))
    (orow : option row) : list (jsstring * ArbitrageResult.t) :=
  match arbitrageRow orow with
  | None => skuMap
  | Some result =>
    let sku := ArbitrageResult.productCode result in
    match Map_get skuMap sku with
    | None => Map_set skuMap sku result
    | Some existing =>
      if ngt (ArbitrageResult.profit result) (ArbitrageResult.profit existing)
      then Map_set skuMap sku result
      else skuMap
    end
  end.

Definition byProfitDesc (a b : ArbitrageResult.t) : number :=
  nsub (ArbitrageResult.profit b) (ArbitrageResult.profit a).

(** The rows after the header, grouped and ranked. *)
Definition rankRows (rows : list (option row)) : list ArbitrageResult.t :=
  Array_sort byProfitDesc (Map_values (fold_left groupStep rows [])).

End Matching.

(** [processArbitrage] on the sheet read from the purchase file, with the
    header row that [findHeaderRow] located. *)
Definition processArbitrage (masterData : list ShoeRecord.t)
    (fileName todayDate : jsstring) (getTime : jsstring -> number)
    (rawData : sheet) (headerRowIndex : nat) : outcome :=
  match rawData with
  | [] => ErrorMsg (utf8 "处理失败: 文件内容为空")
  | _ =>
    match nth_error rawData headerRowIndex with
    | Some (Some hr) =>
      let headerRow := List.map (fun c => trim (String_ c)) hr in
      let cols := detectColumns headerRow in
      if (Columns.skuIdx cols =? -1) || (Columns.tagPriceIdx cols =? -1)
      then ErrorMsg (utf8 "无法识别表头。请确保表格包含“货号(SKU)”和“牌价/原价”列。")
      else
        match rankRows masterData fileName todayDate getTime cols
                (skipn (S headerRowIndex) rawData) with
        | [] => ErrorMsg (utf8 "未在文件中找到有效的数据行。")
        | finalResults => Results finalResults
        end
    | _ => Threw
    end
  end.

End ArbitrageAnalyzer.

Import ArbitrageAnalyzer.

(** ** Further host functions: lower case, [JSON.stringify], [Number] *)

Module Host.

(** [toLowerCase]: the case mapping of the ASCII letters; every other
    code point is left as it is (the keywords it is used with are ASCII
    and CJK text). *)
Definition lower (c : N) : N :=
  if ((65 <=? c) && (c <=? 90))%N then (c + 32)%N else c.
Definition toLowerCase (s : jsstring) : jsstring := map lower s.

Definition hex_digit (n : N) : N :=
  if (n <? 10)%N then (48 + n)%N else (87 + n)%N.

(** [\uXXXX], four lower-case hexadecimal digits. *)
Definition UnicodeEscape (c : N) : jsstring :=
  [92; 117; hex_digit (c / 4096); hex_digit ((c / 256) mod 16);
   hex_digit ((c / 16) mod 16); hex_digit (c mod 16)]%N.

(** One code point of a string inside JSON text: the short escapes, then
    [\uXXXX] for the other control characters and for lone surrogates. *)
Definition QuoteChar (c : N) : jsstring :=
  if (c =? 8)%N then [92; 98]%N
  else if (c =? 9)%N then [92; 116]%N
  else if (c =? 10)%N then [92; 110]%N
  else if (c =? 12)%N then [92; 102]%N
  else if (c =? 13)%N then [92; 114]%N
  else if (c =? 34)%N then [92; 34]%N
  else if (c =? 92)%N then [92; 92]%N
  else if ((c <? 32) || (55296 <=? c) && (c <=? 57343))%N
       then UnicodeEscape c
  else [c].

Definition QuoteJSONString (s : jsstring) : jsstring :=
  dquote ++ flat_map QuoteChar s ++ dquote.

(** An element of an array in JSON text: undefined, NaN and the
    infinities are [null]. *)
Definition JSON_element (v : value) : jsstring :=
  match v with
  | Undefined | Null => utf8 "null"
  | Bool true => utf8 "true"
  | Bool false => utf8 "false"
  | Num NaN | Num (Inf _) => utf8 "null"
  | Num n => Number_toString n
  | Str s => QuoteJSONString s
  end.

(** [JSON.stringify(row)] for a row of cells. *)
Definition JSON_stringify (r : list value) : jsstring :=
  utf8 "[" ++ join (utf8 ",") (map JSON_element r) ++ utf8 "]".









End Host.

Import Host.

(** ** utils.ts, continued: the header locator *)

Module HeaderLocator.

Definition keywords : list jsstring :=
  map utf8 ["货号"; "SKU"; "款号"; "Product Code"; "Art No"; "ART NO"]%string.

(** The row, as one lower-cased JSON text, contains a lower-cased
    keyword. *)
Definition rowMatches (r : row) : bool :=
  existsb (fun kw => includes (toLowerCase (JSON_stringify r))
                              (toLowerCase kw)) keywords.

(** The loop from index [i] on; a missing row cannot be stringified and
    the call fails ([None]). *)
Fixpoint scanRows (i : nat) (rows : list (option row)) : option nat :=
  match rows with
  | [] => Some 0%nat
  | None :: _ => None
  | Some r :: rest => if rowMatches r then Some i else scanRows (S i) rest
  end.

(** [findHeaderRow]: only the first 20 rows are scanned. *)
Definition findHeaderRow (data : sheet) : option nat :=
  scanRows 0 (firstn (Nat.min (length data) 20) data).

End HeaderLocator.

Import HeaderLocator.


(** ** components/DataManager.tsx, continued: export, manual entry, the
    mapping queue *)

Module ManualRow.
Record t := mk {
  id : jsstring;
  productCode : option jsstring;
  size : option jsstring;
  price : value;
  discount : value;
  salesRaw : option jsstring
}.
End ManualRow.

(** A file waiting for its mapping, with the id the queue gave it. *)
Module Queued.
Record t := mk { id : jsstring; entry : PendingFile.t }.
End Queued.

Module MappingState.
Record t := mk {
  pendingFiles : list Queued.t;
  currentMappingFile : option Queued.t
}.
End MappingState.

Module DataManagerMore.

Definition getShortDataTypeLabel (type : DataType) : jsstring :=
  match type with
  | MARKET => utf8 "市场"
  | SUPPLIER => utf8 "供应商"
  | INVENTORY => utf8 "库存"
  | FUTURE => utf8 "期货"
  end.

Section Slot.

Variables (selectedPlatform : jsstring) (selectedType : DataType).
Variable today : jsstring.

(** One exported line: the column titles with their values, in order. *)
Definition csvRow (item : ShoeRecord.t) : list (jsstring * value) :=
  [(utf8 "货号/SKU", Str (ShoeRecord.productCode item));
   (utf8 "尺码", Str (ShoeRecord.size item));
   (utf8 "价格", Num (ShoeRecord.price item));
   (utf8 "折扣", Num (ShoeRecord.discount item));
   (utf8 "销量(原始)", Str (ShoeRecord.salesRaw item));
   (utf8 "销量(数字)", Num (ShoeRecord.salesNum item));
   (utf8 "平台", Str (ShoeRecord.platform item));
   (utf8 "类型", Str (getShortDataTypeLabel (ShoeRecord.dataType item)));
   (utf8 "来源文件",
    Str (match ShoeRecord.sourceFile item with
         | Some s => if str_eqb s [] then utf8 "手动录入" else s
         | None => utf8 "手动录入"
         end));
   (utf8 "更新日期", Str (ShoeRecord.updateDate item))].

(** [handleExportData]: an error message when the selection is empty,
    otherwise the lines handed to [exportToCSV] and the file name. *)
Definition handleExportData (data : list ShoeRecord.t)
  : jsstring + (list (list (jsstring * value)) * jsstring) :=
  match filter (sameSlot selectedPlatform selectedType) data with
  | [] => inl (utf8 "当前筛选条件下没有数据可导出")
  | filtered =>
    inr (map csvRow filtered,
         selectedPlatform ++ utf8 "_" ++ getShortDataTypeLabel selectedType
           ++ utf8 "_数据导出_" ++ today)
  end.

(** [now i] and [random i]: [Date.now()] and the text of [Math.random()]
    as read for the [i]-th valid row. *)
Variables (now : nat -> N) (random : nat -> jsstring).


Definition text (s : option jsstring) : value :=
  match s with Some t => Str t | None => Undefined end.



End Slot.

(** The queue as [handleFileUpload] leaves it: the first file is the one
    shown in the dialog. *)
Definition openQueue (mappingQueue : list Queued.t) : MappingState.t :=
  MappingState.mk mappingQueue (hd_error mappingQueue).

(** [handleSkipFile]; a confirmed mapping moves the queue on in the same
    way. *)
Definition handleSkipFile (st : MappingState.t) : MappingState.t :=
  match MappingState.currentMappingFile st with
  | None => st
  | Some cur =>
    let remaining :=
      filter (fun f => negb (str_eqb (Queued.id f) (Queued.id cur)))
             (MappingState.pendingFiles st) in
    MappingState.mk remaining (hd_error remaining)
  end.

End DataManagerMore.

Import DataManagerMore.

(** ** App.tsx and components/Sidebar.tsx: the channel list *)

Module Channel.
Record t := mk { name : jsstring; isRemovable : bool }.
End Channel.

Module App.

Definition DEFAULT_CHANNELS : list Channel.t :=
  [Channel.mk (utf8 "天马") false;
   Channel.mk (utf8 "得物") false;
   Channel.mk (utf8 "Nice") true;
   Channel.mk (utf8 "自有库存") false;
   Channel.mk (utf8 "阿迪期货") true].

Definition addChannel (channels : list Channel.t) (name : jsstring)
  : list Channel.t :=
  if existsb (fun c => str_eqb (Channel.name c) name) channels then channels
  else channels ++ [Channel.mk name true].

Definition removeChannel (channels : list Channel.t) (name : jsstring)
  : list Channel.t :=
  filter (fun c => negb (str_eqb (Channel.name c) name)) channels.

End App.

Module Sidebar.

(** [handleAdd] with the text of the input box. *)
Definition handleAdd (channels : list Channel.t) (newChannelName : jsstring)
  : list Channel.t :=
  if negb (str_eqb (trim newChannelName) [])
  then App.addChannel channels (trim newChannelName)
  else channels.

(** A click on the bin of the [i]-th channel; the bin is rendered for
    removable channels only. *)
Definition clickRemove (channels : list Channel.t) (i : nat)
  : list Channel.t :=
  match nth_error channels i with
  | Some channel =>
    if Channel.isRemovable channel
    then App.removeChannel channels (Channel.name channel)
    else channels
  | None => channels
  end.

Inductive action :=
| Add (newChannelName : jsstring)
| Remove (i : nat).

Definition act (channels : list Channel.t) (a : action) : list Channel.t :=
  match a with
  | Add text => handleAdd channels text
  | Remove i => clickRemove channels i
  end.

End Sidebar.

(** ** components/ArbitrageAnalyzer.tsx, continued: from the sheet read to
    the outcome *)

Definition processArbitrageFile (masterData : list ShoeRecord.t)
    (fileName todayDate : jsstring) (getTime : jsstring -> number)
    (rawData : sheet) : outcome :=
  match rawData with
  | [] => ErrorMsg (utf8 "处理失败: 文件内容为空")
  | _ =>
    match findHeaderRow rawData with
    | Some headerRowIndex =>
      processArbitrage masterData fileName todayDate getTime rawData
        headerRowIndex
    | None => Threw
    end
  end.


(** ** components/Dashboard.tsx: the totals *)

Module Dashboard.

Definition totalInventory (data : list ShoeRecord.t) : number :=
  fold_left (fun acc curr => nadd acc (ShoeRecord.salesNum curr))
    (filter (fun d => DataType_eqb (ShoeRecord.dataType d) INVENTORY) data)
    (Fin 0).

Definition totalFuture (data : list ShoeRecord.t) : number :=
  fold_left (fun acc curr => nadd acc (ShoeRecord.salesNum curr))
    (filter (fun d => DataType_eqb (ShoeRecord.dataType d) FUTURE) data)
    (Fin 0).

End Dashboard.


(* ================================================================== *)
(** * Part III. Vocabulary of the specification                        *)
(* ================================================================== *)

(** [x] is a non-negative integer. *)
Definition nonneg_integer (x : number) : Prop := exists k : N, x = ofN k.

(** [x] is a non-negative integer or Infinity. *)
Definition whole_or_infinite (x : number) : Prop :=
  x = Inf false \/ nonneg_integer x.

(** [x] is a number not below 0: a finite one, or Infinity. *)
Definition nonneg_number (x : number) : Prop :=
  (exists p, x = Fin p /\ (0 <= p)%Q) \/ x = Inf false.

(** [x] is at most [y]: neither is NaN, and [x > y] is false. *)
Definition num_le (x y : number) : Prop :=
  isNaN x = false /\ isNaN y = false /\ ngt x y = false.

(** [run] is the first maximal run of decimal digits of [s]. *)
Definition first_digit_run (s run : jsstring) : Prop :=
  exists pre post,
    s = pre ++ run ++ post /\
    Forall (fun c => is_digit c = false) pre /\
    run <> [] /\
    Forall (fun c => is_digit c = true) run /\
    match post with [] => True | c :: _ => is_digit c = false end.

(** JavaScript falsiness, case by case. *)
Definition falsy (v : value) : Prop :=
  v = Undefined \/ v = Null \/ v = Bool false \/ v = Str [] \/ v = Num NaN
  \/ exists q, v = Num (Fin q) /\ (q == 0)%Q.

(** A header cell matches a role when one of the role's keywords occurs in
    its trimmed text. *)
Definition matchesRole (kws : list jsstring) (cell : value) : bool :=
  someIncludes kws (trim (String_ cell)).

(** [z] is the index of the first, respectively last, cell of [hdr] that
    matches the role, or -1 when no cell does. *)
Definition is_first_match (kws : list jsstring) (hdr : list value) (z : Z)
  : Prop :=
  (z = -1 /\ forall i c, nth_error hdr i = Some c -> matchesRole kws c = false)
  \/ exists i c, z = Z.of_nat i /\ nth_error hdr i = Some c
       /\ matchesRole kws c = true
       /\ forall j c', (j < i)%nat -> nth_error hdr j = Some c'
            -> matchesRole kws c' = false.

Definition is_last_match (kws : list jsstring) (hdr : list value) (z : Z)
  : Prop :=
  (z = -1 /\ forall i c, nth_error hdr i = Some c -> matchesRole kws c = false)
  \/ exists i c, z = Z.of_nat i /\ nth_error hdr i = Some c
       /\ matchesRole kws c = true
       /\ forall j c', (i < j)%nat -> nth_error hdr j = Some c'
            -> matchesRole kws c' = false.

(** The orchestrator's completeness policy, as the specification words it. *)
Definition policy (category : DataType) (m : ColMap.t) : Prop :=
  ColMap.sku m <> -1
  /\ (category <> MARKET \/ ColMap.price m <> -1)
  /\ ((category <> INVENTORY /\ category <> FUTURE) \/ ColMap.sales m <> -1).

(** [a]'s profit is at least [b]'s, both profits being numbers. *)
Definition profit_ge (a b : ArbitrageResult.t) : Prop :=
  num_le (ArbitrageResult.profit b) (ArbitrageResult.profit a).

Definition hasSku (sku : jsstring) (x : ArbitrageResult.t) : bool :=
  str_eqb (ArbitrageResult.productCode x) sku.

(** Records and problems contributed by a run of rows. *)
Definition recordsOf (step : nat -> option row -> iteration)
    (rows : list (nat * option row)) : list ShoeRecord.t :=
  flat_map (fun ir => match step (fst ir) (snd ir) with
                      | Push _ rec => [rec] | Continue _ => [] end) rows.
Definition problemsOf (step : nat -> option row -> iteration)
    (rows : list (nat * option row)) : list jsstring :=
  flat_map (fun ir => match step (fst ir) (snd ir) with
                      | Push errs _ => errs | Continue errs => errs end) rows.

(** No row of [rows] has a result whose profit is NaN. *)
Definition profits_are_numbers
    (rowResult : option row -> option ArbitrageResult.t)
    (rows : list (option row)) : Prop :=
  forall o res, In o rows -> rowResult o = Some res ->
    isNaN (ArbitrageResult.profit res) = false.

(** The state of the SKU map after the rows [done]: its keys are distinct;
    each entry is the result of one of the rows done and has its key as
    product code; if the profits of the rows done are numbers, no row done
    with that product code has a greater profit; every row done that
    produced a result has an entry. *)
Definition grouped (rowResult : option row -> option ArbitrageResult.t)
    (done : list (option row))
    (skuMap : list (jsstring * ArbitrageResult.t)) : Prop :=
  NoDup (map fst skuMap)
  /\ (forall k v, Map_get skuMap k = Some v ->
        ArbitrageResult.productCode v = k
        /\ (exists o, In o done /\ rowResult o = Some v)
        /\ (profits_are_numbers rowResult done ->
            forall o res, In o done -> rowResult o = Some res ->
              ArbitrageResult.productCode res = k -> profit_ge v res))
  /\ (forall o res, In o done -> rowResult o = Some res ->
        Map_get skuMap (ArbitrageResult.productCode res) <> None).

(** ** Sample data *)

Definition sample_today : jsstring := utf8 "2024-05-01".
Definition sample_now (i : nat) : N := 1714521600000.
Definition sample_channel : jsstring := utf8 "得物".

(** A sheet with a SKU column and a quantity column, and the mapping a user
    once confirmed for that header. *)
Definition sample_stock_sheet : sheet :=
  [Some [Str (utf8 "货号"); Str (utf8 "销量")];
   Some [Str (utf8 " ab12 "); Num (Fin 5)]].
Definition sample_stock_file : UploadedFile.t :=
  UploadedFile.mk (utf8 "stock.xlsx") sample_stock_sheet 0.
Definition sample_saved : list SavedMapping.t :=
  [SavedMapping.mk (utf8 "货号|销量") (ColMap.mk 0 (-1) (-1) (-1) 1)
     (utf8 "Auto-saved")].
Definition sample_state0 : UploadState.t := UploadState.mk [] 0 [] [].

(** A supplier sheet whose only data row has a negative price and a
    negative quantity, and a market-price sheet with one bad row. *)
Definition sample_supplier_sheet : sheet :=
  [Some [Str (utf8 "货号"); Str (utf8 "价格"); Str (utf8 "销量")];
   Some [Str (utf8 " ab12 "); Str (utf8 "-7"); Num (Fin (-5 # 1))]].
Definition sample_supplier_map : ColMap.t := ColMap.mk 0 (-1) 1 (-1) 2.
Definition sample_supplier_extraction :=
  extractRecords sample_supplier_map (utf8 "supplier.xlsx") sample_channel
    SUPPLIER sample_today sample_now sample_supplier_sheet 0.

(** The supplier sheet with a sales cell beyond the binary64 range: 1
    followed by 309 zeros. *)
Definition sample_huge_sales_sheet : sheet :=
  [Some [Str (utf8 "货号"); Str (utf8 "价格"); Str (utf8 "销量")];
   Some [Str (utf8 " ab12 "); Str (utf8 "-7");
         Str (utf8 "1" ++ repeat 48%N 309)]].

Definition sample_market_bad_row : row := [Str (utf8 "a1"); Num (Fin (-5 # 1))].
Definition sample_market_good_row : row := [Str (utf8 "b2"); Num (Fin 10)].
Definition sample_market_sheet : sheet :=
  [Some [Str (utf8 "货号"); Str (utf8 "价格")];
   Some sample_market_bad_row;
   Some sample_market_good_row].
Definition sample_market_map : ColMap.t := ColMap.mk 0 (-1) 1 (-1) (-1).

(** A stored inventory record of the sample channel; a stock file whose
    header no keyword recognises; the choice a user makes for it in the
    mapping dialog (SKU in column 0, quantity in column 1); and the mapping
    memory that holds this choice. *)
Definition sample_old_record : ShoeRecord.t :=
  ShoeRecord.mk (utf8 "AB12-old") (utf8 "AB12") (utf8 "-") (Fin 0) (Fin 10)
    (Fin 3) (utf8 "3") sample_channel (Some (utf8 "stock-old.xlsx"))
    INVENTORY (utf8 "2024-04-01").
Definition sample_unmapped_file : UploadedFile.t :=
  UploadedFile.mk (utf8 "stock-new.xlsx")
    [Some [Str (utf8 "编码"); Str (utf8 "数量")];
     Some [Str (utf8 " ab12 "); Num (Fin 5)]] 0.
Definition sample_pending : PendingFile.t :=
  PendingFile.mk sample_unmapped_file 0 (utf8 "编码|数量") ColMap.absent.
Definition sample_selection : Selection :=
  Build_Selection (Some 0%nat) None None None (Some 1%nat).
Definition sample_memory : list SavedMapping.t :=
  [SavedMapping.mk (utf8 "编码|数量") (ColMap.mk 0 (-1) (-1) (-1) 1)
     (utf8 "Auto-saved")].

(** A store with the market prices of two SKUs, a purchase sheet that
    lists one SKU twice, and purchase rows with a discount column. *)
Definition sample_getTime (s : jsstring) : number :=
  ofN (digits_value (filter is_digit s)).
Definition sample_store : list ShoeRecord.t :=
  [ShoeRecord.mk (utf8 "A1-m") (utf8 "A1") (utf8 "-") (Fin 1000) (Fin 10)
     (Fin 0) (utf8 "0") sample_channel (Some (utf8 "dewu.xlsx")) MARKET
     (utf8 "2024-04-01");
   ShoeRecord.mk (utf8 "Z9-m") (utf8 "Z9") (utf8 "-") (Fin 2000) (Fin 10)
     (Fin 0) (utf8 "0") sample_channel (Some (utf8 "dewu.xlsx")) MARKET
     (utf8 "2024-04-01")].
Definition sample_discount_cols : Columns.t := Columns.mk 0 1 2 (-1).

Definition sample_matched_row : row :=
  [Str (utf8 "z9"); Num (Fin 1000); Str (utf8 "3.6")].
Definition sample_unmatched_row : row :=
  [Str (utf8 "q7"); Num (Fin 1000); Str (utf8 "3.6")].

(** The rows of [data] before index [n] are all there and none of them
    mentions a product-code keyword. *)
Definition unmatched_before (data : sheet) (n : nat) : Prop :=
  forall j, (j < n)%nat ->
    exists r, nth_error data j = Some (Some r) /\ rowMatches r = false.

(** A sheet with a title line above its header. *)
Definition sample_titled_sheet : sheet :=
  [Some [Str (utf8 "2024 春季订货")];
   Some [Str (utf8 "序号"); Str (utf8 "Art no."); Str (utf8 "牌价")];
   Some [Num (Fin 1); Str (utf8 "a1"); Num (Fin 780)]].


(** A problem of row [i] names the row and its SKU. *)
Definition names_row (i : nat) (sku : jsstring) (problem : jsstring) : Prop :=
  exists rest, problem = rowLabel i sku ++ rest.

(** A market sheet mapped with its SKU in a column the rows do not have. *)
Definition sample_wrong_sku_map : ColMap.t := ColMap.mk 7 (-1) 1 (-1) (-1).


(** What the upload paths guarantee for a stored record: a product code, a
    price that is a number not below 0 (finite, or Infinity), a discount
    that is a number (finite or infinite, never NaN), and a sales count
    that is a non-negative integer or Infinity. *)
Definition wellformed_record (rec : ShoeRecord.t) : Prop :=
  ShoeRecord.productCode rec <> []
  /\ nonneg_number (ShoeRecord.price rec)
  /\ isNaN (ShoeRecord.discount rec) = false
  /\ whole_or_infinite (ShoeRecord.salesNum rec).

(** A second stock file for the sample channel, recognised by its header. *)
Definition sample_stock_file2 : UploadedFile.t :=
  UploadedFile.mk (utf8 "stock2.xlsx")
    [Some [Str (utf8 "货号"); Str (utf8 "库存")];
     Some [Str (utf8 "cd34"); Str (utf8 "12双")];
     Some [Str (utf8 "ef56"); Num (Fin 7)]] 0.


(** The history entry the matcher makes of a stored record, the key under
    which entries are told apart, and the stored records consulted for a
    SKU. *)
Definition historyItemOf (m : ShoeRecord.t) : SalesHistoryItem.t :=
  SalesHistoryItem.mk (ShoeRecord.updateDate m) (sourceOrUnknown m)
    (ShoeRecord.salesNum m) (ShoeRecord.platform m).
Definition itemKey (h : SalesHistoryItem.t) : jsstring :=
  SalesHistoryItem.date h ++ utf8 "#" ++ SalesHistoryItem.file h
    ++ utf8 "#" ++ SalesHistoryItem.platform h.
Definition historyMatches (masterData : list ShoeRecord.t) (sku : jsstring)
  : list ShoeRecord.t :=
  filter (fun d =>
            str_eqb (ShoeRecord.productCode d) sku
            && ngt (ShoeRecord.salesNum d) (Fin 0)
            && (DataType_eqb (ShoeRecord.dataType d) SUPPLIER
                || DataType_eqb (ShoeRecord.dataType d) MARKET))
         masterData.

(** A market-price file of another channel for a SKU the sample store
    already prices. *)
Definition sample_nice_prices : UploadedFile.t :=
  UploadedFile.mk (utf8 "nice.xlsx")
    [Some [Str (utf8 "货号"); Str (utf8 "价格")];
     Some [Str (utf8 "a1"); Num (Fin 1500)]] 0.


(** A store with the stock of two SKUs and a futures order, and a purchase
    sheet that lists one of them. *)
Definition sample_counted_store : list ShoeRecord.t :=
  [sample_old_record;
   ShoeRecord.mk (utf8 "ZZ9-inv") (utf8 "ZZ9") (utf8 "-") (Fin 0) (Fin 10)
     (Fin 4) (utf8 "4") sample_channel (Some (utf8 "stock-old.xlsx"))
     INVENTORY (utf8 "2024-04-01");
   ShoeRecord.mk (utf8 "AB12-fut") (utf8 "AB12") (utf8 "-") (Fin 0) (Fin 10)
     (Fin 6) (utf8 "6") sample_channel (Some (utf8 "futures.xlsx"))
     FUTURE (utf8 "2024-04-02")].
Definition sample_ab12_sheet : sheet :=
  [Some [Str (utf8 "货号"); Str (utf8 "牌价")];
   Some [Str (utf8 "ab12"); Num (Fin 500)]].
(** A supplier sheet that carries the sales of its one row. *)
Definition sample_sold_sheet : sheet :=
  [Some [Str (utf8 "货号"); Str (utf8 "牌价"); Str (utf8 "销量")];
   Some [Str (utf8 "ab12"); Num (Fin 500); Str (utf8 "12双")]].


(** The state of the history map after the stored records [done]: its keys
    are distinct; each entry is the history entry of one of the records
    done, filed under that record's key, and no record done with that key
    has greater sales; every record done has an entry under its key. *)
Definition deduplicated (done : list ShoeRecord.t)
    (uniqueHistoryMap : list (jsstring * SalesHistoryItem.t)) : Prop :=
  NoDup (map fst uniqueHistoryMap)
  /\ (forall k h, In (k, h) uniqueHistoryMap ->
        exists d, In d done /\ k = historyKey d /\ h = historyItemOf d
          /\ forall d', In d' done -> historyKey d' = k ->
               num_le (ShoeRecord.salesNum d') (ShoeRecord.salesNum d))
  /\ (forall d, In d done ->
        Map_get uniqueHistoryMap (historyKey d) <> None).

(** A store with the sales of one SKU from two sources, one of them with
    two sizes. *)
Definition sample_history_store : list ShoeRecord.t :=
  [ShoeRecord.mk (utf8 "AB12-s40") (utf8 "AB12") (utf8 "40") (Fin 300)
     (Fin 6) (Fin 20) (utf8 "20") (utf8 "天马") (Some (utf8 "sup.xlsx"))
     SUPPLIER (utf8 "2024-04-01");
   ShoeRecord.mk (utf8 "AB12-s41") (utf8 "AB12") (utf8 "41") (Fin 300)
     (Fin 6) (Fin 35) (utf8 "35") (utf8 "天马") (Some (utf8 "sup.xlsx"))
     SUPPLIER (utf8 "2024-04-01");
   ShoeRecord.mk (utf8 "AB12-m") (utf8 "AB12") (utf8 "-") (Fin 900)
     (Fin 10) (Fin 12) (utf8 "12") sample_channel (Some (utf8 "dewu.xlsx"))
     MARKET (utf8 "2024-04-10")].


(* ================================================================== *)
(** * Part IV. Properties                                              *)
(* ================================================================== *)

(** ** Strings and numbers *)

Example utf8_sample : utf8 "货号 A" = [36135; 21495; 32; 65]%N.
Proof. reflexivity. Qed.

Example parseFloat_sample :
  parseFloat (utf8 " 3.6abc") = Fin (36 # 10) /\
  parseFloat (utf8 "-5") = Fin (- (5 # 1)) /\
  parseFloat (utf8 "1.5e2") = Fin (150 # 1) /\
  parseFloat (utf8 ".") = NaN /\
  parseFloat (utf8 "abc") = NaN /\
  parseFloat (utf8 "1e400") = Inf false /\
  parseFloat (utf8 "-Infinity") = Inf true /\
  parseFloat (utf8 "1.7976931348623158e308") = Fin (17976931348623158 * 10 ^ 292 # 1) /\
  parseFloat (utf8 "1.7976931348623159e308") = Inf false /\
  parseFloat (utf8 "-1e-400") = Fin 0 /\
  parseFloat (utf8 "0.00") = Fin 0.
Proof. repeat split; vm_compute; reflexivity. Qed.

Example roundN_sample :
  roundN 99999999999999999999 = ofN 100000000000000000000 /\
  roundN 9007199254740993 = ofN 9007199254740992 /\
  roundN 9007199254740995 = ofN 9007199254740996 /\
  roundN (10 ^ 308) <> Inf false /\
  roundN (10 ^ 309) = Inf false.
Proof.
  repeat split; try (vm_compute; reflexivity). vm_compute. discriminate.
Qed.

Example Number_toString_sample :
  Number_toString (Fin (- (5 # 1))) = utf8 "-5" /\
  Number_toString (Fin (36 # 10)) = utf8 "3.6" /\
  Number_toString (Fin 0) = utf8 "0" /\
  Number_toString (Fin (150 # 1)) = utf8 "150" /\
  Number_toString (Inf false) = utf8 "Infinity".
Proof. repeat split; reflexivity. Qed.

Section WhileLemmas.

Context {A : Type} (p : A -> bool).

Lemma takeWhile_dropWhile (l : list A) : takeWhile p l ++ dropWhile p l = l.
Proof.
  induction l as [|x l IH]; simpl; [reflexivity|].
  destruct (p x); simpl; [now rewrite IH | reflexivity].
Qed.

Lemma takeWhile_Forall (l : list A) :
  Forall (fun c => p c = true) (takeWhile p l).
Proof.
  induction l as [|x l IH]; simpl; [constructor|].
  destruct (p x) eqn:E; [constructor; assumption | constructor].
Qed.

Lemma dropWhile_head (l : list A) :
  match dropWhile p l with [] => True | c :: _ => p c = false end.
Proof.
  induction l as [|x l IH]; simpl; [exact I|].
  destruct (p x) eqn:E; [exact IH | exact E].
Qed.

Lemma takeWhile_all (l : list A) :
  Forall (fun c => p c = true) l -> takeWhile p l = l.
Proof.
  induction 1 as [|x l Hx _ IH]; simpl; [reflexivity|].
  now rewrite Hx, IH.
Qed.

Lemma dropWhile_snoc_stop (l : list A) (c : A) :
  p c = false -> dropWhile p (l ++ [c]) <> [].
Proof.
  intros Hc. induction l as [|x l IH]; simpl.
  - rewrite Hc. discriminate.
  - destruct (p x); [exact IH | discriminate].
Qed.

End WhileLemmas.

Lemma str_eqb_eq (s t : jsstring) : str_eqb s t = true <-> s = t.
Proof.
  unfold str_eqb. destruct (list_eq_dec N.eq_dec s t); split;
    congruence.
Qed.

Lemma str_eqb_neq (s t : jsstring) : str_eqb s t = false <-> s <> t.
Proof.
  unfold str_eqb. destruct (list_eq_dec N.eq_dec s t); split;
    congruence.
Qed.

Lemma str_eqb_refl (s : jsstring) : str_eqb s s = true.
Proof. now apply str_eqb_eq. Qed.

(** A decimal digit is neither white space nor a sign. *)
Lemma digit_plain (c : N) :
  is_digit c = true ->
  is_ws c = false /\ (c =? 45)%N = false /\ (c =? 43)%N = false.
Proof.
  unfold is_digit, is_ws. intros H.
  apply andb_true_iff in H. destruct H as [H1 H2].
  apply N.leb_le in H1. apply N.leb_le in H2.
  repeat match goal with
         | |- context [(?a <=? ?b)%N] => destruct (N.leb_spec a b); try lia
         | |- context [(?a =? ?b)%N] => destruct (N.eqb_spec a b); try lia
         end.
Qed.

(** A string that [trimStart] leaves non-empty is not blank. *)
Lemma trim_nonempty (s : jsstring) : trimStart s <> [] -> trim s <> [].
Proof.
  unfold trim, trimEnd. intros Hne.
  pose proof (dropWhile_head is_ws s) as Hh. fold (trimStart s) in Hh.
  destruct (trimStart s) as [|c t]; [congruence|].
  simpl rev. intros Hrev.
  apply (f_equal (@rev N)) in Hrev. rewrite rev_involutive in Hrev.
  simpl in Hrev. now apply (dropWhile_snoc_stop is_ws (rev t) c Hh).
Qed.

(** What [parseFloat] reads as a number is not blank. *)
Lemma parseFloat_number_nonblank (s : jsstring) :
  parseFloat s <> NaN -> trim s <> [].
Proof.
  intros H. apply trim_nonempty. unfold parseFloat in H.
  destruct (trimStart s); [congruence | discriminate].
Qed.

(** ** Rounding a natural number *)

Lemma roundN_small (n : N) : (n < 2 ^ 53)%N -> roundN n = ofN n.
Proof.
  intros Hn. unfold roundN.
  assert (Hs : (N.size n <= 53)%N).
  { pose proof (N.size_le n) as Hle.
    assert (H2 : (2 ^ N.size n < 2 ^ 54)%N).
    { change (2 ^ 54)%N with (2 * 2 ^ 53)%N.
      rewrite N.succ_double_spec in Hle. lia. }
    apply N.pow_lt_mono_r_iff in H2; lia. }
  replace (N.size n - 53)%N with 0%N by lia.
  cbn [N.eqb negb andb]. rewrite N.shiftr_0_r, N.shiftl_0_r.
  destruct (N.leb_spec (N.shiftl 1 1024) n) as [H|H]; [|reflexivity].
  exfalso. rewrite N.shiftl_1_l in H.
  assert ((2 ^ 53 < 2 ^ 1024)%N) by (apply N.pow_lt_mono_r; lia).
  lia.
Qed.

Lemma roundN_whole (n : N) : whole_or_infinite (roundN n).
Proof.
  unfold roundN.
  match goal with
  | |- context [if ?c then Inf false else ofN ?v] =>
    destruct c; [now left | right; now exists v]
  end.
Qed.

(** ** [match(/\d+/)] and [parseInt] *)

Lemma match_digits_None (s : jsstring) :
  match_digits s = None -> Forall (fun c => is_digit c = false) s.
Proof.
  induction s as [|c s IH]; simpl; intros H; [constructor|].
  destruct (is_digit c) eqn:E; [discriminate|].
  constructor; auto.
Qed.

Lemma match_digits_Some (s run : jsstring) :
  match_digits s = Some run -> first_digit_run s run.
Proof.
  induction s as [|c s IH]; simpl; intros H; [discriminate|].
  destruct (is_digit c) eqn:E.
  - injection H as <-.
    exists [], (dropWhile is_digit s). simpl. repeat split.
    + now rewrite takeWhile_dropWhile.
    + constructor.
    + discriminate.
    + constructor; [assumption | apply takeWhile_Forall].
    + apply dropWhile_head.
  - destruct (IH H) as (pre & post & Hs & Hpre & Hne & Hrun & Hpost).
    exists (c :: pre), post. repeat split; auto.
    now rewrite Hs.
Qed.

Lemma parseInt10_digits (run : jsstring) :
  run <> [] -> Forall (fun c => is_digit c = true) run ->
  parseInt10 run = roundN (digits_value run).
Proof.
  intros Hne Hall. destruct run as [|c t]; [congruence|].
  pose proof (Forall_inv Hall) as Hc.
  destruct (digit_plain c Hc) as (Hws & Hm & Hp).
  unfold parseInt10, trimStart. simpl dropWhile. rewrite Hws, Hm, Hp.
  rewrite (takeWhile_all is_digit (c :: t) Hall). reflexivity.
Qed.

(** ** [extractSalesNum] *)

Lemma extractSalesNum_Str (s : jsstring) :
  (s = [] /\ extractSalesNum (Str s) = Fin 0)
  \/ (s <> [] /\ Forall (fun c => is_digit c = false) s
      /\ extractSalesNum (Str s) = Fin 0)
  \/ (exists run, first_digit_run s run
      /\ extractSalesNum (Str s) = roundN (digits_value run)).
Proof.
  unfold extractSalesNum. simpl truthy. simpl String_.
  destruct (str_eqb s []) eqn:E.
  - left. apply str_eqb_eq in E. now split.
  - apply str_eqb_neq in E. simpl negb. cbv iota.
    destruct (match_digits s) as [run|] eqn:M.
    + right; right. exists run. pose proof (match_digits_Some s run M) as F.
      split; [exact F|].
      destruct F as (pre & post & _ & _ & Hne & Hall & _).
      now apply parseInt10_digits.
    + right; left. repeat split; auto. now apply match_digits_None.
Qed.

Lemma extractSalesNum_Str_whole (s : jsstring) :
  whole_or_infinite (extractSalesNum (Str s)).
Proof.
  destruct (extractSalesNum_Str s) as [[_ H]|[(_ & _ & H)|(run & _ & H)]];
    rewrite H;
    [right; now exists 0%N | right; now exists 0%N | apply roundN_whole].
Qed.

Lemma extractSalesNum_truthy (raw : value) :
  (forall n, raw <> Num n) -> truthy raw = true ->
  extractSalesNum raw = extractSalesNum (Str (String_ raw)).
Proof.
  intros Hn Ht. destruct raw as [| |b|n|s]; try discriminate.
  - destruct b; [reflexivity | discriminate].
  - now elim (Hn n).
  - reflexivity.
Qed.

(** C4 (as amended). A numeric input is returned as it is, whatever its
    sign; every other input yields 0 when the input is absent (falsy) or
    its string form has no digit, and otherwise the number value of the
    first run of decimal digits of its string form: the exact value of the
    run when that is below 2^53, beyond that the nearest binary64 value,
    which is Infinity for the longest runs.  So every other input yields a
    non-negative integer or Infinity.  The four sample values of the
    specification hold; twenty nines give 10^20, and 1 followed by 309
    zeros gives Infinity. *)
Theorem extractSalesNum_spec :
  (forall raw,
     match raw with
     | Num n => extractSalesNum raw = n
     | _ =>
       whole_or_infinite (extractSalesNum raw)
       /\ ((truthy raw = false /\ extractSalesNum raw = Fin 0)
           \/ (Forall (fun c => is_digit c = false) (String_ raw)
               /\ extractSalesNum raw = Fin 0)
           \/ (exists run, first_digit_run (String_ raw) run
               /\ extractSalesNum raw = roundN (digits_value run)
               /\ ((digits_value run < 2 ^ 53)%N ->
                   extractSalesNum raw = ofN (digits_value run))))
     end)
  /\ extractSalesNum (Str (utf8 "3000+件")) = Fin 3000
  /\ extractSalesNum (Num (Fin 150)) = Fin 150
  /\ extractSalesNum (Str (utf8 "")) = Fin 0
  /\ extractSalesNum (Str (utf8 "无")) = Fin 0
  /\ extractSalesNum (Str (utf8 "99999999999999999999 件"))
     = ofN (10 ^ 20)
  /\ extractSalesNum (Str (utf8 "1" ++ repeat 48%N 309)) = Inf false.
Proof.
  split; [|repeat split; vm_compute; reflexivity].
  intros raw.
  assert (Hstr : forall s,
    whole_or_infinite (extractSalesNum (Str s))
    /\ ((truthy (Str s) = false /\ extractSalesNum (Str s) = Fin 0)
        \/ (Forall (fun c => is_digit c = false) s
            /\ extractSalesNum (Str s) = Fin 0)
        \/ (exists run, first_digit_run s run
            /\ extractSalesNum (Str s) = roundN (digits_value run)
            /\ ((digits_value run < 2 ^ 53)%N ->
                extractSalesNum (Str s) = ofN (digits_value run))))).
  { intros s. split; [apply extractSalesNum_Str_whole|].
    destruct (extractSalesNum_Str s) as [[-> H]|[(_ & Hd & H)|H]].
    - left. split; [reflexivity | exact H].
    - right; left. now split.
    - right; right. destruct H as (run & Hrun & H). exists run.
      split; [exact Hrun|]. split; [exact H|].
      intros Hsmall. now rewrite H, roundN_small. }
  destruct raw as [| |b|n|s].
  - split; [right; exists 0%N; reflexivity | left; split; reflexivity].
  - split; [right; exists 0%N; reflexivity | left; split; reflexivity].
  - destruct b.
    + split; [right; exists 0%N; reflexivity|].
      right; left. split; [|reflexivity].
      repeat constructor.
    + split; [right; exists 0%N; reflexivity | left; split; reflexivity].
  - reflexivity.
  - apply Hstr.
Qed.

(** C4, the claim as stated fails: a negative number is handed back
    unchanged, so the result is not always a non-negative integer. *)
Lemma extractSalesNum_not_always_nonneg :
  ~ (forall raw, nonneg_integer (extractSalesNum raw)).
Proof.
  intros H. destruct (H (Num (Fin (-5 # 1)))) as [k Hk].
  simpl in Hk. unfold ofN in Hk. injection Hk as Hk. lia.
Qed.

(** ** [parseDiscount] *)

Lemma falsy_truthy (v : value) : falsy v <-> truthy v = false.
Proof.
  unfold falsy. split.
  - intros [->|[->|[->|[->|[->|(q & -> & Hq)]]]]]; try reflexivity.
    cbn [truthy num_truthy]. apply Qeq_bool_iff in Hq. now rewrite Hq.
  - destruct v as [| |b|n|s]; cbn [truthy num_truthy]; intros H; auto.
    + destruct b; [discriminate | auto].
    + destruct n as [|q|i]; [auto 6| |discriminate].
      right; right; right; right; right. exists q. split; [reflexivity|].
      apply Qeq_bool_iff. apply negb_false_iff in H. exact H.
    + right; right; right; left. f_equal. apply str_eqb_eq.
      apply negb_false_iff in H. exact H.
Qed.

(** C9. The number 0 and every other falsy input (undefined, null, false,
    the empty string, NaN) make [parseDiscount] answer the default 10: a
    discount cell holding the number 0 reads as "no discount", not as a
    100% discount. *)
Theorem parseDiscount_falsy (raw : value) :
  falsy raw -> parseDiscount raw = Fin 10.
Proof.
  intros H. apply falsy_truthy in H. unfold parseDiscount. now rewrite H.
Qed.

(** The number 0, the empty string and NaN, each answered with 10. *)
Lemma parseDiscount_falsy_witness :
  falsy (Num (Fin 0)) /\ parseDiscount (Num (Fin 0)) = Fin 10
  /\ parseDiscount (Str []) = Fin 10
  /\ parseDiscount (Num NaN) = Fin 10.
Proof.
  assert (H0 : falsy (Num (Fin 0))).
  { right; right; right; right; right. exists 0%Q.
    split; reflexivity. }
  split; [exact H0|]. split; [exact (parseDiscount_falsy _ H0)|].
  split; apply parseDiscount_falsy; unfold falsy; auto 6.
Defined.

Lemma parseDiscount_parsed (raw : value) (q : Q) :
  truthy raw = true -> parseFloat (String_ raw) = Fin q ->
  parseDiscount raw = Fin q.
Proof.
  intros Ht Hp. unfold parseDiscount. now rewrite Ht, Hp.
Qed.

(** [parseDiscount] never answers NaN. *)
Lemma parseDiscount_number (raw : value) : isNaN (parseDiscount raw) = false.
Proof.
  unfold parseDiscount. destruct (truthy raw); simpl; [|reflexivity].
  now destruct (parseFloat (String_ raw)).
Qed.


(** ** Column detection *)

Section LastMatch.

Context {A M : Type} (p : A -> bool).
Context (step : M -> nat * A -> M) (field : M -> Z).
Hypothesis step_field :
  forall m ic,
    field (step m ic) = if p (snd ic) then Z.of_nat (fst ic) else field m.

(** A [forEach] whose matching cells overwrite the field leaves in it the
    index of the last matching cell. *)
Lemma fold_last_index (l : list A) :
  forall (s : nat) (m : M),
    let zf := field (fold_left step (combine (seq s (length l)) l) m) in
    ((forall i c, nth_error l i = Some c -> p c = false) /\ zf = field m)
    \/ exists i c, zf = Z.of_nat (s + i) /\ nth_error l i = Some c
         /\ p c = true
         /\ forall j c', (i < j)%nat -> nth_error l j = Some c'
              -> p c' = false.
Proof.
  induction l as [|x l IH]; intros s m; simpl.
  - left. split; [|reflexivity]. intros [|i] c; discriminate.
  - destruct (IH (S s) (step m (s, x))) as [[Hno Hz]|(i & c & Hz & Hn & Hp & Hlast)].
    + rewrite step_field in Hz. simpl in Hz.
      destruct (p x) eqn:Px.
      * right. exists 0%nat, x. rewrite Nat.add_0_r.
        repeat split; auto.
        intros [|j] c' Hj Hc'; [lia|]. simpl in Hc'. eauto.
      * left. split; [|exact Hz].
        intros [|i] c Hc; simpl in Hc; [congruence | eauto].
    + right. exists (S i), c. repeat split; auto.
      * rewrite Hz. f_equal. lia.
      * intros [|j] c' Hj Hc'; [lia|]. simpl in Hc'.
        apply (Hlast j c'); [lia | exact Hc'].
Qed.

End LastMatch.

Ltac role_step :=
  intros m [i c]; unfold DataManager.detectStep, matchesRole; simpl fst;
  simpl snd;
  repeat match goal with
         | |- context [someIncludes ?k ?c] => destruct (someIncludes k c)
         end; reflexivity.

Lemma autoDetect_role (kws : list jsstring) (field : ColMap.t -> Z)
    (headerRow : list value) :
  (forall m ic, field (DataManager.detectStep m ic)
                = if matchesRole kws (snd ic) then Z.of_nat (fst ic)
                  else field m) ->
  field ColMap.absent = -1 ->
  is_last_match kws headerRow (field (autoDetectColumns headerRow)).
Proof.
  intros Hstep H0. unfold autoDetectColumns, indexed.
  destruct (fold_last_index (matchesRole kws) DataManager.detectStep field
              Hstep headerRow 0 ColMap.absent)
    as [[Hno Hz]|(i & c & Hz & Hn & Hp & Hlast)].
  - left. split; [congruence | exact Hno].
  - right. exists i, c. repeat split; auto.
Qed.

(** C3 (as amended). For every header row and each role (sku, size, price,
    discount, sales), the Column Mapper tests the role's keywords against
    the trimmed text of each header cell by case-sensitive substring match
    and records the index of the last matching column; a role with no
    matching cell gets the sentinel -1. *)
Theorem autoDetectColumns_last_match (headerRow : list value) :
  let m := autoDetectColumns headerRow in
  is_last_match DataManager.kwSku headerRow (ColMap.sku m)
  /\ is_last_match DataManager.kwSize headerRow (ColMap.size m)
  /\ is_last_match DataManager.kwPrice headerRow (ColMap.price m)
  /\ is_last_match DataManager.kwDiscount headerRow (ColMap.discount m)
  /\ is_last_match DataManager.kwSales headerRow (ColMap.sales m).
Proof.
  cbv zeta. repeat split; apply autoDetect_role; try reflexivity; role_step.
Qed.

(** C3, the claim as stated fails: with two SKU-like header cells the
    recorded index is that of the later one, not of the first. *)
Lemma autoDetectColumns_not_first_match :
  ~ (forall headerRow,
       is_first_match DataManager.kwSku headerRow
         (ColMap.sku (autoDetectColumns headerRow))).
Proof.
  intros H.
  specialize (H [Str (utf8 "SKU"); Str (utf8 "尺码"); Str (utf8 "货号")]).
  change (ColMap.sku _) with 2 in H.
  destruct H as [[H _]|(i & c & Hi & _ & _ & Hbefore)]; [discriminate|].
  assert (i = 2%nat) by lia. subst i.
  specialize (Hbefore 0%nat (Str (utf8 "SKU")) ltac:(lia) eq_refl).
  discriminate Hbefore.
Qed.

(** The purchase-sheet header detection of the matcher follows the same
    pattern: the last matching column wins. *)
Lemma detectColumns_sku_last (headerRow : list jsstring) :
  let z := Columns.skuIdx (detectColumns headerRow) in
  (z = -1 /\ forall i c, nth_error headerRow i = Some c
                         -> someIncludes ArbitrageAnalyzer.kwSku c = false)
  \/ exists i c, z = Z.of_nat i /\ nth_error headerRow i = Some c
       /\ someIncludes ArbitrageAnalyzer.kwSku c = true
       /\ forall j c', (i < j)%nat -> nth_error headerRow j = Some c'
            -> someIncludes ArbitrageAnalyzer.kwSku c' = false.
Proof.
  cbv zeta. unfold detectColumns, indexed.
  destruct (fold_last_index (someIncludes ArbitrageAnalyzer.kwSku)
              ArbitrageAnalyzer.detectStep Columns.skuIdx) with
    (l := headerRow) (s := 0%nat) (m := Columns.absent)
    as [[Hno Hz]|(i & c & Hz & Hn & Hp & Hlast)].
  - intros m [i c]. unfold ArbitrageAnalyzer.detectStep. simpl fst.
    simpl snd.
    repeat match goal with
           | |- context [someIncludes ?k ?c] => destruct (someIncludes k c)
           end; reflexivity.
  - left. split; [exact Hz | exact Hno].
  - right. exists i, c. repeat split; auto.
Qed.

(** ** The completeness policy *)

Lemma DataType_eqb_eq (a b : DataType) : DataType_eqb a b = true <-> a = b.
Proof. destruct a, b; simpl; split; congruence. Qed.

Lemma isComplete_policy (category : DataType) (m : ColMap.t)
    (usedSavedMap : bool) :
  isComplete category m usedSavedMap = true
  <-> usedSavedMap = true \/ policy category m.
Proof.
  unfold isComplete, policy.
  destruct usedSavedMap; [tauto|].
  destruct (Z.eqb_spec (ColMap.sku m) (-1)) as [Es|Es];
  destruct (Z.eqb_spec (ColMap.price m) (-1)) as [Ep|Ep];
  destruct (Z.eqb_spec (ColMap.sales m) (-1)) as [El|El];
  destruct category; simpl; split;
    try discriminate; try tauto; try congruence;
    intros; try (right; repeat split; auto; try (left; discriminate);
                 try (left; split; discriminate));
    try (destruct H as [H|(H1 & [H2|H2] & [[H3 H4]|H3])];
         congruence).
Qed.

Lemma chooseMapping_used (saved : list SavedMapping.t)
    (hdr : list jsstring) :
  snd (chooseMapping saved hdr) = true
  <-> exists sm, In sm saved
        /\ SavedMapping.signature sm = join (utf8 "|") hdr.
Proof.
  unfold chooseMapping, findSaved.
  destruct (find _ saved) as [sm|] eqn:F; simpl.
  - split; [intros _ | reflexivity].
    apply find_some in F. destruct F as [Hin He].
    exists sm. split; [exact Hin | now apply str_eqb_eq].
  - split; [discriminate|]. intros (sm & Hin & Hs).
    pose proof (find_none _ _ F sm Hin) as Hn. simpl in Hn.
    rewrite Hs, str_eqb_refl in Hn. discriminate.
Qed.

Lemma snoc_neq {A} (l : list A) (x : A) : l ++ [x] <> l.
Proof.
  intros H. apply (f_equal (@length A)) in H.
  rewrite length_app in H. simpl in H. lia.
Qed.

(** C5. For a non-empty sheet, the orchestrator extracts with the chosen
    mapping without asking exactly when the mapping is a remembered one
    (its signature equals the sheet's header signature) or satisfies the
    completeness policy: SKU present, price present for market-price
    imports, sales present for inventory and futures imports.  Otherwise
    the sheet joins the manual-mapping queue and contributes no record. *)
Theorem auto_accept_policy (savedMappings : list SavedMapping.t)
    (selectedPlatform : jsstring) (selectedType : DataType)
    (today : jsstring) (now : nat -> N)
    (st : UploadState.t) (f : UploadedFile.t) :
  UploadedFile.rawData f <> [] ->
  let hdr := headerRowOf (UploadedFile.rawData f)
                         (UploadedFile.headerIndex f) in
  let colMap := fst (chooseMapping savedMappings hdr) in
  let remembered := snd (chooseMapping savedMappings hdr) in
  let st' := uploadFile savedMappings selectedPlatform selectedType today
                        now st f in
  (remembered = true
   <-> exists sm, In sm savedMappings
         /\ SavedMapping.signature sm = join (utf8 "|") hdr)
  /\ (UploadState.mappingQueue st' = UploadState.mappingQueue st
      <-> remembered = true \/ policy selectedType colMap)
  /\ (remembered = true \/ policy selectedType colMap ->
      UploadState.allNewRecords st'
      = UploadState.allNewRecords st
          ++ fst (extractRecords colMap (UploadedFile.name f)
                    selectedPlatform selectedType today now
                    (UploadedFile.rawData f) (UploadedFile.headerIndex f)))
  /\ (~ (remembered = true \/ policy selectedType colMap) ->
      UploadState.mappingQueue st'
      = UploadState.mappingQueue st
          ++ [PendingFile.mk f (UploadedFile.headerIndex f)
                (join (utf8 "|") hdr) colMap]
      /\ UploadState.allNewRecords st' = UploadState.allNewRecords st).
Proof.
  intros Hne. cbv zeta.
  split; [apply chooseMapping_used|].
  unfold uploadFile.
  destruct (UploadedFile.rawData f) as [|r0 rest] eqn:Raw; [congruence|].
  change (length (r0 :: rest) =? 0)%nat with false. cbv iota.
  destruct (chooseMapping savedMappings
              (headerRowOf (r0 :: rest) (UploadedFile.headerIndex f)))
    as [colMap used] eqn:Ch.
  cbn [fst snd].
  pose proof (isComplete_policy selectedType colMap used) as Pol.
  destruct (isComplete selectedType colMap used) eqn:Ic.
  - assert (Hok : used = true \/ policy selectedType colMap)
      by (now apply Pol).
    destruct (extractRecords colMap (UploadedFile.name f) selectedPlatform
                selectedType today now (r0 :: rest)
                (UploadedFile.headerIndex f)) as [records fileErrors].
    cbn [fst].
    assert (Hq : forall e,
      UploadState.mappingQueue
        (match records with
         | [] => UploadState.mk (UploadState.allNewRecords st)
                   (UploadState.successCount st)
                   (UploadState.mappingQueue st) e
         | _ :: _ => UploadState.mk (UploadState.allNewRecords st ++ records)
                   (S (UploadState.successCount st))
                   (UploadState.mappingQueue st) e
         end) = UploadState.mappingQueue st)
      by (intros e; destruct records; reflexivity).
    assert (Hr : forall e,
      UploadState.allNewRecords
        (match records with
         | [] => UploadState.mk (UploadState.allNewRecords st)
                   (UploadState.successCount st)
                   (UploadState.mappingQueue st) e
         | _ :: _ => UploadState.mk (UploadState.allNewRecords st ++ records)
                   (S (UploadState.successCount st))
                   (UploadState.mappingQueue st) e
         end) = UploadState.allNewRecords st ++ records)
      by (intros e; destruct records; simpl;
          [now rewrite app_nil_r | reflexivity]).
    repeat split; intros; auto; tauto.
  - assert (Hno : ~ (used = true \/ policy selectedType colMap)).
    { intros H. apply Pol in H. discriminate. }
    cbn [UploadState.mappingQueue UploadState.allNewRecords].
    repeat split; intros; auto; try tauto.
    exfalso. eapply snoc_neq; eassumption.
Qed.

(** A market-price import whose remembered mapping has no price column is
    extracted all the same. *)
Lemma auto_accept_policy_witness :
  UploadedFile.rawData sample_stock_file <> []
  /\ ~ policy MARKET
         (fst (chooseMapping sample_saved
                 (headerRowOf sample_stock_sheet 0)))
  /\ UploadState.mappingQueue
       (uploadFile sample_saved sample_channel MARKET sample_today
          sample_now sample_state0 sample_stock_file) = []
  /\ length (UploadState.allNewRecords
       (uploadFile sample_saved sample_channel MARKET sample_today
          sample_now sample_state0 sample_stock_file)) = 1%nat.
Proof.
  assert (Hne : UploadedFile.rawData sample_stock_file <> [])
    by discriminate.
  destruct (auto_accept_policy sample_saved sample_channel MARKET
              sample_today sample_now sample_state0 sample_stock_file Hne)
    as (_ & Hq & Hr & _).
  split; [exact Hne|]. split.
  - intros (_ & [Hm|Hp] & _); [now apply Hm | now apply Hp].
  - split.
    + exact (proj2 Hq (or_introl eq_refl)).
    + rewrite (Hr (or_introl eq_refl)). reflexivity.
Defined.

(** ** The Record Extractor *)

Lemma Qltb_lt (a b : Q) : Qltb a b = true <-> (a < b)%Q.
Proof.
  unfold Qltb. rewrite negb_true_iff. split.
  - intros H. apply Qnot_le_lt. intros Hle.
    apply Qle_bool_iff in Hle. congruence.
  - intros H. destruct (Qle_bool b a) eqn:E; [|reflexivity].
    apply Qle_bool_iff in E. exfalso. now apply (Qlt_not_le a b).
Qed.

Lemma Qltb_ge (a b : Q) : Qltb a b = false <-> (b <= a)%Q.
Proof.
  unfold Qltb. rewrite negb_false_iff. apply Qle_bool_iff.
Qed.

Lemma combine_seq_In {A} (l : list A) :
  forall (s i : nat) (x : A),
    In (i, x) (combine (seq s (length l)) l) ->
    (s <= i)%nat /\ nth_error l (i - s) = Some x.
Proof.
  induction l as [|y l IH]; intros s i x H; simpl in H; [contradiction|].
  destruct H as [H|H].
  - injection H as <- <-. split; [lia|]. now rewrite Nat.sub_diag.
  - apply IH in H. destruct H as [Hle Hn]. split; [lia|].
    replace (i - s)%nat with (S (i - S s)) by lia. exact Hn.
Qed.

Lemma skipn_combine_seq {A} (k : nat) :
  forall (s : nat) (l : list A),
    skipn k (combine (seq s (length l)) l)
    = combine (seq (s + k) (length (skipn k l))) (skipn k l).
Proof.
  induction k as [|k IH]; intros s l.
  - simpl. now rewrite Nat.add_0_r.
  - destruct l as [|y l]; [reflexivity|]. simpl.
    rewrite IH. now replace (S s + k)%nat with (s + S k)%nat by lia.
Qed.

(** A data row carries its own index in the sheet, past the header. *)
Lemma dataRows_In (rawData : sheet) (h i : nat) (o : option row) :
  In (i, o) (dataRows rawData h) ->
  (h < i)%nat /\ nth_error rawData i = Some o.
Proof.
  unfold dataRows, indexed. rewrite skipn_combine_seq. intros H.
  apply combine_seq_In in H. destruct H as [Hle Hn].
  rewrite nth_error_skipn in Hn. simpl in Hle. split; [lia|].
  now replace (S h + (i - (0 + S h)))%nat with i in Hn by lia.
Qed.

Section ExtractionFacts.

Variables (map : ColMap.t) (fileName platform : jsstring) (type : DataType).
Variables (today : jsstring) (now : nat -> N).

Let step := extractRow map fileName platform type today now.

Lemma extractRows_state (rows : list (nat * option row)) :
  forall rs es,
    extractRows map fileName platform type today now rows (rs, es)
    = (rs ++ recordsOf step rows, es ++ problemsOf step rows).
Proof.
  unfold extractRows.
  induction rows as [|[i o] rows IH]; intros rs es; simpl.
  - now rewrite !app_nil_r.
  - fold (step i o). destruct (step i o) as [errs|errs rec];
      simpl; rewrite IH; now rewrite <- !app_assoc.
Qed.

Lemma extractRecords_flat (rawData : sheet) (h : nat) :
  extractRecords map fileName platform type today now rawData h
  = (recordsOf step (dataRows rawData h),
     problemsOf step (dataRows rawData h)).
Proof.
  unfold extractRecords. now rewrite extractRows_state.
Qed.

Lemma recordsOf_In (rows : list (nat * option row)) (rec : ShoeRecord.t) :
  In rec (recordsOf step rows) ->
  exists i o errs, In (i, o) rows /\ step i o = Push errs rec.
Proof.
  unfold recordsOf. rewrite in_flat_map. intros ([i o] & Hin & Hrec).
  simpl in Hrec. destruct (step i o) as [errs|errs rec'] eqn:E;
    [contradiction|].
  destruct Hrec as [<-|[]]. now exists i, o, errs.
Qed.

End ExtractionFacts.

Lemma priceField_Some (map : ColMap.t) (type : DataType) (i : nat)
    (sku : jsstring) (r : row) (pr : number) (errs : list jsstring) :
  priceField map type i sku r = (Some pr, errs) ->
  let pNum := parseFloat (String_ (get r (ColMap.price map))) in
  nonneg_number pr
  /\ (pr = Fin 0 \/ pr = pNum)
  /\ (isNaN pNum = true \/ nlt pNum (Fin 0) = true -> pr = Fin 0).
Proof.
  cbv zeta. unfold priceField.
  assert (Z0 : nonneg_number (Fin 0))
    by (left; exists 0%Q; split; [reflexivity | apply Qle_refl]).
  destruct (ColMap.price map =? -1) eqn:Ep.
  - intros E. injection E as <- _. repeat split; auto.
  - destruct (nonblank (get r (ColMap.price map))) eqn:Nb.
    + destruct (parseFloat (String_ (get r (ColMap.price map))))
        as [|p|neg] eqn:Pf; cbn [isNaN].
      * destruct (DataType_eqb type MARKET) eqn:Et; [discriminate|].
        intros E. injection E as <- _. repeat split; auto.
      * destruct (nlt (Fin p) (Fin 0)) eqn:Neg.
        -- destruct (DataType_eqb type MARKET) eqn:Et; [discriminate|].
           intros E. injection E as <- _. repeat split; auto.
        -- intros E. injection E as <- _.
           split; [|split]; auto.
           ++ left. exists p. split; [reflexivity|].
              unfold nlt, ngt in Neg. now apply Qltb_ge in Neg.
           ++ intros [F|F]; discriminate F.
      * destruct neg; cbn [nlt ngt].
        -- destruct (DataType_eqb type MARKET) eqn:Et; [discriminate|].
           intros E. injection E as <- _. repeat split; auto.
        -- intros E. injection E as <- _.
           split; [now right|]. split; [now right|].
           intros [F|F]; discriminate F.
    + destruct (DataType_eqb type MARKET) eqn:Et; [discriminate|].
      intros E. injection E as <- _. repeat split; auto.
Qed.

Lemma cleanProductCode_nonempty (v : value) :
  cleanProductCode v <> [] ->
  truthy v = true /\ is_undefined v = false
  /\ cleanProductCode v = toUpperCase (trim (String_ v)).
Proof.
  unfold cleanProductCode. destruct (truthy v) eqn:T; simpl; [|congruence].
  intros _. repeat split. now destruct v.
Qed.

Lemma extractRow_Push (map : ColMap.t) (fileName platform : jsstring)
    (type : DataType) (today : jsstring) (now : nat -> N)
    (i : nat) (o : option row) (errs : list jsstring) (rec : ShoeRecord.t) :
  extractRow map fileName platform type today now i o = Push errs rec ->
  exists r, o = Some r /\
    let skuCell := get r (ColMap.sku map) in
    let pNum := parseFloat (String_ (get r (ColMap.price map))) in
    let salesCell := get r (ColMap.sales map) in
    ShoeRecord.productCode rec <> []
    /\ ShoeRecord.productCode rec = toUpperCase (trim (String_ skuCell))
    /\ nonneg_number (ShoeRecord.price rec)
    /\ (ShoeRecord.price rec = Fin 0 \/ ShoeRecord.price rec = pNum)
    /\ (isNaN pNum = true \/ nlt pNum (Fin 0) = true ->
        ShoeRecord.price rec = Fin 0)
    /\ whole_or_infinite (ShoeRecord.salesNum rec)
    /\ (ShoeRecord.salesNum rec = Fin 0
        \/ ShoeRecord.salesNum rec
           = extractSalesNum (Str (String_ salesCell))).
Proof.
  intros H. destruct o as [r|]; [|discriminate]. exists r.
  split; [reflexivity|]. cbv zeta. unfold extractRow in H.
  destruct (length r =? 0)%nat; [discriminate|].
  destruct ((ColMap.sku map =? -1)
            || is_undefined (get r (ColMap.sku map))); [discriminate|].
  destruct (str_eqb (cleanProductCode (get r (ColMap.sku map))) [])
    eqn:Es; [discriminate|].
  apply str_eqb_neq in Es.
  destruct (cleanProductCode_nonempty _ Es) as (_ & _ & Hsku).
  destruct (priceField map type i _ r) as [[pr|] errs1] eqn:Pf;
    [|discriminate].
  destruct (discountField map type i _ r) as [[dc|] errs2];
    [|discriminate].
  injection H as _ <-. cbn [ShoeRecord.productCode ShoeRecord.price
                            ShoeRecord.salesNum].
  destruct (priceField_Some _ _ _ _ _ _ _ Pf) as (Hp1 & Hp2 & Hp3).
  repeat split; auto.
  - destruct (negb (ColMap.sales map =? -1)
              && negb (is_undefined (get r (ColMap.sales map))));
      [apply extractSalesNum_Str_whole | right; exists 0%N; reflexivity].
  - destruct (negb (ColMap.sales map =? -1)
              && negb (is_undefined (get r (ColMap.sales map))));
      [right | left]; reflexivity.
Qed.

(** C8 (as amended). Every record that [extractRecords] returns comes from
    a row after the header and has: a non-empty product code, equal to the
    trimmed, upper-cased text of that row's SKU cell; a price that is a
    number not below 0, which is the default 0 whenever the price cell does
    not parse or parses below 0; and a sales count that is a non-negative
    integer or Infinity, being 0 or the count extracted from the text of
    the sales cell, and Infinity only when the first run of digits in that
    text is beyond the binary64 range. *)
Theorem extractRecords_wellformed (map : ColMap.t)
    (fileName platform : jsstring) (type : DataType) (today : jsstring)
    (now : nat -> N) (rawData : sheet) (headerIndex : nat)
    (rec : ShoeRecord.t) :
  In rec (fst (extractRecords map fileName platform type today now
                 rawData headerIndex)) ->
  exists i r,
    nth_error rawData i = Some (Some r) /\ (headerIndex < i)%nat /\
    let skuCell := get r (ColMap.sku map) in
    let pNum := parseFloat (String_ (get r (ColMap.price map))) in
    let salesCell := get r (ColMap.sales map) in
    ShoeRecord.productCode rec <> []
    /\ ShoeRecord.productCode rec = toUpperCase (trim (String_ skuCell))
    /\ nonneg_number (ShoeRecord.price rec)
    /\ (ShoeRecord.price rec = Fin 0 \/ ShoeRecord.price rec = pNum)
    /\ (isNaN pNum = true \/ nlt pNum (Fin 0) = true ->
        ShoeRecord.price rec = Fin 0)
    /\ whole_or_infinite (ShoeRecord.salesNum rec)
    /\ (ShoeRecord.salesNum rec = Fin 0
        \/ ShoeRecord.salesNum rec
           = extractSalesNum (Str (String_ salesCell)))
    /\ (ShoeRecord.salesNum rec = Inf false ->
        exists run,
          first_digit_run (String_ salesCell) run
          /\ roundN (digits_value run) = Inf false).
Proof.
  rewrite extractRecords_flat. cbn [fst]. intros Hin.
  apply recordsOf_In in Hin. destruct Hin as (i & o & errs & Hin & Hstep).
  apply extractRow_Push in Hstep. destruct Hstep as (r & -> & Hrec).
  apply dataRows_In in Hin. destruct Hin as [Hlt Hn].
  exists i, r. split; [exact Hn|]. split; [exact Hlt|]. cbv zeta in *.
  destruct Hrec as (H1 & H2 & H3 & H4 & H5 & H6 & H7).
  repeat (split; [assumption|]).
  intros Hinf. destruct H7 as [H7|H7]; [congruence|].
  rewrite Hinf in H7.
  destruct (extractSalesNum_Str (String_ (get r (ColMap.sales map))))
    as [[_ H]|[(_ & _ & H)|(run & Hrun & H)]];
    [congruence | congruence |].
  exists run. split; [exact Hrun | congruence].
Qed.

(** A supplier row " ab12 ", "-7", -5: the record has code AB12, price 0
    and sales count 5 (from the text "-5"). *)
Lemma extractRecords_wellformed_witness :
  exists rec,
    In rec (fst sample_supplier_extraction)
    /\ ShoeRecord.productCode rec = utf8 "AB12"
    /\ ShoeRecord.price rec = Fin 0
    /\ ShoeRecord.salesRaw rec = utf8 "-5"
    /\ ShoeRecord.salesNum rec = Fin 5
    /\ exists i r,
         nth_error sample_supplier_sheet i = Some (Some r) /\ (0 < i)%nat
         /\ ShoeRecord.productCode rec <> []
         /\ ShoeRecord.productCode rec
            = toUpperCase (trim (String_ (get r 0)))
         /\ nonneg_number (ShoeRecord.price rec)
         /\ whole_or_infinite (ShoeRecord.salesNum rec).
Proof.
  assert (E : exists rec,
             fst sample_supplier_extraction = [rec]
             /\ ShoeRecord.productCode rec = utf8 "AB12"
             /\ ShoeRecord.price rec = Fin 0
             /\ ShoeRecord.salesRaw rec = utf8 "-5"
             /\ ShoeRecord.salesNum rec = Fin 5).
  { vm_compute. eexists. split; [reflexivity|]. repeat split. }
  destruct E as (rec & E & F1 & F2 & F3 & F4).
  assert (Hin : In rec (fst sample_supplier_extraction))
    by (rewrite E; left; reflexivity).
  exists rec. repeat (split; [assumption|]).
  destruct (extractRecords_wellformed sample_supplier_map
              (utf8 "supplier.xlsx") sample_channel SUPPLIER sample_today
              sample_now sample_supplier_sheet 0 rec Hin)
    as (i & r & Hn & Hi & T1 & T2 & T3 & _ & _ & T6 & _).
  exists i, r. repeat split; assumption.
Defined.

(** C8, the claim as stated fails: a sales cell whose text holds 1 followed
    by 309 zeros is stored as the sales count Infinity, which is not a
    non-negative integer. *)
Lemma extractRecords_sales_can_be_infinite :
  ~ (forall map fileName platform type today now rawData headerIndex rec,
       In rec (fst (extractRecords map fileName platform type today now
                      rawData headerIndex)) ->
       nonneg_integer (ShoeRecord.salesNum rec)).
Proof.
  intros H.
  assert (E : exists rec,
             fst (extractRecords sample_supplier_map (utf8 "supplier.xlsx")
                    sample_channel SUPPLIER sample_today sample_now
                    sample_huge_sales_sheet 0) = [rec]
             /\ ShoeRecord.salesNum rec = Inf false).
  { vm_compute. eexists. split; reflexivity. }
  destruct E as (rec & E & Hs).
  destruct (H sample_supplier_map (utf8 "supplier.xlsx") sample_channel
              SUPPLIER sample_today sample_now sample_huge_sales_sheet
              0%nat rec) as [k Hk].
  - rewrite E. now left.
  - rewrite Hs in Hk. discriminate.
Qed.

Lemma extractRow_negative_price (map : ColMap.t)
    (fileName platform : jsstring) (today : jsstring) (now : nat -> N)
    (i : nat) (r : row) :
  cleanProductCode (get r (ColMap.sku map)) <> [] ->
  ColMap.price map <> -1 ->
  nlt (parseFloat (String_ (get r (ColMap.price map)))) (Fin 0) = true ->
  extractRow map fileName platform MARKET today now i (Some r)
  = Continue [msgPriceNegative i (cleanProductCode (get r (ColMap.sku map)))
                (get r (ColMap.price map))].
Proof.
  intros Hsku Hcol Hneg.
  destruct (cleanProductCode_nonempty _ Hsku) as (_ & Hdef & _).
  unfold extractRow.
  assert (Hlen : (length r =? 0)%nat = false).
  { destruct r; [|reflexivity]. exfalso. apply Hsku.
    unfold get. destruct (ColMap.sku map <? 0); [reflexivity|].
    now destruct (Z.to_nat (ColMap.sku map)). }
  assert (Hidx : (ColMap.sku map =? -1) = false).
  { apply Z.eqb_neq. intros E. apply Hsku. now rewrite E. }
  rewrite Hlen, Hidx, Hdef. cbn [orb].
  apply str_eqb_neq in Hsku. rewrite Hsku.
  assert (Hp : priceField map MARKET i
                 (cleanProductCode (get r (ColMap.sku map))) r
               = (None, [msgPriceNegative i
                           (cleanProductCode (get r (ColMap.sku map)))
                           (get r (ColMap.price map))])).
  { unfold priceField. apply Z.eqb_neq in Hcol. rewrite Hcol.
    assert (Hnum : parseFloat (String_ (get r (ColMap.price map))) <> NaN)
      by (intros E; rewrite E in Hneg; discriminate Hneg).
    assert (Hnb : nonblank (get r (ColMap.price map)) = true).
    { unfold nonblank. apply andb_true_iff. split.
      - destruct (get r (ColMap.price map)); try reflexivity.
        now elim Hnum.
      - apply negb_true_iff, str_eqb_neq.
        now apply parseFloat_number_nonblank. }
    rewrite Hnb, Hneg.
    destruct (parseFloat (String_ (get r (ColMap.price map))));
      [now elim Hnum | reflexivity | reflexivity]. }
  now rewrite Hp.
Qed.

(** C6. In a market-price import, a row with a SKU whose price cell parses
    to a number below 0 (a negative finite number, or -Infinity) yields no
    record and exactly one validation problem, which names the row number
    (index + 1), the SKU and the raw cell value and says that the price
    cannot be negative; the rows before and after it contribute what they
    contribute on their own. *)
Theorem negative_market_price_reported (map : ColMap.t)
    (fileName platform : jsstring) (today : jsstring) (now : nat -> N)
    (rawData : sheet) (headerIndex : nat)
    (pre post : list (nat * option row)) (i : nat) (r : row) :
  dataRows rawData headerIndex = pre ++ (i, Some r) :: post ->
  cleanProductCode (get r (ColMap.sku map)) <> [] ->
  ColMap.price map <> -1 ->
  nlt (parseFloat (String_ (get r (ColMap.price map)))) (Fin 0) = true ->
  let step := extractRow map fileName platform MARKET today now in
  let sku := cleanProductCode (get r (ColMap.sku map)) in
  let msg :=
    (utf8 "行 " ++ N_toString (N.of_nat (i + 1)) ++ utf8 " [SKU: " ++ sku
       ++ utf8 "]: ")
      ++ utf8 "价格不能为负数 (值: "
      ++ (dquote ++ String_ (get r (ColMap.price map)) ++ dquote)
      ++ utf8 ")。" in
  step i (Some r) = Continue [msg]
  /\ extractRecords map fileName platform MARKET today now rawData
       headerIndex
     = (recordsOf step pre ++ recordsOf step post,
        problemsOf step pre ++ [msg] ++ problemsOf step post).
Proof.
  intros Hrows Hsku Hcol Hneg. cbv zeta.
  pose proof (extractRow_negative_price map fileName platform today now
                i r Hsku Hcol Hneg) as Hrow.
  split; [exact Hrow|].
  rewrite extractRecords_flat, Hrows.
  unfold recordsOf, problemsOf. rewrite !flat_map_app.
  cbn [flat_map fst snd]. rewrite Hrow. reflexivity.
Qed.

(** A market sheet with the rows (a1, -5) and (b2, 10): one problem, for
    row 2, and the record of b2. *)
Lemma negative_market_price_reported_witness :
  extractRecords sample_market_map (utf8 "dewu.xlsx") sample_channel MARKET
    sample_today sample_now sample_market_sheet 0
  = (recordsOf (extractRow sample_market_map (utf8 "dewu.xlsx")
                  sample_channel MARKET sample_today sample_now)
       [(2%nat, Some sample_market_good_row)],
     [utf8 "行 2 [SKU: A1]: 价格不能为负数 (值: " ++ dquote ++ utf8 "-5"
        ++ dquote ++ utf8 ")。"]).
Proof.
  exact (proj2 (negative_market_price_reported sample_market_map
                  (utf8 "dewu.xlsx") sample_channel sample_today sample_now
                  sample_market_sheet 0 []
                  [(2%nat, Some sample_market_good_row)] 1
                  sample_market_bad_row
                  eq_refl ltac:(discriminate) ltac:(discriminate)
                  eq_refl)).
Defined.

(** ** Committing extracted records to the store *)

(** The automatic path of an upload replaces the selected channel and
    category in bulk and leaves every other record where it was. *)
Lemma commitUpload_replaces (selectedPlatform : jsstring)
    (selectedType : DataType) (allNewRecords prev : list ShoeRecord.t) :
  allNewRecords <> [] ->
  commitUpload selectedPlatform selectedType allNewRecords prev
  = filter (fun p => negb (sameSlot selectedPlatform selectedType p)) prev
      ++ allNewRecords
  /\ forall p,
       In p (commitUpload selectedPlatform selectedType allNewRecords prev)
       <-> (In p prev /\ sameSlot selectedPlatform selectedType p = false)
           \/ In p allNewRecords.
Proof.
  intros Hne. unfold commitUpload.
  destruct allNewRecords as [|x l]; [congruence|].
  split; [reflexivity|]. intros p. rewrite in_app_iff, filter_In.
  now rewrite negb_true_iff.
Qed.

(** The manual-mapping path appends and removes nothing. *)
Lemma handleConfirmMapping_appends (savedMappings : list SavedMapping.t)
    (selectedPlatform : jsstring) (selectedType : DataType)
    (today : jsstring) (now : nat -> N) (rememberMapping : bool)
    (label : jsstring) (cur : option PendingFile.t) (sel : Selection)
    (prev : list ShoeRecord.t) :
  exists records,
    fst (handleConfirmMapping savedMappings selectedPlatform selectedType
           today now rememberMapping label cur sel prev)
    = prev ++ records.
Proof.
  unfold handleConfirmMapping.
  destruct cur as [c|]; [|exists []; now rewrite app_nil_r].
  destruct (sel_sku sel) as [k|]; [|exists []; now rewrite app_nil_r].
  destruct (extractRecords _ _ _ _ _ _ _ _) as [records errors].
  exists records. destruct records; [now rewrite app_nil_r | reflexivity].
Qed.

(** C7, at a concrete store.  An inventory record of the selected channel
    is stored.  A stock file for the same channel and category, whose
    header the Column Mapper cannot map, is uploaded: it is queued and the
    store is left as it was.  The user confirms the mapping in the dialog:
    the old record is still stored, next to the new one.  The automatic
    path, given the same file with the mapping remembered, replaces it. *)
Theorem confirm_mapping_keeps_old_records :
  let upload :=
    handleFileUpload [] sample_channel INVENTORY sample_today sample_now
      [sample_unmapped_file] [sample_old_record] in
  let manual :=
    fst (handleConfirmMapping [] sample_channel INVENTORY sample_today
           sample_now false (utf8 "Auto-saved") (Some sample_pending)
           sample_selection (fst upload)) in
  let automatic :=
    fst (handleFileUpload sample_memory sample_channel INVENTORY
           sample_today sample_now [sample_unmapped_file]
           [sample_old_record]) in
  sameSlot sample_channel INVENTORY sample_old_record = true
  /\ fst upload = [sample_old_record]
  /\ UploadState.mappingQueue (snd upload) = [sample_pending]
  /\ manual = sample_old_record :: automatic
  /\ length automatic = 1%nat
  /\ forallb (sameSlot sample_channel INVENTORY) automatic = true
  /\ In sample_old_record manual
  /\ ~ In sample_old_record automatic.
Proof.
  cbv zeta.
  split; [reflexivity|]. split; [reflexivity|]. split; [reflexivity|].
  split; [vm_compute; reflexivity|]. split; [reflexivity|].
  split; [reflexivity|]. split; [left; reflexivity|].
  vm_compute. intros [H|[]]. discriminate H.
Qed.

(** ** The insertion-ordered map and the comparator sort *)

Section MapFacts.

Context {V : Type}.
Implicit Types (m : list (jsstring * V)) (k : jsstring) (v : V).

Lemma Map_get_set m k v k' :
  Map_get (Map_set m k v) k'
  = if str_eqb k k' then Some v else Map_get m k'.
Proof.
  induction m as [|[k0 v0] m IH]; simpl; [reflexivity|].
  destruct (str_eqb k0 k) eqn:E0; simpl.
  - apply str_eqb_eq in E0. subst k0. now destruct (str_eqb k k').
  - rewrite IH. destruct (str_eqb k0 k') eqn:E1; [|reflexivity].
    apply str_eqb_eq in E1. subst k'.
    destruct (str_eqb k k0) eqn:E2; [|reflexivity].
    apply str_eqb_eq in E2. subst k0. rewrite str_eqb_refl in E0.
    discriminate.
Qed.

Lemma Map_get_None m k : Map_get m k = None <-> ~ In k (map fst m).
Proof.
  induction m as [|[k0 v0] m IH]; simpl; [tauto|].
  destruct (str_eqb k0 k) eqn:E.
  - apply str_eqb_eq in E. split; [discriminate | intros H; tauto].
  - apply str_eqb_neq in E. rewrite IH. tauto.
Qed.

Lemma Map_set_keys m k v :
  map fst (Map_set m k v)
  = match Map_get m k with
    | Some _ => map fst m
    | None => map fst m ++ [k]
    end.
Proof.
  induction m as [|[k0 v0] m IH]; simpl; [reflexivity|].
  destruct (str_eqb k0 k) eqn:E; simpl; [reflexivity|].
  rewrite IH. now destruct (Map_get m k).
Qed.

Lemma Map_set_NoDup m k v :
  NoDup (map fst m) -> NoDup (map fst (Map_set m k v)).
Proof.
  intros H. rewrite Map_set_keys.
  destruct (Map_get m k) eqn:G; [exact H|].
  apply Map_get_None in G.
  apply (Permutation_NoDup (Permutation_cons_append (map fst m) k)).
  now constructor.
Qed.

Lemma Map_get_In m k v : Map_get m k = Some v -> In (k, v) m.
Proof.
  induction m as [|[k0 v0] m IH]; simpl; [discriminate|].
  destruct (str_eqb k0 k) eqn:E.
  - apply str_eqb_eq in E. intros H. injection H as <-. left. now subst.
  - auto.
Qed.

Lemma Map_In_get m k v :
  NoDup (map fst m) -> In (k, v) m -> Map_get m k = Some v.
Proof.
  induction m as [|[k0 v0] m IH]; simpl; intros Hnd Hin; [contradiction|].
  inversion Hnd as [|? ? Hnot Hnd']; subst.
  destruct Hin as [E|Hin].
  - injection E as -> ->. now rewrite str_eqb_refl.
  - destruct (str_eqb k0 k) eqn:E; [|auto].
    apply str_eqb_eq in E. subst k0. exfalso. apply Hnot.
    now apply (in_map fst) in Hin.
Qed.

End MapFacts.

Lemma Permutation_filter_compat {A} (f : A -> bool) (l l' : list A) :
  Permutation l l' -> Permutation (filter f l) (filter f l').
Proof.
  induction 1 as [|x l l' _ IH|x y l|l l' l'' _ IH1 _ IH2]; simpl.
  - constructor.
  - destruct (f x); [now constructor | exact IH].
  - destruct (f x), (f y); try reflexivity. apply perm_swap.
  - now transitivity (filter f l').
Qed.

Lemma sort_insert_perm {A} (cmp : A -> A -> number) (x : A) (l : list A) :
  Permutation (sort_insert cmp x l) (x :: l).
Proof.
  induction l as [|y l IH]; simpl; [reflexivity|].
  destruct (ngt (cmp x y) (Fin 0)); [|reflexivity].
  rewrite IH. apply perm_swap.
Qed.

Lemma Array_sort_perm {A} (cmp : A -> A -> number) (l : list A) :
  Permutation (Array_sort cmp l) l.
Proof.
  induction l as [|x l IH]; simpl; [reflexivity|].
  rewrite sort_insert_perm. now constructor.
Qed.

(** ** Order on numbers *)

Lemma num_le_refl (x : number) : isNaN x = false -> num_le x x.
Proof.
  intros H. repeat split; try assumption.
  destruct x as [|a|[|]]; try reflexivity.
  cbn [ngt]. apply Qltb_ge, Qle_refl.
Qed.

Lemma num_le_trans (x y z : number) :
  num_le x y -> num_le y z -> num_le x z.
Proof.
  unfold num_le.
  destruct x as [|a|[|]], y as [|b|[|]], z as [|c|[|]];
    cbn [isNaN ngt negb andb]; intros (H1 & H2 & H3) (H4 & H5 & H6);
    try discriminate; repeat split.
  apply Qltb_ge. apply Qltb_ge in H3. apply Qltb_ge in H6.
  now apply (Qle_trans _ b).
Qed.

Lemma num_le_Fin (a b : Q) : num_le (Fin a) (Fin b) <-> (a <= b)%Q.
Proof.
  unfold num_le. cbn [isNaN ngt]. rewrite Qltb_ge. tauto.
Qed.

(** What [x > y] says about the order when both are numbers. *)
Lemma ngt_num_le (x y : number) :
  isNaN x = false -> isNaN y = false ->
  (ngt x y = true -> num_le y x) /\ (ngt x y = false -> num_le x y).
Proof.
  unfold num_le. intros Hx Hy. split; intros H; repeat split; auto.
  destruct x as [|a|[|]], y as [|b|[|]]; cbn [ngt negb andb] in *;
    try discriminate; try reflexivity.
  apply Qltb_ge. apply Qltb_lt in H. now apply Qlt_le_weak.
Qed.

(** The comparator [y - x] is positive exactly when [y > x]. *)
Lemma ngt_nsub (x y : number) :
  isNaN x = false -> isNaN y = false ->
  ngt (nsub y x) (Fin 0) = ngt y x.
Proof.
  intros Hx Hy.
  destruct x as [|a|[|]], y as [|b|[|]]; try discriminate;
    try reflexivity.
  cbn [nsub ngt]. destruct (Qltb a b) eqn:E.
  - apply Qltb_lt. apply Qltb_lt in E. lra.
  - apply Qltb_ge. apply Qltb_ge in E. lra.
Qed.

(** ** Sorting by a key, greatest first *)

Section KeySort.

Context {A : Type} (key : A -> number).

Let keyed (x : A) : Prop := isNaN (key x) = false.
Let before (a b : A) : Prop := num_le (key b) (key a).

Lemma sort_insert_desc (x : A) (l : list A) :
  keyed x -> Forall keyed l -> StronglySorted before l ->
  StronglySorted before (sort_insert (fun a b => nsub (key b) (key a)) x l).
Proof.
  intros Hx Hfin Hs. induction l as [|y l IH]; simpl.
  - constructor; constructor.
  - inversion Hfin as [|? ? Hy Hfin']; subst.
    inversion Hs as [|? ? Hs' Hall]; subst.
    rewrite (ngt_nsub (key x) (key y) Hx Hy).
    destruct (ngt_num_le (key y) (key x) Hy Hx) as [Hgt Hle].
    destruct (ngt (key y) (key x)).
    + constructor; [now apply IH|].
      apply (Permutation_Forall
               (Permutation_sym (sort_insert_perm _ x l))).
      constructor; [|exact Hall]. now apply Hgt.
    + assert (Hxy : before x y) by now apply Hle.
      constructor; [exact Hs|]. constructor; [exact Hxy|].
      apply Forall_forall. intros z Hz.
      apply (num_le_trans _ (key y)); [|exact Hxy].
      now apply (proj1 (Forall_forall _ _) Hall).
Qed.

Lemma Array_sort_desc (l : list A) :
  Forall keyed l ->
  StronglySorted before (Array_sort (fun a b => nsub (key b) (key a)) l).
Proof.
  induction 1 as [|x l Hx Hl IH]; simpl; [constructor|].
  apply sort_insert_desc; [exact Hx | | exact IH].
  now apply (Permutation_Forall (Permutation_sym (Array_sort_perm _ l))).
Qed.

End KeySort.

(** ** Ordering results by profit *)

Lemma Array_sort_sorted (l : list ArbitrageResult.t) :
  Forall (fun y => isNaN (ArbitrageResult.profit y) = false) l ->
  StronglySorted profit_ge (Array_sort byProfitDesc l).
Proof. apply (Array_sort_desc ArbitrageResult.profit). Qed.

(** ** The Arbitrage Matcher, row by row *)

(** The tag price and the effective discount of a row are never NaN. *)
Lemma tagPriceOf_number (cols : Columns.t) (r : row) :
  isNaN (tagPriceOf cols r) = false.
Proof.
  unfold tagPriceOf, num_or.
  destruct (parseFloat _) as [|t|neg]; cbn [num_truthy]; try reflexivity.
  now destruct (negb (Qeq_bool t 0)).
Qed.

Lemma effectiveDiscount_number (cols : Columns.t) (r : row) :
  isNaN (effectiveDiscount cols r) = false.
Proof.
  unfold effectiveDiscount.
  destruct (hasUploadDiscount cols r);
    [apply parseDiscount_number | reflexivity].
Qed.

Section RowFacts.

Variable masterData : list ShoeRecord.t.
Variables (fileName todayDate : jsstring) (getTime : jsstring -> number).
Variable cols : Columns.t.

Let rowResult := arbitrageRow masterData fileName todayDate getTime cols.

(** What a processed row puts in its result, in the code's own terms. *)
Lemma arbitrageRow_Some (o : option row) (res : ArbitrageResult.t) :
  rowResult o = Some res ->
  exists r, o = Some r /\
    let m := marketPriceOf masterData (ArbitrageResult.productCode res) in
    let c := nmul (tagPriceOf cols r)
                  (ndiv (effectiveDiscount cols r) (Fin 10)) in
    ArbitrageResult.productCode res
      = cleanProductCode (get r (Columns.skuIdx cols))
    /\ ArbitrageResult.productCode res <> []
    /\ ArbitrageResult.tagPrice res = tagPriceOf cols r
    /\ ArbitrageResult.marketPrice res = m
    /\ ArbitrageResult.costPrice res = c
    /\ ArbitrageResult.netRevenue res
       = (if ngt m (Fin 0) then nmul m (Fin 0.88) else Fin 0)
    /\ ArbitrageResult.profit res
       = (if ngt m (Fin 0)
          then nsub (nmul m (Fin 0.88)) c else nneg c)
    /\ ArbitrageResult.roi res
       = (if ngt c (Fin 0) && ngt m (Fin 0)
          then ndiv (nsub (nmul m (Fin 0.88)) c) c else Fin 0).
Proof.
  unfold rowResult, arbitrageRow. intros H.
  destruct o as [r|]; [|discriminate]. exists r. split; [reflexivity|].
  destruct (negb (truthy (get r (Columns.skuIdx cols)))); [discriminate|].
  destruct (str_eqb (cleanProductCode (get r (Columns.skuIdx cols))) [])
    eqn:Es; [discriminate|].
  apply str_eqb_neq in Es.
  destruct (salesOf _ _ _ _ _ _ _) as [salesHistory displaySales].
  injection H as <-. cbv zeta.
  cbn [ArbitrageResult.productCode ArbitrageResult.tagPrice
       ArbitrageResult.marketPrice ArbitrageResult.costPrice
       ArbitrageResult.netRevenue ArbitrageResult.profit
       ArbitrageResult.roi].
  repeat split; auto.
  - now destruct (ngt (marketPriceOf masterData _) (Fin 0)).
  - destruct (ngt (marketPriceOf masterData _) (Fin 0));
      [|now rewrite andb_false_r]. reflexivity.
Qed.

(** The cost of a finite tag price at a finite discount. *)
Lemma cost_Fin (t d : Q) :
  nmul (Fin t) (ndiv (Fin d) (Fin 10)) = Fin (t * (d / 10)).
Proof. reflexivity. Qed.


End RowFacts.

(** ** Grouping by SKU *)

Section Grouping.

Variable masterData : list ShoeRecord.t.
Variables (fileName todayDate : jsstring) (getTime : jsstring -> number).
Variable cols : Columns.t.

Let rowResult := arbitrageRow masterData fileName todayDate getTime cols.
Let step := groupStep masterData fileName todayDate getTime cols.

Lemma profits_are_numbers_app (done rows : list (option row)) :
  profits_are_numbers rowResult (done ++ rows) ->
  profits_are_numbers rowResult done.
Proof.
  intros H o res Hin Hr. apply (H o res); [|exact Hr].
  apply in_or_app. now left.
Qed.

Lemma grouped_nil : grouped rowResult [] [].
Proof.
  repeat split; try constructor; try discriminate; contradiction.
Qed.

Lemma grouped_step (done : list (option row))
    (skuMap : list (jsstring * ArbitrageResult.t)) (o : option row) :
  grouped rowResult done skuMap ->
  grouped rowResult (done ++ [o]) (step skuMap o).
Proof.
  intros (Hnd & Hval & Hcov).
  assert (Hsnoc : forall o', In o' (done ++ [o]) -> In o' done \/ o' = o).
  { intros o' H. apply in_app_or in H. destruct H as [H|[H|[]]]; auto. }
  assert (Hlast : In o (done ++ [o])) by (apply in_or_app; right; now left).
  unfold step, groupStep. fold rowResult.
  destruct (rowResult o) as [res|] eqn:R.
  2:{ split; [exact Hnd|]. split.
      - intros k v H. destruct (Hval k v H) as (Hk & (o' & Ho' & Hr) & Hmax).
        split; [exact Hk|]. split.
        + exists o'. split; [apply in_or_app; now left | exact Hr].
        + intros Hnum o'' res' Hin Hr' Hk'.
          destruct (Hsnoc o'' Hin) as [Hd| ->]; [|congruence].
          apply (Hmax (profits_are_numbers_app _ _ Hnum) o'' res');
            assumption.
      - intros o' res' Hin Hr.
        destruct (Hsnoc o' Hin) as [Hd| ->]; [|congruence].
        now apply (Hcov o' res'). }
  set (sku := ArbitrageResult.productCode res).
  (* the facts about an entry that the new row replaces or creates *)
  assert (Hnew : forall bound : profits_are_numbers rowResult (done ++ [o]) ->
                   forall o' res', In o' done ->
                   rowResult o' = Some res' ->
                   ArbitrageResult.productCode res' = sku ->
                   profit_ge res res',
            grouped rowResult (done ++ [o]) (Map_set skuMap sku res)).
  { intros bound. split; [now apply Map_set_NoDup|]. split.
    - intros k v H. rewrite Map_get_set in H.
      destruct (str_eqb sku k) eqn:E.
      + injection H as <-. apply str_eqb_eq in E. subst k.
        split; [reflexivity|]. split; [now exists o|].
        intros Hnum o' res' Hin Hr Hk.
        destruct (Hsnoc o' Hin) as [Hd| ->].
        * now apply (bound Hnum o' res').
        * rewrite R in Hr. injection Hr as <-.
          apply num_le_refl. exact (Hnum o res Hlast R).
      + destruct (Hval k v H) as (Hk & (o' & Ho' & Hr) & Hmax).
        split; [exact Hk|]. split.
        * exists o'. split; [apply in_or_app; now left | exact Hr].
        * intros Hnum o'' res' Hin Hr' Hk'.
          destruct (Hsnoc o'' Hin) as [Hd| ->].
          -- apply (Hmax (profits_are_numbers_app _ _ Hnum) o'' res');
               assumption.
          -- rewrite R in Hr'. injection Hr' as <-. apply str_eqb_neq in E.
             now elim E.
    - intros o' res' Hin Hr. rewrite Map_get_set.
      destruct (str_eqb sku (ArbitrageResult.productCode res')) eqn:E;
        [discriminate|].
      destruct (Hsnoc o' Hin) as [Hd| ->].
      + now apply (Hcov o' res').
      + rewrite R in Hr. injection Hr as <-. apply str_eqb_neq in E.
        now elim E. }
  destruct (Map_get skuMap sku) as [existing|] eqn:G.
  - destruct (Hval sku existing G) as (Hk & (oe & Hoe & Hre) & Hmax).
    destruct (ngt (ArbitrageResult.profit res)
                  (ArbitrageResult.profit existing)) eqn:Cmp.
    + apply Hnew. intros Hnum o' res' Hd Hr Hs.
      assert (Hn1 : isNaN (ArbitrageResult.profit res) = false)
        by exact (Hnum o res Hlast R).
      assert (Hn2 : isNaN (ArbitrageResult.profit existing) = false).
      { apply (Hnum oe existing); [apply in_or_app; now left | exact Hre]. }
      apply (num_le_trans _ (ArbitrageResult.profit existing)).
      * now apply (Hmax (profits_are_numbers_app _ _ Hnum) o' res').
      * now apply (proj1 (ngt_num_le _ _ Hn1 Hn2)).
    + split; [exact Hnd|]. split.
      * intros k v H.
        destruct (Hval k v H) as (Hk' & (o' & Ho' & Hr) & Hmax').
        split; [exact Hk'|]. split.
        -- exists o'. split; [apply in_or_app; now left | exact Hr].
        -- intros Hnum o'' res' Hin Hr' Hs.
           destruct (Hsnoc o'' Hin) as [Hd| ->].
           ++ apply (Hmax' (profits_are_numbers_app _ _ Hnum) o'' res');
                assumption.
           ++ rewrite R in Hr'. injection Hr' as <-.
              assert (Ev : v = existing).
              { rewrite <- Hs in H. fold sku in H. congruence. }
              subst v.
              assert (Hn1 : isNaN (ArbitrageResult.profit res) = false)
                by exact (Hnum o res Hlast R).
              assert (Hn2 : isNaN (ArbitrageResult.profit existing)
                            = false).
              { apply (Hnum oe existing);
                  [apply in_or_app; now left | exact Hre]. }
              now apply (proj2 (ngt_num_le _ _ Hn1 Hn2)).
      * intros o' res' Hin Hr.
        destruct (Hsnoc o' Hin) as [Hd| ->]; [now apply (Hcov o' res')|].
        rewrite R in Hr. injection Hr as <-. fold sku. now rewrite G.
  - apply Hnew. intros _ o' res' Hd Hr Hs. exfalso.
    apply (Hcov o' res' Hd Hr). now rewrite Hs.
Qed.

Lemma grouped_fold (rows done : list (option row))
    (skuMap : list (jsstring * ArbitrageResult.t)) :
  grouped rowResult done skuMap ->
  grouped rowResult (done ++ rows) (fold_left step rows skuMap).
Proof.
  revert done skuMap.
  induction rows as [|o rows IH]; intros done skuMap H; simpl.
  - now rewrite app_nil_r.
  - replace (done ++ o :: rows) with ((done ++ [o]) ++ rows)
      by (now rewrite <- app_assoc).
    apply IH. now apply grouped_step.
Qed.

(** With distinct keys that are the product codes of their entries, the
    values hold exactly one result per key. *)
Lemma values_one_per_sku (skuMap : list (jsstring * ArbitrageResult.t))
    (sku : jsstring) :
  NoDup (map fst skuMap) ->
  (forall k v, In (k, v) skuMap -> ArbitrageResult.productCode v = k) ->
  filter (hasSku sku) (Map_values skuMap)
  = match Map_get skuMap sku with Some v => [v] | None => [] end.
Proof.
  unfold Map_values, hasSku.
  induction skuMap as [|[k0 v0] m IH]; intros Hnd Hk; simpl;
    [reflexivity|].
  inversion Hnd as [|? ? Hnot Hnd']; subst.
  rewrite (Hk k0 v0 (or_introl eq_refl)).
  assert (IH' := IH Hnd' (fun k v H => Hk k v (or_intror H))).
  destruct (str_eqb k0 sku) eqn:E; [|exact IH'].
  rewrite IH'. apply str_eqb_eq in E. subst k0.
  apply Map_get_None in Hnot. now rewrite Hnot.
Qed.

End Grouping.

(** ** The ranked output *)

Section Ranking.

Variable masterData : list ShoeRecord.t.
Variables (fileName todayDate : jsstring) (getTime : jsstring -> number).
Variable cols : Columns.t.

Let rowResult := arbitrageRow masterData fileName todayDate getTime cols.

(** The output holds one result per SKU, each the result of a row; when
    no profit is NaN it is sorted and holds the best result of each SKU. *)
Lemma rankRows_spec (rows : list (option row)) :
  let out := rankRows masterData fileName todayDate getTime cols rows in
  (profits_are_numbers rowResult rows -> StronglySorted profit_ge out)
  /\ (forall res, In res out ->
        exists o, In o rows /\ rowResult o = Some res)
  /\ (forall o res, In o rows -> rowResult o = Some res ->
        exists best,
          filter (hasSku (ArbitrageResult.productCode res)) out = [best]
          /\ (exists o', In o' rows /\ rowResult o' = Some best)
          /\ (profits_are_numbers rowResult rows -> profit_ge best res)).
Proof.
  cbv zeta. unfold rankRows.
  set (m := fold_left (groupStep masterData fileName todayDate getTime cols)
                      rows []).
  destruct (grouped_fold masterData fileName todayDate getTime cols
              rows [] [] (grouped_nil _ _ _ _ _))
    as (Hnd & Hval & Hcov).
  fold m in Hnd, Hval, Hcov. simpl app in Hval, Hcov.
  fold rowResult in Hval, Hcov.
  assert (Hentry : forall v, In v (Map_values m) ->
            exists k, Map_get m k = Some v).
  { intros v Hv. apply in_map_iff in Hv. destruct Hv as ([k v'] & E & Hin).
    simpl in E. subst v'. exists k. now apply Map_In_get. }
  pose proof (Array_sort_perm byProfitDesc (Map_values m)) as Hperm.
  split; [|split].
  - intros Hnum. apply Array_sort_sorted. apply Forall_forall. intros v Hv.
    destruct (Hentry v Hv) as [k Hk].
    destruct (Hval k v Hk) as (_ & (o & Ho & Hr) & _).
    exact (Hnum o v Ho Hr).
  - intros res Hin. apply (Permutation_in _ Hperm) in Hin.
    destruct (Hentry res Hin) as [k Hk].
    exact (proj1 (proj2 (Hval k res Hk))).
  - intros o res Hin Hr.
    destruct (Map_get m (ArbitrageResult.productCode res)) as [best|] eqn:G;
      [|now elim (Hcov o res Hin Hr)].
    destruct (Hval _ best G) as (_ & Hfrom & Hmax).
    exists best. split; [|split];
      [|exact Hfrom | intros Hnum; now apply (Hmax Hnum o res)].
    assert (Hv : filter (hasSku (ArbitrageResult.productCode res))
                   (Map_values m) = [best]).
    { rewrite (values_one_per_sku m _ Hnd); [now rewrite G|].
      intros k v Hkv. apply (Map_In_get m k v Hnd) in Hkv.
      exact (proj1 (Hval k v Hkv)). }
    apply Permutation_length_1_inv. rewrite <- Hv.
    apply Permutation_sym, Permutation_filter_compat, Hperm.
Qed.

End Ranking.

Lemma processArbitrage_recognised (masterData : list ShoeRecord.t)
    (fileName todayDate : jsstring) (getTime : jsstring -> number)
    (rawData : sheet) (headerRowIndex : nat) (hr : row) :
  nth_error rawData headerRowIndex = Some (Some hr) ->
  let cols := detectColumns (map (fun c => trim (String_ c)) hr) in
  Columns.skuIdx cols <> -1 ->
  Columns.tagPriceIdx cols <> -1 ->
  processArbitrage masterData fileName todayDate getTime rawData
    headerRowIndex
  = match rankRows masterData fileName todayDate getTime cols
            (skipn (S headerRowIndex) rawData) with
    | [] => ErrorMsg (utf8 "未在文件中找到有效的数据行。")
    | finalResults => Results finalResults
    end.
Proof.
  intros Hhdr cols Hsku Htag. unfold processArbitrage.
  destruct rawData as [|x rest]; [destruct headerRowIndex; discriminate|].
  rewrite Hhdr. fold cols.
  apply Z.eqb_neq in Hsku. apply Z.eqb_neq in Htag.
  now rewrite Hsku, Htag.
Qed.




(** ** Cost, revenue, profit and ROI *)

(** C1. For every processed row, with tag price [t], effective discount
    [d] and matched market price [m]: [t] and [d] are numbers (never NaN)
    and the cost price is [t * (d / 10)]; when [m > 0] the net revenue is
    [m * 0.88], the profit is net revenue minus cost, and the ROI is profit
    over cost if the cost is positive and 0 otherwise; when [m > 0] does
    not hold the net revenue is 0, the profit is the negated cost and the
    ROI is 0.  For finite [t], [d] and [m] these are the rational figures
    [t * (d / 10)], [m * 0.88], [m * 0.88 - t * (d / 10)] and their
    quotient.  Every result the matcher emits is the result of a row of the
    sheet, and one with market price 0 has profit equal to the negated cost
    price and ROI 0. *)
Theorem arbitrage_financials (masterData : list ShoeRecord.t)
    (fileName todayDate : jsstring) (getTime : jsstring -> number) :
  (forall cols r res,
     arbitrageRow masterData fileName todayDate getTime cols (Some r)
     = Some res ->
     let t := tagPriceOf cols r in
     let d := effectiveDiscount cols r in
     let m := ArbitrageResult.marketPrice res in
     let c := ArbitrageResult.costPrice res in
     isNaN t = false
     /\ isNaN d = false
     /\ ArbitrageResult.tagPrice res = t
     /\ m = marketPriceOf masterData (ArbitrageResult.productCode res)
     /\ c = nmul t (ndiv d (Fin 10))
     /\ (ngt m (Fin 0) = true ->
           ArbitrageResult.netRevenue res = nmul m (Fin 0.88)
           /\ ArbitrageResult.profit res
              = nsub (ArbitrageResult.netRevenue res) c
           /\ (ngt c (Fin 0) = true ->
               ArbitrageResult.roi res
               = ndiv (ArbitrageResult.profit res) c)
           /\ (ngt c (Fin 0) = false -> ArbitrageResult.roi res = Fin 0))
     /\ (ngt m (Fin 0) = false ->
           ArbitrageResult.netRevenue res = Fin 0
           /\ ArbitrageResult.profit res = nneg c
           /\ ArbitrageResult.roi res = Fin 0)
     /\ (forall tq dq, t = Fin tq -> d = Fin dq ->
           c = Fin (tq * (dq / 10))
           /\ (forall mq, m = Fin mq -> (0 < mq)%Q ->
                 ArbitrageResult.netRevenue res = Fin (mq * 0.88)
                 /\ ArbitrageResult.profit res
                    = Fin (mq * 0.88 - tq * (dq / 10))
                 /\ ((0 < tq * (dq / 10))%Q ->
                     ArbitrageResult.roi res
                     = Fin ((mq * 0.88 - tq * (dq / 10))
                            / (tq * (dq / 10))))
                 /\ (~ (0 < tq * (dq / 10))%Q ->
                     ArbitrageResult.roi res = Fin 0))
           /\ (ngt m (Fin 0) = false ->
                 ArbitrageResult.netRevenue res = Fin 0
                 /\ ArbitrageResult.profit res = Fin (- (tq * (dq / 10)))
                 /\ ArbitrageResult.roi res = Fin 0)))
  /\ (forall rawData headerRowIndex out res,
        processArbitrage masterData fileName todayDate getTime rawData
          headerRowIndex = Results out ->
        In res out ->
        (exists cols r,
           In (Some r) rawData
           /\ arbitrageRow masterData fileName todayDate getTime cols
                (Some r) = Some res)
        /\ (forall m, ArbitrageResult.marketPrice res = Fin m -> (m == 0)%Q ->
              ArbitrageResult.profit res
              = nneg (ArbitrageResult.costPrice res)
              /\ ArbitrageResult.roi res = Fin 0)).
Proof.
  assert (Hzero : forall cols o res,
    arbitrageRow masterData fileName todayDate getTime cols o = Some res ->
    forall m, ArbitrageResult.marketPrice res = Fin m -> (m == 0)%Q ->
      ArbitrageResult.profit res = nneg (ArbitrageResult.costPrice res)
      /\ ArbitrageResult.roi res = Fin 0).
  { intros cols o res H m Hm Hz. apply arbitrageRow_Some in H.
    destruct H as (r & _ & _ & _ & _ & Hmp & Hc & _ & Hp & Hr).
    rewrite Hm in Hmp. rewrite <- Hmp in Hp, Hr.
    assert (Hle : ngt (Fin m) (Fin 0) = false)
      by (cbn [ngt]; apply Qltb_ge; lra).
    rewrite Hle in Hp, Hr. rewrite andb_false_r in Hr.
    now rewrite Hp, Hr, Hc. }
  split.
  - intros cols r res H t d m c.
    apply arbitrageRow_Some in H.
    destruct H as (r0 & E & _ & _ & Ht & Hmp & Hc & Hn & Hp & Hr).
    injection E as <-.
    fold t d in Hc, Hp, Hr. rewrite <- Hmp in Hn, Hp, Hr.
    fold m in Hmp, Hn, Hp, Hr. fold c in Hc.
    rewrite <- Hc in Hp, Hr.
    assert (Hpos : ngt m (Fin 0) = true ->
              ArbitrageResult.netRevenue res = nmul m (Fin 0.88)
              /\ ArbitrageResult.profit res
                 = nsub (ArbitrageResult.netRevenue res) c
              /\ (ngt c (Fin 0) = true ->
                  ArbitrageResult.roi res
                  = ndiv (ArbitrageResult.profit res) c)
              /\ (ngt c (Fin 0) = false -> ArbitrageResult.roi res = Fin 0)).
    { intros G. rewrite G in Hn, Hp, Hr. rewrite andb_true_r in Hr.
      split; [exact Hn|]. split; [now rewrite Hn|]. split.
      - intros Gc. rewrite Gc in Hr. now rewrite Hp.
      - intros Gc. now rewrite Gc in Hr. }
    assert (Hneg : ngt m (Fin 0) = false ->
              ArbitrageResult.netRevenue res = Fin 0
              /\ ArbitrageResult.profit res = nneg c
              /\ ArbitrageResult.roi res = Fin 0).
    { intros G. rewrite G in Hn, Hp, Hr. rewrite andb_false_r in Hr.
      now repeat split. }
    split; [apply tagPriceOf_number|].
    split; [apply effectiveDiscount_number|].
    split; [exact Ht|]. split; [exact Hmp|]. split; [exact Hc|].
    split; [exact Hpos|]. split; [exact Hneg|].
    intros tq dq Et Ed.
    assert (Ec : c = Fin (tq * (dq / 10)))
      by (now rewrite Hc, Et, Ed, cost_Fin).
    split; [exact Ec|]. split.
    + intros mq Em Hm.
      assert (G : ngt m (Fin 0) = true)
        by (rewrite Em; cbn [ngt]; now apply Qltb_lt).
      destruct (Hpos G) as (Hn' & Hp' & Hr1 & Hr0).
      rewrite Em in Hn'. cbn [nmul] in Hn'.
      rewrite Hn', Ec in Hp'. cbn [nsub] in Hp'.
      split; [exact Hn'|]. split; [exact Hp'|]. split.
      * intros Hc0.
        assert (Gc : ngt c (Fin 0) = true)
          by (rewrite Ec; cbn [ngt]; now apply Qltb_lt).
        rewrite (Hr1 Gc), Hp', Ec. cbn [ndiv].
        destruct (Qeq_bool (tq * (dq / 10)) 0) eqn:Ez; [|reflexivity].
        apply Qeq_bool_iff in Ez. lra.
      * intros Hc0. apply Hr0. rewrite Ec. cbn [ngt].
        destruct (Qltb 0 (tq * (dq / 10))) eqn:Eb; [|reflexivity].
        apply Qltb_lt in Eb. contradiction.
    + intros G. destruct (Hneg G) as (Hn' & Hp' & Hr').
      rewrite Ec in Hp'. cbn [nneg] in Hp'. now repeat split.
  - intros rawData h out res Hout Hin.
    unfold processArbitrage in Hout.
    destruct rawData as [|x rest] eqn:Raw; [discriminate|].
    rewrite <- Raw in *.
    destruct (nth_error rawData h) as [[hr|]|]; try discriminate.
    set (cols := detectColumns (map (fun c => trim (String_ c)) hr)) in *.
    destruct ((Columns.skuIdx cols =? -1)
              || (Columns.tagPriceIdx cols =? -1)); [discriminate|].
    destruct (rankRows_spec masterData fileName todayDate getTime cols
                (skipn (S h) rawData)) as (_ & Hfrom & _).
    destruct (rankRows masterData fileName todayDate getTime cols
                (skipn (S h) rawData)) as [|y l] eqn:E; [discriminate|].
    injection Hout as <-.
    destruct (Hfrom res Hin) as (o & Ho & Hr).
    split; [|exact (Hzero cols o res Hr)].
    destruct o as [r|]; [|discriminate Hr].
    exists cols, r. split; [|exact Hr].
    rewrite <- (firstn_skipn (S h) rawData). apply in_or_app. now right.
Qed.

(** The figures of the specification: tag price 1000 at discount 3.6 costs
    360; against a market price of 2000 the net revenue is 1760, the profit
    1400 and the ROI 1400/360; with no market price the profit is -360 and
    the ROI 0. *)
Lemma arbitrage_financials_witness :
  exists res c n p g res' p',
    arbitrageRow sample_store (utf8 "buy.xlsx") sample_today sample_getTime
      sample_discount_cols (Some sample_matched_row) = Some res
    /\ ArbitrageResult.costPrice res = Fin c /\ (c == 360)%Q
    /\ ArbitrageResult.netRevenue res = Fin n /\ (n == 1760)%Q
    /\ ArbitrageResult.profit res = Fin p /\ (p == 1400)%Q
    /\ ArbitrageResult.roi res = Fin g /\ (g == 1400 / 360)%Q
    /\ arbitrageRow sample_store (utf8 "buy.xlsx") sample_today
         sample_getTime sample_discount_cols (Some sample_unmatched_row)
       = Some res'
    /\ ArbitrageResult.marketPrice res' = Fin 0
    /\ ArbitrageResult.profit res' = Fin p' /\ (p' == - (360))%Q
    /\ ArbitrageResult.roi res' = Fin 0.
Proof.
  assert (H1 : exists res,
            arbitrageRow sample_store (utf8 "buy.xlsx") sample_today
              sample_getTime sample_discount_cols (Some sample_matched_row)
            = Some res /\ ArbitrageResult.marketPrice res = Fin 2000).
  { vm_compute. eexists. split; reflexivity. }
  assert (H2 : exists res,
            arbitrageRow sample_store (utf8 "buy.xlsx") sample_today
              sample_getTime sample_discount_cols
              (Some sample_unmatched_row)
            = Some res /\ ArbitrageResult.marketPrice res = Fin 0).
  { vm_compute. eexists. split; reflexivity. }
  destruct H1 as (res & Hres & Hm). destruct H2 as (res' & Hres' & Hm').
  assert (Ht : tagPriceOf sample_discount_cols sample_matched_row
               = Fin 1000) by (vm_compute; reflexivity).
  assert (Hd : effectiveDiscount sample_discount_cols sample_matched_row
               = Fin 3.6) by (vm_compute; reflexivity).
  assert (Ht' : tagPriceOf sample_discount_cols sample_unmatched_row
                = Fin 1000) by (vm_compute; reflexivity).
  assert (Hd' : effectiveDiscount sample_discount_cols sample_unmatched_row
                = Fin 3.6) by (vm_compute; reflexivity).
  destruct (proj1 (arbitrage_financials sample_store (utf8 "buy.xlsx")
                     sample_today sample_getTime)
              sample_discount_cols sample_matched_row res Hres)
    as (_ & _ & _ & _ & _ & _ & _ & Hfin).
  destruct (Hfin _ _ Ht Hd) as (Hc & Hpos & _).
  destruct (Hpos 2000%Q Hm eq_refl) as (Hn & Hp & Hg & _).
  destruct (proj1 (arbitrage_financials sample_store (utf8 "buy.xlsx")
                     sample_today sample_getTime)
              sample_discount_cols sample_unmatched_row res' Hres')
    as (_ & _ & _ & _ & _ & _ & _ & Hfin').
  destruct (Hfin' _ _ Ht' Hd') as (_ & _ & Hneg).
  rewrite Hm' in Hneg. destruct (Hneg eq_refl) as (_ & Hp' & Hg').
  exists res. do 4 eexists. exists res'. eexists.
  split; [exact Hres|]. split; [exact Hc|]. split; [reflexivity|].
  split; [exact Hn|]. split; [reflexivity|].
  split; [exact Hp|]. split; [reflexivity|].
  split; [exact (Hg eq_refl)|]. split; [reflexivity|].
  split; [exact Hres'|]. split; [exact Hm'|].
  split; [exact Hp'|]. split; [reflexivity | exact Hg'].
Defined.

(** ** No range check on the discount *)



(* ================================================================== *)
(** * Part V. Further properties of the code                           *)
(* ================================================================== *)

(** ** Normal form of product codes *)

Lemma dropWhile_idem {A} (p : A -> bool) (l : list A) :
  dropWhile p (dropWhile p l) = dropWhile p l.
Proof.
  pose proof (dropWhile_head p l) as H.
  destruct (dropWhile p l) as [|c t]; [reflexivity|].
  simpl. now rewrite H.
Qed.

Lemma dropWhile_map {A B} (p : B -> bool) (f : A -> B) (l : list A) :
  dropWhile p (map f l) = map f (dropWhile (fun x => p (f x)) l).
Proof.
  induction l as [|x l IH]; simpl; [reflexivity|].
  destruct (p (f x)); [exact IH | reflexivity].
Qed.

Lemma dropWhile_ext {A} (p q : A -> bool) (l : list A) :
  (forall x, p x = q x) -> dropWhile p l = dropWhile q l.
Proof.
  intros E. induction l as [|x l IH]; simpl; [reflexivity|].
  rewrite E, IH. reflexivity.
Qed.

Lemma is_ws_upper (c : N) : is_ws (upper c) = is_ws c.
Proof.
  unfold upper. destruct ((97 <=? c) && (c <=? 122))%N eqn:E;
    [|reflexivity].
  apply andb_true_iff in E. destruct E as [H1 H2].
  apply N.leb_le in H1. apply N.leb_le in H2. unfold is_ws.
  repeat match goal with
         | |- context [(?a <=? ?b)%N] => destruct (N.leb_spec a b); try lia
         | |- context [(?a =? ?b)%N] => destruct (N.eqb_spec a b); try lia
         end.
Qed.

Lemma upper_idem (c : N) : upper (upper c) = upper c.
Proof.
  unfold upper. destruct ((97 <=? c) && (c <=? 122))%N eqn:E;
    [|now rewrite E].
  apply andb_true_iff in E. destruct E as [H1 H2].
  apply N.leb_le in H1. apply N.leb_le in H2.
  destruct (N.leb_spec 97 (c - 32)); [lia | reflexivity].
Qed.

Lemma trimStart_upper (s : jsstring) :
  trimStart (toUpperCase s) = toUpperCase (trimStart s).
Proof.
  unfold trimStart, toUpperCase. rewrite dropWhile_map.
  f_equal. apply dropWhile_ext, is_ws_upper.
Qed.

Lemma trim_upper (s : jsstring) :
  trim (toUpperCase s) = toUpperCase (trim s).
Proof.
  unfold trim, trimEnd. rewrite trimStart_upper.
  unfold toUpperCase. rewrite <- map_rev, dropWhile_map, <- map_rev.
  do 2 f_equal. apply dropWhile_ext, is_ws_upper.
Qed.

Lemma trimEnd_prefix (t : jsstring) :
  exists w, t = trimEnd t ++ w.
Proof.
  unfold trimEnd. exists (rev (takeWhile is_ws (rev t))).
  rewrite <- rev_app_distr, takeWhile_dropWhile. now rewrite rev_involutive.
Qed.

(** Trimming twice is trimming once. *)
Lemma trim_idem (s : jsstring) : trim (trim s) = trim s.
Proof.
  unfold trim at 1.
  assert (Hs : trimStart (trim s) = trim s).
  { unfold trim. pose proof (dropWhile_head is_ws s) as Hh.
    fold (trimStart s) in Hh.
    destruct (trimEnd_prefix (trimStart s)) as [w Hw].
    destruct (trimEnd (trimStart s)) as [|c u] eqn:E; [reflexivity|].
    rewrite Hw in Hh. simpl in Hh. unfold trimStart. simpl.
    now rewrite Hh. }
  rewrite Hs. unfold trim, trimEnd at 1. unfold trimEnd.
  rewrite rev_involutive, dropWhile_idem. reflexivity.
Qed.

(** X1. [cleanProductCode] is idempotent, and its result is in normal form: no
    white space at either end and no lower-case ASCII letter. *)
Theorem cleanProductCode_normal_form (code : value) :
  let c := cleanProductCode code in
  cleanProductCode (Str c) = c
  /\ trim c = c
  /\ toUpperCase c = c.
Proof.
  cbv zeta.
  assert (Hn : forall s : jsstring,
            trim (toUpperCase (trim s)) = toUpperCase (trim s)
            /\ toUpperCase (toUpperCase (trim s)) = toUpperCase (trim s)).
  { intros s. split.
    - now rewrite trim_upper, trim_idem.
    - unfold toUpperCase. rewrite map_map. apply map_ext, upper_idem. }
  assert (Hc : cleanProductCode code = []
               \/ exists s, cleanProductCode code = toUpperCase (trim s)).
  { unfold cleanProductCode. destruct (truthy code); cbn [negb];
      [right; now eexists | now left]. }
  destruct Hc as [E|[s E]]; rewrite E.
  - repeat split.
  - destruct (Hn s) as [H1 H2]. repeat split; try assumption.
    unfold cleanProductCode. cbn [truthy String_].
    destruct (str_eqb (toUpperCase (trim s)) []) eqn:E0; cbn [negb].
    + apply str_eqb_eq in E0. now rewrite E0.
    + now rewrite H1, H2.
Qed.

(** ** The header locator *)

Lemma scanRows_spec (rows : list (option row)) :
  forall i,
    match scanRows i rows with
    | Some h =>
      (exists k r, h = (i + k)%nat /\ nth_error rows k = Some (Some r)
                   /\ rowMatches r = true /\ unmatched_before rows k)
      \/ (h = 0%nat /\ unmatched_before rows (length rows))
    | None =>
      exists k, nth_error rows k = Some None /\ unmatched_before rows k
    end.
Proof.
  induction rows as [|o rows IH]; intros i; simpl.
  - right. split; [reflexivity|]. intros j Hj. inversion Hj.
  - destruct o as [r|].
    + destruct (rowMatches r) eqn:M.
      * left. exists 0%nat, r. rewrite Nat.add_0_r.
        repeat split; auto. intros j Hj. inversion Hj.
      * specialize (IH (S i)).
        assert (Hcons : forall n, unmatched_before rows n ->
                  unmatched_before (Some r :: rows) (S n)).
        { intros n Hn [|j] Hj; simpl; [now exists r|].
          apply Hn. lia. }
        destruct (scanRows (S i) rows) as [h|].
        -- destruct IH as [(k & r' & Hh & Hk & Hm & Hb)|[Hh Hb]].
           ++ left. exists (S k), r'. repeat split; auto. lia.
           ++ right. split; [exact Hh | now apply Hcons].
        -- destruct IH as (k & Hk & Hb). exists (S k).
           split; [exact Hk | now apply Hcons].
    + exists 0%nat. split; [reflexivity|]. intros j Hj. inversion Hj.
Qed.

Lemma unmatched_before_firstn (data : sheet) (n k : nat) :
  (k <= n)%nat -> unmatched_before (firstn n data) k ->
  unmatched_before data k.
Proof.
  intros Hk H j Hj. destruct (H j Hj) as (r & Hr & Hm).
  exists r. split; [|exact Hm].
  rewrite nth_error_firstn in Hr.
  destruct (Nat.ltb_spec j n); [exact Hr | lia].
Qed.

(** X2. [findHeaderRow] answers the index of the first of the first 20 rows
    whose lower-cased JSON text contains a lower-cased keyword; when none
    of them does it answers 0; it fails exactly when it meets a missing row
    before any match.  Rows from index 20 on are never looked at. *)
Theorem findHeaderRow_first_match (data : sheet) :
  let limit := Nat.min (length data) 20 in
  match findHeaderRow data with
  | Some h =>
    (exists r, (h < limit)%nat /\ nth_error data h = Some (Some r)
               /\ rowMatches r = true /\ unmatched_before data h)
    \/ (h = 0%nat /\ unmatched_before data limit)
  | None =>
    exists k, (k < limit)%nat /\ nth_error data k = Some None
              /\ unmatched_before data k
  end.
Proof.
  cbv zeta. unfold findHeaderRow.
  set (limit := Nat.min (length data) 20).
  assert (Hlen : length (firstn limit data) = limit).
  { rewrite length_firstn. unfold limit. lia. }
  assert (Hnth : forall k x, nth_error (firstn limit data) k = Some x ->
            (k < limit)%nat /\ nth_error data k = Some x).
  { intros k x Hk. assert (k < limit)%nat.
    { rewrite <- Hlen. apply nth_error_Some. congruence. }
    split; [assumption|]. rewrite nth_error_firstn in Hk.
    destruct (Nat.ltb_spec k limit); [exact Hk | lia]. }
  pose proof (scanRows_spec (firstn limit data) 0) as H.
  destruct (scanRows 0 (firstn limit data)) as [h|].
  - destruct H as [(k & r & Hh & Hk & Hm & Hb)|[Hh Hb]].
    + left. simpl in Hh. subst h. destruct (Hnth k _ Hk) as [Hlt Hd].
      exists r. repeat split; auto.
      apply (unmatched_before_firstn data limit k); [lia | exact Hb].
    + right. split; [exact Hh|]. rewrite Hlen in Hb.
      now apply (unmatched_before_firstn data limit limit).
  - destruct H as (k & Hk & Hb). destruct (Hnth k _ Hk) as [Hlt Hd].
    exists k. repeat split; auto.
    apply (unmatched_before_firstn data limit k); [lia | exact Hb].
Qed.

Lemma findHeaderRow_row (data : sheet) (h : nat) :
  findHeaderRow data = Some h -> data <> [] ->
  exists r, nth_error data h = Some (Some r).
Proof.
  unfold findHeaderRow. intros Hf Hne.
  set (limit := Nat.min (length data) 20) in *.
  pose proof (scanRows_spec (firstn limit data) 0) as H. rewrite Hf in H.
  assert (Hfirst : forall k x, nth_error (firstn limit data) k = Some x ->
            nth_error data k = Some x).
  { intros k x Hk. rewrite nth_error_firstn in Hk.
    destruct (k <? limit)%nat; [exact Hk | discriminate]. }
  destruct H as [(k & r & Hh & Hk & _)|[-> Hb]].
  - exists r. simpl in Hh. subst h. now apply Hfirst.
  - destruct data as [|x rest]; [congruence|].
    destruct (Hb 0%nat) as (r & Hr & _); [simpl; lia|].
    exists r. now apply Hfirst.
Qed.

(** X3. The index that [findHeaderRow] answers for a non-empty sheet is the
    index of a row that is there: the header cells read by the upload and
    by the matcher are those of that row, and the matcher does not fail on
    the header. *)
Theorem located_header_is_a_row (data : sheet) (h : nat) :
  findHeaderRow data = Some h -> data <> [] ->
  exists r,
    nth_error data h = Some (Some r)
    /\ headerRowOf data h = map (fun c => trim (String_ c)) r
    /\ forall masterData fileName todayDate getTime,
         processArbitrage masterData fileName todayDate getTime data h
         <> Threw.
Proof.
  intros Hf Hne. destruct (findHeaderRow_row data h Hf Hne) as [r Hr].
  exists r. split; [exact Hr|]. split.
  - unfold headerRowOf. now rewrite Hr.
  - intros masterData fileName todayDate getTime.
    unfold processArbitrage. destruct data as [|x rest]; [congruence|].
    rewrite Hr.
    destruct ((Columns.skuIdx _ =? -1) || (Columns.tagPriceIdx _ =? -1));
      [discriminate|].
    destruct (rankRows _ _ _ _ _ _); discriminate.
Qed.

(** The title line is passed over, the header is found in row 1 through
    the keyword "art no" in lower case, and its cells are read. *)
Lemma located_header_is_a_row_witness :
  findHeaderRow sample_titled_sheet = Some 1%nat
  /\ exists r,
       nth_error sample_titled_sheet 1 = Some (Some r)
       /\ headerRowOf sample_titled_sheet 1
          = [utf8 "序号"; utf8 "Art no."; utf8 "牌价"].
Proof.
  assert (Hf : findHeaderRow sample_titled_sheet = Some 1%nat)
    by reflexivity.
  split; [exact Hf|].
  destruct (located_header_is_a_row sample_titled_sheet 1 Hf
              ltac:(discriminate)) as (r & Hr & Hh & _).
  exists r. split; [exact Hr|]. rewrite Hh.
  assert (E : Some (Some r)
              = Some (Some [Str (utf8 "序号"); Str (utf8 "Art no.");
                            Str (utf8 "牌价")]))
    by (rewrite <- Hr; reflexivity).
  injection E as ->. reflexivity.
Defined.

(** X4. The matcher, from the sheet it has read: an empty sheet gives the
    message that the file is empty; on a sheet that is not empty the
    matcher fails with an error of the host exactly when [findHeaderRow]
    fails, and otherwise it is [processArbitrage] at the row
    [findHeaderRow] answers, which never fails with an error of the
    host. *)
Theorem processArbitrageFile_fails_only_in_locator
    (masterData : list ShoeRecord.t) (fileName todayDate : jsstring)
    (getTime : jsstring -> number) (rawData : sheet) :
  processArbitrageFile masterData fileName todayDate getTime []
  = ErrorMsg (utf8 "处理失败: 文件内容为空")
  /\ (processArbitrageFile masterData fileName todayDate getTime rawData
      = Threw
      <-> rawData <> [] /\ findHeaderRow rawData = None)
  /\ (forall h, rawData <> [] -> findHeaderRow rawData = Some h ->
        processArbitrageFile masterData fileName todayDate getTime rawData
        = processArbitrage masterData fileName todayDate getTime rawData h
        /\ processArbitrage masterData fileName todayDate getTime rawData h
           <> Threw).
Proof.
  assert (Hok : forall h, rawData <> [] -> findHeaderRow rawData = Some h ->
            processArbitrage masterData fileName todayDate getTime rawData h
            <> Threw).
  { intros h Hne Hf H.
    destruct (findHeaderRow_row rawData h Hf Hne) as [r Hr].
    unfold processArbitrage in H.
    destruct rawData as [|x rest] eqn:Raw; [congruence|].
    rewrite <- Raw in *. rewrite Hr in H.
    destruct ((Columns.skuIdx _ =? -1) || (Columns.tagPriceIdx _ =? -1));
      [discriminate|].
    destruct (rankRows _ _ _ _ _ _); discriminate. }
  split; [reflexivity|]. split.
  - unfold processArbitrageFile. destruct rawData as [|x rest] eqn:Raw.
    + split; [discriminate | intros [H _]; congruence].
    + rewrite <- Raw in *. assert (Hne : rawData <> []) by congruence.
      destruct (findHeaderRow rawData) as [h|] eqn:Hf.
      * split; [|intros [_ H]; discriminate].
        intros H. exfalso. exact (Hok h Hne eq_refl H).
      * split; [intros _; now split | reflexivity].
  - intros h Hne Hf. split; [|exact (Hok h Hne Hf)].
    unfold processArbitrageFile. rewrite Hf.
    destruct rawData; [congruence | reflexivity].
Qed.

(** The titled sheet has its header in row 1, and the matcher goes on from
    there. *)
Lemma processArbitrageFile_fails_only_in_locator_witness :
  processArbitrageFile sample_store (utf8 "buy.xlsx") sample_today
    sample_getTime sample_titled_sheet
  = processArbitrage sample_store (utf8 "buy.xlsx") sample_today
      sample_getTime sample_titled_sheet 1
  /\ processArbitrage sample_store (utf8 "buy.xlsx") sample_today
       sample_getTime sample_titled_sheet 1 <> Threw.
Proof.
  exact (proj2 (proj2 (processArbitrageFile_fails_only_in_locator
                         sample_store (utf8 "buy.xlsx") sample_today
                         sample_getTime sample_titled_sheet))
           1%nat ltac:(discriminate) eq_refl).
Defined.

(** ** Rows the extractor skips, and rows it reports *)

Lemma extractRow_no_sku (map : ColMap.t) (fileName platform : jsstring)
    (type : DataType) (today : jsstring) (now : nat -> N) (i : nat)
    (o : option row) :
  (forall r, o = Some r -> cleanProductCode (get r (ColMap.sku map)) = []) ->
  extractRow map fileName platform type today now i o = Continue [].
Proof.
  intros H. destruct o as [r|]; [|reflexivity]. unfold extractRow.
  destruct (length r =? 0)%nat; [reflexivity|].
  destruct ((ColMap.sku map =? -1)
            || is_undefined (get r (ColMap.sku map))); [reflexivity|].
  now rewrite (H r eq_refl).
Qed.

Lemma rows_without_sku (map : ColMap.t) (fileName platform : jsstring)
    (type : DataType) (today : jsstring) (now : nat -> N)
    (rows : list (nat * option row)) :
  (forall i r, In (i, Some r) rows ->
     cleanProductCode (get r (ColMap.sku map)) = []) ->
  recordsOf (extractRow map fileName platform type today now) rows = []
  /\ problemsOf (extractRow map fileName platform type today now) rows = [].
Proof.
  induction rows as [|[i o] rows IH]; intros Hr; [now split|].
  unfold recordsOf, problemsOf in *. cbn [flat_map fst snd].
  rewrite (extractRow_no_sku map fileName platform type today now i o).
  - destruct IH as [IH1 IH2];
      [intros j r Hj; apply (Hr j r); now right|].
    cbn [app]. now rewrite IH1, IH2.
  - intros r ->. apply (Hr i r). now left.
Qed.

(** X5. When no data row has a SKU in the mapped column (the column is absent
    from the mapping, lies beyond the rows, or holds blank cells), the
    extraction returns no record and no problem, whatever the other cells
    hold. *)
Theorem extraction_without_sku_is_silent (map : ColMap.t)
    (fileName platform : jsstring) (type : DataType) (today : jsstring)
    (now : nat -> N) (rawData : sheet) (headerIndex : nat) :
  (forall i r, In (i, Some r) (dataRows rawData headerIndex) ->
     cleanProductCode (get r (ColMap.sku map)) = []) ->
  extractRecords map fileName platform type today now rawData headerIndex
  = ([], []).
Proof.
  intros H. rewrite extractRecords_flat.
  destruct (rows_without_sku map fileName platform type today now _ H)
    as [H1 H2].
  now rewrite H1, H2.
Qed.

(** The market sheet with a negative price, read with the SKU mapped to
    column 7: nothing is imported and nothing is reported. *)
Lemma extraction_without_sku_is_silent_witness :
  extractRecords sample_wrong_sku_map (utf8 "dewu.xlsx") sample_channel
    MARKET sample_today sample_now sample_market_sheet 0 = ([], []).
Proof.
  apply extraction_without_sku_is_silent.
  intros i r Hin. simpl in Hin.
  destruct Hin as [E|[E|[]]]; injection E as _ <-; reflexivity.
Defined.

Lemma priceField_problems (map : ColMap.t) (type : DataType) (i : nat)
    (sku : jsstring) (r : row) :
  let out := priceField map type i sku r in
  (length (snd out) <= 1)%nat
  /\ Forall (names_row i sku) (snd out)
  /\ (fst out = None -> snd out <> []).
Proof.
  cbv zeta. unfold priceField, msgPriceFormat, msgPriceNegative,
    msgPriceMissing.
  assert (Hn : forall rest, Forall (names_row i sku) [rowLabel i sku ++ rest])
    by (intros rest; constructor; [now exists rest | constructor]).
  destruct (ColMap.price map =? -1);
    [cbn; repeat split; [lia | constructor | discriminate]|].
  destruct (nonblank _).
  - destruct (parseFloat _) as [|p|sg]; cbn [isNaN].
    + destruct (DataType_eqb type MARKET); cbn;
        repeat split; try lia; try apply Hn; discriminate.
    + destruct (nlt (Fin p) (Fin 0)).
      * destruct (DataType_eqb type MARKET); cbn;
          repeat split; try lia; try apply Hn; discriminate.
      * cbn. repeat split; [lia | constructor | discriminate].
    + destruct (nlt (Inf sg) (Fin 0)).
      * destruct (DataType_eqb type MARKET); cbn;
          repeat split; try lia; try apply Hn; discriminate.
      * cbn. repeat split; [lia | constructor | discriminate].
  - destruct (DataType_eqb type MARKET); cbn.
    + repeat split; try lia; try apply Hn; discriminate.
    + repeat split; [lia | constructor | discriminate].
Qed.

Lemma discountField_problems (map : ColMap.t) (type : DataType) (i : nat)
    (sku : jsstring) (r : row) :
  let out := discountField map type i sku r in
  (length (snd out) <= 1)%nat
  /\ Forall (names_row i sku) (snd out)
  /\ (fst out = None -> snd out <> []).
Proof.
  cbv zeta. unfold discountField, msgDiscountFormat.
  assert (Hn : forall rest, Forall (names_row i sku) [rowLabel i sku ++ rest])
    by (intros rest; constructor; [now exists rest | constructor]).
  destruct (ColMap.discount map =? -1);
    [cbn; repeat split; [lia | constructor | discriminate]|].
  destruct (nonblank _).
  - destruct (parseFloat _) as [|p|sg]; cbn [isNaN].
    + destruct (DataType_eqb type SUPPLIER); cbn;
        repeat split; try lia; try apply Hn; discriminate.
    + cbn. repeat split; [lia | constructor | discriminate].
    + cbn. repeat split; [lia | constructor | discriminate].
  - cbn. repeat split; [lia | constructor | discriminate].
Qed.

(** X6. A row with a SKU is never dropped without a word: the extractor either
    keeps it as a record or reports at least one problem for it; it
    reports at most two problems for a row, and each names the row number
    and the SKU. *)
Theorem sku_row_is_kept_or_reported (map : ColMap.t)
    (fileName platform : jsstring) (type : DataType) (today : jsstring)
    (now : nat -> N) (i : nat) (r : row) :
  cleanProductCode (get r (ColMap.sku map)) <> [] ->
  let sku := cleanProductCode (get r (ColMap.sku map)) in
  match extractRow map fileName platform type today now i (Some r) with
  | Push errs rec =>
    ShoeRecord.productCode rec = sku
    /\ (length errs <= 2)%nat /\ Forall (names_row i sku) errs
  | Continue errs =>
    (1 <= length errs <= 2)%nat /\ Forall (names_row i sku) errs
  end.
Proof.
  intros Hsku. cbv zeta.
  destruct (cleanProductCode_nonempty _ Hsku) as (_ & Hdef & _).
  unfold extractRow.
  assert (Hlen : (length r =? 0)%nat = false).
  { destruct r; [|reflexivity]. exfalso. apply Hsku.
    unfold get. destruct (ColMap.sku map <? 0); [reflexivity|].
    now destruct (Z.to_nat (ColMap.sku map)). }
  assert (Hidx : (ColMap.sku map =? -1) = false).
  { apply Z.eqb_neq. intros E. apply Hsku. now rewrite E. }
  rewrite Hlen, Hidx, Hdef. cbn [orb].
  pose proof Hsku as Hs. apply str_eqb_neq in Hs. rewrite Hs.
  set (sku := cleanProductCode (get r (ColMap.sku map))) in *.
  destruct (priceField_problems map type i sku r) as (P1 & P2 & P3).
  destruct (discountField_problems map type i sku r) as (D1 & D2 & D3).
  destruct (priceField map type i sku r) as [[pr|] errs1];
    cbn [fst snd] in P1, P2, P3.
  - destruct (discountField map type i sku r) as [[dc|] errs2];
      cbn [fst snd] in D1, D2, D3.
    + cbn [ShoeRecord.productCode]. rewrite length_app.
      repeat split; [lia | now apply Forall_app].
    + specialize (D3 eq_refl). rewrite length_app.
      repeat split; [|lia | now apply Forall_app].
      destruct errs2; [congruence | simpl; lia].
  - specialize (P3 eq_refl).
    repeat split; [|lia | exact P2].
    destruct errs1; [congruence | simpl; lia].
Qed.

(** The supplier row " ab12 ", "-7", -5 is kept, with one problem. *)
Lemma sku_row_is_kept_or_reported_witness :
  match extractRow sample_supplier_map (utf8 "supplier.xlsx")
          sample_channel SUPPLIER sample_today sample_now 1
          (Some [Str (utf8 " ab12 "); Str (utf8 "-7"); Num (Fin (-5 # 1))])
  with
  | Push errs rec =>
    ShoeRecord.productCode rec = utf8 "AB12"
    /\ (length errs <= 2)%nat /\ Forall (names_row 1 (utf8 "AB12")) errs
  | Continue errs =>
    (1 <= length errs <= 2)%nat /\ Forall (names_row 1 (utf8 "AB12")) errs
  end.
Proof.
  exact (sku_row_is_kept_or_reported sample_supplier_map
           (utf8 "supplier.xlsx") sample_channel SUPPLIER sample_today
           sample_now 1
           [Str (utf8 " ab12 "); Str (utf8 "-7"); Num (Fin (-5 # 1))]
           ltac:(discriminate)).
Defined.

(** ** Market prices are never defaulted *)

Lemma priceField_market (map : ColMap.t) (i : nat) (sku : jsstring)
    (r : row) (pr : number) (errs : list jsstring) :
  ColMap.price map <> -1 ->
  priceField map MARKET i sku r = (Some pr, errs) ->
  nonblank (get r (ColMap.price map)) = true
  /\ errs = []
  /\ pr = parseFloat (String_ (get r (ColMap.price map)))
  /\ nonneg_number pr.
Proof.
  intros Hcol. unfold priceField. apply Z.eqb_neq in Hcol. rewrite Hcol.
  cbn [DataType_eqb].
  destruct (nonblank _); [|discriminate].
  destruct (parseFloat _) as [|p|sg]; cbn [isNaN]; [discriminate| |].
  - destruct (nlt (Fin p) (Fin 0)) eqn:Neg; [discriminate|].
    intros E. injection E as <- <-.
    split; [reflexivity|]. split; [reflexivity|]. split; [reflexivity|].
    left. exists p. split; [reflexivity|].
    unfold nlt, ngt in Neg. now apply Qltb_ge in Neg.
  - destruct sg; cbn [nlt ngt]; [discriminate|].
    intros E. injection E as <- <-.
    split; [reflexivity|]. split; [reflexivity|]. split; [reflexivity|].
    now right.
Qed.

(** X7. In a market-price import with a price column, the price of every
    record is the number its own price cell parses to: the cell is not
    blank, the number is not below 0 (a finite number from 0 up, or
    Infinity), and no record carries a defaulted price. *)
Theorem market_record_price_is_its_cell (map : ColMap.t)
    (fileName platform : jsstring) (today : jsstring) (now : nat -> N)
    (rawData : sheet) (headerIndex : nat) (rec : ShoeRecord.t) :
  ColMap.price map <> -1 ->
  In rec (fst (extractRecords map fileName platform MARKET today now
                 rawData headerIndex)) ->
  exists i r,
    nth_error rawData i = Some (Some r) /\ (headerIndex < i)%nat
    /\ nonblank (get r (ColMap.price map)) = true
    /\ ShoeRecord.price rec
       = parseFloat (String_ (get r (ColMap.price map)))
    /\ nonneg_number (ShoeRecord.price rec).
Proof.
  intros Hcol. rewrite extractRecords_flat. cbn [fst]. intros Hin.
  apply recordsOf_In in Hin. destruct Hin as (i & o & errs & Hin & Hstep).
  apply dataRows_In in Hin. destruct Hin as [Hlt Hn].
  destruct o as [r|]; [|discriminate Hstep].
  unfold extractRow in Hstep.
  destruct (length r =? 0)%nat; [discriminate|].
  destruct ((ColMap.sku map =? -1)
            || is_undefined (get r (ColMap.sku map))); [discriminate|].
  destruct (str_eqb _ []); [discriminate|].
  destruct (priceField map MARKET i _ r) as [[pr|] errs1] eqn:Pf;
    [|discriminate].
  destruct (priceField_market _ _ _ _ _ _ Hcol Pf)
    as (Hnb & _ & Hp & Hge).
  destruct (discountField map MARKET i _ r) as [[dc|] errs2];
    [|discriminate].
  injection Hstep as _ <-. exists i, r.
  cbn [ShoeRecord.price].
  split; [exact Hn|]. split; [exact Hlt|]. split; [exact Hnb|].
  split; [exact Hp | exact Hge].
Qed.

(** The market sheet (a1, -5), (b2, 10): the one record is b2 at 10. *)
Lemma market_record_price_is_its_cell_witness :
  exists rec,
    fst (extractRecords sample_market_map (utf8 "dewu.xlsx") sample_channel
           MARKET sample_today sample_now sample_market_sheet 0) = [rec]
    /\ ShoeRecord.price rec = Fin 10
    /\ exists i r,
         nth_error sample_market_sheet i = Some (Some r) /\ (0 < i)%nat
         /\ nonblank (get r 1) = true
         /\ ShoeRecord.price rec = parseFloat (String_ (get r 1))
         /\ nonneg_number (ShoeRecord.price rec).
Proof.
  assert (E : exists rec,
             fst (extractRecords sample_market_map (utf8 "dewu.xlsx")
                    sample_channel MARKET sample_today sample_now
                    sample_market_sheet 0) = [rec]
             /\ ShoeRecord.price rec = Fin 10).
  { vm_compute. eexists. split; reflexivity. }
  destruct E as (rec & E & Hp). exists rec.
  split; [exact E|]. split; [exact Hp|].
  apply (market_record_price_is_its_cell sample_market_map
           (utf8 "dewu.xlsx") sample_channel sample_today sample_now
           sample_market_sheet 0 rec ltac:(discriminate)).
  rewrite E. now left.
Defined.

(** ** What an upload does to the store *)

Lemma filter_all {A} (f : A -> bool) (l : list A) :
  Forall (fun x => f x = true) l -> filter f l = l.
Proof.
  induction 1 as [|x l Hx _ IH]; simpl; [reflexivity|].
  now rewrite Hx, IH.
Qed.

Lemma filter_none {A} (f : A -> bool) (l : list A) :
  Forall (fun x => f x = true) l -> filter (fun x => negb (f x)) l = [].
Proof.
  induction 1 as [|x l Hx _ IH]; simpl; [reflexivity|].
  now rewrite Hx, IH.
Qed.

Lemma filter_filter_neg {A} (f : A -> bool) (l : list A) :
  filter f (filter (fun x => negb (f x)) l) = [].
Proof.
  induction l as [|x l IH]; simpl; [reflexivity|].
  destruct (f x) eqn:E; simpl; [exact IH | now rewrite E].
Qed.

Lemma filter_filter_same {A} (f : A -> bool) (l : list A) :
  filter f (filter f l) = filter f l.
Proof.
  apply filter_all. apply Forall_forall. intros x Hx.
  now apply filter_In in Hx.
Qed.

Lemma extractRow_Push_slot (map : ColMap.t) (fileName platform : jsstring)
    (type : DataType) (today : jsstring) (now : nat -> N) (i : nat)
    (o : option row) (errs : list jsstring) (rec : ShoeRecord.t) :
  extractRow map fileName platform type today now i o = Push errs rec ->
  ShoeRecord.platform rec = platform
  /\ ShoeRecord.dataType rec = type
  /\ ShoeRecord.sourceFile rec = Some fileName
  /\ ShoeRecord.updateDate rec = today
  /\ isNaN (ShoeRecord.discount rec) = false.
Proof.
  intros H. destruct o as [r|]; [|discriminate]. unfold extractRow in H.
  destruct (length r =? 0)%nat; [discriminate|].
  destruct ((ColMap.sku map =? -1)
            || is_undefined (get r (ColMap.sku map))); [discriminate|].
  destruct (str_eqb _ []); [discriminate|].
  destruct (priceField map type i _ r) as [[pr|] errs1]; [|discriminate].
  destruct (discountField map type i _ r) as [[dc|] errs2] eqn:Df;
    [|discriminate].
  injection H as _ <-. repeat split.
  cbn [ShoeRecord.discount]. unfold discountField in Df.
  destruct (ColMap.discount map =? -1);
    [injection Df as <- _; reflexivity|].
  destruct (nonblank _); [|injection Df as <- _; reflexivity].
  destruct (isNaN _).
  - destruct (DataType_eqb type SUPPLIER); [discriminate|].
    injection Df as <- _. reflexivity.
  - injection Df as <- _. apply parseDiscount_number.
Qed.

Lemma sameSlot_refl (platform : jsstring) (type : DataType)
    (rec : ShoeRecord.t) :
  ShoeRecord.platform rec = platform -> ShoeRecord.dataType rec = type ->
  sameSlot platform type rec = true.
Proof.
  intros Hp Ht. unfold sameSlot. rewrite Hp, Ht, str_eqb_refl.
  now destruct type.
Qed.

(** Every record of an extraction is a well-formed record of the channel
    and category the extraction was run for. *)
Lemma extractRecords_records (map : ColMap.t) (fileName platform : jsstring)
    (type : DataType) (today : jsstring) (now : nat -> N) (rawData : sheet)
    (headerIndex : nat) :
  Forall (fun rec => sameSlot platform type rec = true
                     /\ wellformed_record rec)
         (fst (extractRecords map fileName platform type today now rawData
                 headerIndex)).
Proof.
  apply Forall_forall. intros rec Hin.
  rewrite extractRecords_flat in Hin. cbn [fst] in Hin.
  apply recordsOf_In in Hin. destruct Hin as (i & o & errs & _ & Hstep).
  destruct (extractRow_Push_slot _ _ _ _ _ _ _ _ _ _ Hstep)
    as (Hp & Ht & _ & _ & Hd).
  destruct (extractRow_Push _ _ _ _ _ _ _ _ _ _ Hstep)
    as (r & _ & Hc & _ & Hprice & _ & _ & Hsales & _).
  split; [now apply sameSlot_refl|]. repeat split; assumption.
Qed.

Section UploadFacts.

Variables (savedMappings : list SavedMapping.t).
Variables (selectedPlatform : jsstring) (selectedType : DataType).
Variables (today : jsstring) (now : nat -> N).

Let good (rec : ShoeRecord.t) : Prop :=
  sameSlot selectedPlatform selectedType rec = true /\ wellformed_record rec.

Lemma uploadFile_records (st : UploadState.t) (f : UploadedFile.t) :
  Forall good (UploadState.allNewRecords st) ->
  Forall good
    (UploadState.allNewRecords
       (uploadFile savedMappings selectedPlatform selectedType today now
          st f)).
Proof.
  intros H. unfold uploadFile.
  destruct (length (UploadedFile.rawData f) =? 0)%nat; [exact H|].
  destruct (chooseMapping _ _) as [colMap used].
  destruct (isComplete _ _ _); [|exact H].
  pose proof (extractRecords_records colMap (UploadedFile.name f)
                selectedPlatform selectedType today now
                (UploadedFile.rawData f) (UploadedFile.headerIndex f)) as E.
  destruct (extractRecords _ _ _ _ _ _ _ _) as [records fileErrors].
  cbn [fst] in E.
  destruct records as [|x l]; [exact H|].
  cbn [UploadState.allNewRecords]. apply Forall_app. now split.
Qed.

Lemma upload_fold_records (files : list UploadedFile.t) :
  forall st,
    Forall good (UploadState.allNewRecords st) ->
    Forall good
      (UploadState.allNewRecords
         (fold_left (uploadFile savedMappings selectedPlatform selectedType
                       today now) files st)).
Proof.
  induction files as [|f files IH]; intros st H; simpl; [exact H|].
  apply IH. now apply uploadFile_records.
Qed.

(** The store after [handleFileUpload], in terms of the records the
    files yielded. *)
Lemma handleFileUpload_store (files : list UploadedFile.t)
    (prev : list ShoeRecord.t) :
  let out := handleFileUpload savedMappings selectedPlatform selectedType
               today now files prev in
  let new := UploadState.allNewRecords (snd out) in
  Forall good new
  /\ (new = [] -> fst out = prev)
  /\ (new <> [] ->
      fst out
      = filter (fun p => negb (sameSlot selectedPlatform selectedType p))
               prev ++ new).
Proof.
  cbv zeta. unfold handleFileUpload. cbn [fst snd].
  split; [apply upload_fold_records; constructor|].
  unfold commitUpload.
  destruct (UploadState.allNewRecords _); split; congruence.
Qed.

End UploadFacts.

(** X8. After an upload whose files yielded records, the store's records of
    the selected channel and category are exactly those records, in file
    and row order, and its other records are the previous ones, in their
    order; an upload that yields no record leaves the store as it was. *)
Theorem upload_replaces_the_slot (savedMappings : list SavedMapping.t)
    (selectedPlatform : jsstring) (selectedType : DataType)
    (today : jsstring) (now : nat -> N) (files : list UploadedFile.t)
    (prev : list ShoeRecord.t) :
  let out := handleFileUpload savedMappings selectedPlatform selectedType
               today now files prev in
  let new := UploadState.allNewRecords (snd out) in
  let inSlot := sameSlot selectedPlatform selectedType in
  (new = [] -> fst out = prev)
  /\ (new <> [] ->
      filter inSlot (fst out) = new
      /\ filter (fun p => negb (inSlot p)) (fst out)
         = filter (fun p => negb (inSlot p)) prev).
Proof.
  cbv zeta.
  destruct (handleFileUpload_store savedMappings selectedPlatform
              selectedType today now files prev) as (Hgood & Hnil & Hnew).
  split; [exact Hnil|]. intros Hne. rewrite (Hnew Hne).
  assert (Hslot : Forall (fun x => sameSlot selectedPlatform selectedType x
                                   = true)
                         (UploadState.allNewRecords
                            (snd (handleFileUpload savedMappings
                                    selectedPlatform selectedType today now
                                    files prev)))).
  { eapply Forall_impl; [|exact Hgood]. now intros rec [H _]. }
  rewrite !filter_app. split.
  - now rewrite (filter_all _ _ Hslot), filter_filter_neg.
  - rewrite (filter_none _ _ Hslot), app_nil_r.
    apply filter_filter_same.
Qed.

(** X9. A second upload for the same channel and category that yields records
    absorbs the first: the store is the one the second upload alone would
    have produced. *)
Theorem second_upload_absorbs_the_first
    (saved1 saved2 : list SavedMapping.t) (selectedPlatform : jsstring)
    (selectedType : DataType) (today1 today2 : jsstring)
    (now1 now2 : nat -> N) (files1 files2 : list UploadedFile.t)
    (prev : list ShoeRecord.t) :
  let first := handleFileUpload saved1 selectedPlatform selectedType today1
                 now1 files1 prev in
  let second := handleFileUpload saved2 selectedPlatform selectedType today2
                  now2 files2 (fst first) in
  UploadState.allNewRecords (snd second) <> [] ->
  fst second
  = fst (handleFileUpload saved2 selectedPlatform selectedType today2 now2
           files2 prev).
Proof.
  cbv zeta. intros Hne.
  destruct (handleFileUpload_store saved1 selectedPlatform selectedType
              today1 now1 files1 prev) as (Hgood & Hnil & Hnew).
  destruct (handleFileUpload_store saved2 selectedPlatform selectedType
              today2 now2 files2 prev) as (_ & _ & Hnew2).
  destruct (handleFileUpload_store saved2 selectedPlatform selectedType
              today2 now2 files2
              (fst (handleFileUpload saved1 selectedPlatform selectedType
                      today1 now1 files1 prev))) as (_ & _ & Hnew3).
  change (UploadState.allNewRecords
            (snd (handleFileUpload saved2 selectedPlatform selectedType
                    today2 now2 files2
                    (fst (handleFileUpload saved1 selectedPlatform
                            selectedType today1 now1 files1 prev)))))
    with (UploadState.allNewRecords
            (snd (handleFileUpload saved2 selectedPlatform selectedType
                    today2 now2 files2 prev))) in *.
  rewrite (Hnew3 Hne), (Hnew2 Hne). f_equal.
  destruct (UploadState.allNewRecords
              (snd (handleFileUpload saved1 selectedPlatform selectedType
                      today1 now1 files1 prev))) as [|x l] eqn:E1.
  - now rewrite (Hnil eq_refl).
  - rewrite Hnew by discriminate. rewrite filter_app.
    assert (Hslot : Forall (fun y => sameSlot selectedPlatform selectedType y
                                     = true) (x :: l)).
    { eapply Forall_impl; [|exact Hgood]. now intros rec [H _]. }
    rewrite (filter_none _ _ Hslot), app_nil_r.
    apply filter_filter_same.
Qed.

(** Two stock files uploaded one after the other for the same channel and
    category: only the two records of the second remain. *)
Lemma second_upload_absorbs_the_first_witness :
  let first := handleFileUpload [] sample_channel INVENTORY sample_today
                 sample_now [sample_stock_file] [sample_old_record] in
  let second := handleFileUpload [] sample_channel INVENTORY sample_today
                  sample_now [sample_stock_file2] (fst first) in
  length (fst first) = 1%nat
  /\ map ShoeRecord.productCode (fst second) = [utf8 "CD34"; utf8 "EF56"]
  /\ fst second
     = fst (handleFileUpload [] sample_channel INVENTORY sample_today
              sample_now [sample_stock_file2] [sample_old_record]).
Proof.
  cbv zeta. split; [reflexivity|]. split; [reflexivity|].
  apply (second_upload_absorbs_the_first [] [] sample_channel INVENTORY
           sample_today sample_today sample_now sample_now
           [sample_stock_file] [sample_stock_file2] [sample_old_record]).
  vm_compute. discriminate.
Defined.

(** X10. Exporting right after an upload that yielded records gives exactly one
    line per new record, in order, under the file name made of the channel,
    the category label and the date; with no record of the selected
    channel and category in the store nothing is exported. *)
Theorem export_after_upload (savedMappings : list SavedMapping.t)
    (selectedPlatform : jsstring) (selectedType : DataType)
    (today exportDay : jsstring) (now : nat -> N)
    (files : list UploadedFile.t) (prev : list ShoeRecord.t) :
  let out := handleFileUpload savedMappings selectedPlatform selectedType
               today now files prev in
  let new := UploadState.allNewRecords (snd out) in
  (new <> [] ->
   handleExportData selectedPlatform selectedType exportDay (fst out)
   = inr (map csvRow new,
          selectedPlatform ++ utf8 "_"
            ++ getShortDataTypeLabel selectedType
            ++ utf8 "_数据导出_" ++ exportDay))
  /\ (forall data,
        Forall (fun p => sameSlot selectedPlatform selectedType p = false)
               data ->
        handleExportData selectedPlatform selectedType exportDay data
        = inl (utf8 "当前筛选条件下没有数据可导出")).
Proof.
  cbv zeta. split.
  - intros Hne.
    destruct (handleFileUpload_store savedMappings selectedPlatform
                selectedType today now files prev) as (Hgood & _ & Hnew).
    unfold handleExportData. rewrite (Hnew Hne), filter_app.
    rewrite filter_filter_neg. cbn [app].
    rewrite filter_all.
    + destruct (UploadState.allNewRecords _); [congruence | reflexivity].
    + eapply Forall_impl; [|exact Hgood]. now intros rec [H _].
  - intros data Hnone. unfold handleExportData.
    assert (E : filter (sameSlot selectedPlatform selectedType) data = []).
    { induction Hnone as [|x l Hx _ IH]; simpl; [reflexivity|].
      now rewrite Hx. }
    now rewrite E.
Qed.

(** The stock file uploaded into a store with one old inventory record: the
    export holds the one new line. *)
Lemma export_after_upload_witness :
  exists line,
    handleExportData sample_channel INVENTORY sample_today
      (fst (handleFileUpload [] sample_channel INVENTORY sample_today
              sample_now [sample_stock_file] [sample_old_record]))
    = inr ([line], utf8 "得物_库存_数据导出_2024-05-01")
    /\ Map_get line (utf8 "货号/SKU") = Some (Str (utf8 "AB12"))
    /\ Map_get line (utf8 "销量(数字)") = Some (Num (Fin 5)).
Proof.
  pose proof (proj1 (export_after_upload [] sample_channel INVENTORY
                       sample_today sample_today sample_now
                       [sample_stock_file] [sample_old_record])) as H.
  cbv zeta in H.
  assert (Hne : UploadState.allNewRecords
                  (snd (handleFileUpload [] sample_channel INVENTORY
                          sample_today sample_now [sample_stock_file]
                          [sample_old_record])) <> [])
    by (vm_compute; discriminate).
  specialize (H Hne). rewrite H.
  eexists. split; [reflexivity|]. split; reflexivity.
Defined.

(** X11. Both upload paths keep the store well formed: if every stored
    record has a product code, a price that is a number not below 0
    (Infinity included), a discount that is a number (never NaN) and a
    sales count that is a non-negative integer or Infinity, so has every
    record after [handleFileUpload] and after [handleConfirmMapping]. *)
Theorem uploads_keep_the_store_wellformed
    (savedMappings : list SavedMapping.t) (selectedPlatform : jsstring)
    (selectedType : DataType) (today : jsstring) (now : nat -> N)
    (prev : list ShoeRecord.t) :
  Forall wellformed_record prev ->
  (forall files,
     Forall wellformed_record
       (fst (handleFileUpload savedMappings selectedPlatform selectedType
               today now files prev)))
  /\ (forall rememberMapping label cur sel,
        Forall wellformed_record
          (fst (handleConfirmMapping savedMappings selectedPlatform
                  selectedType today now rememberMapping label cur sel
                  prev))).
Proof.
  intros Hprev. split.
  - intros files.
    destruct (handleFileUpload_store savedMappings selectedPlatform
                selectedType today now files prev) as (Hgood & Hnil & Hnew).
    destruct (UploadState.allNewRecords
                (snd (handleFileUpload savedMappings selectedPlatform
                        selectedType today now files prev))) as [|x l] eqn:E.
    + now rewrite (Hnil eq_refl).
    + rewrite Hnew by discriminate. apply Forall_app. split.
      * apply Forall_forall. intros rec Hin. apply filter_In in Hin.
        now apply (proj1 (Forall_forall _ _) Hprev).
      * eapply Forall_impl; [|exact Hgood]. now intros rec [_ H].
  - intros rememberMapping label cur sel. unfold handleConfirmMapping.
    destruct cur as [c|]; [|exact Hprev].
    destruct (sel_sku sel) as [k|]; [|exact Hprev].
    match goal with
    | |- context [extractRecords ?m ?f ?p ?t ?d ?n ?r ?h] =>
      pose proof (extractRecords_records m f p t d n r h) as E;
      destruct (extractRecords m f p t d n r h) as [records errors]
    end.
    cbn [fst] in *. destruct records as [|x l]; [exact Hprev|].
    apply Forall_app. split; [exact Hprev|].
    eapply Forall_impl; [|exact E]. now intros rec [_ H].
Qed.

(** The old inventory record is well formed, and so is the store after the
    stock file has been uploaded next to it. *)
Lemma uploads_keep_the_store_wellformed_witness :
  Forall wellformed_record [sample_old_record]
  /\ Forall wellformed_record
       (fst (handleFileUpload [] sample_channel MARKET sample_today
               sample_now [sample_stock_file2] [sample_old_record])).
Proof.
  assert (H : Forall wellformed_record [sample_old_record]).
  { constructor; [|constructor].
    split; [discriminate|]. split; [|split; [reflexivity|]].
    - left. exists 0%Q. split; [reflexivity | apply Qle_refl].
    - right. now exists 3%N. }
  split; [exact H|].
  apply (proj1 (uploads_keep_the_store_wellformed [] sample_channel MARKET
                  sample_today sample_now [sample_old_record] H)).
Defined.

(** ** The mapping memory *)

Lemma findSaved_app (saved extra : list SavedMapping.t) (s : jsstring) :
  findSaved (saved ++ extra) s
  = match findSaved saved s with
    | Some m => Some m
    | None => findSaved extra s
    end.
Proof.
  unfold findSaved. induction saved as [|m saved IH]; simpl; [reflexivity|].
  now destruct (str_eqb (SavedMapping.signature m) s).
Qed.

Lemma findSaved_forget_other (saved : list SavedMapping.t)
    (sig s : jsstring) :
  s <> sig ->
  findSaved (filter (fun m => negb (str_eqb (SavedMapping.signature m) sig))
                    saved) s
  = findSaved saved s.
Proof.
  intros Hs. unfold findSaved.
  induction saved as [|m saved IH]; simpl; [reflexivity|].
  destruct (str_eqb (SavedMapping.signature m) sig) eqn:E1; simpl.
  - destruct (str_eqb (SavedMapping.signature m) s) eqn:E2; [|exact IH].
    apply str_eqb_eq in E1, E2. congruence.
  - now destruct (str_eqb (SavedMapping.signature m) s).
Qed.

Lemma filter_forget_same (saved : list SavedMapping.t) (sig : jsstring) :
  filter (fun m => str_eqb (SavedMapping.signature m) sig)
    (filter (fun m => negb (str_eqb (SavedMapping.signature m) sig)) saved)
  = [].
Proof.
  apply (filter_filter_neg
           (fun m => str_eqb (SavedMapping.signature m) sig)).
Qed.

Lemma findSaved_forget_same (saved : list SavedMapping.t) (sig : jsstring) :
  findSaved (filter (fun m => negb (str_eqb (SavedMapping.signature m) sig))
                    saved) sig
  = None.
Proof.
  unfold findSaved.
  induction saved as [|m saved IH]; simpl; [reflexivity|].
  destruct (str_eqb (SavedMapping.signature m) sig) eqn:E; simpl;
    [exact IH | now rewrite E].
Qed.

(** The memory after a confirmation with "remember" ticked. *)
Lemma handleConfirmMapping_memory (savedMappings : list SavedMapping.t)
    (selectedPlatform : jsstring) (selectedType : DataType)
    (today : jsstring) (now : nat -> N) (rememberMapping : bool)
    (label : jsstring) (cur : PendingFile.t) (k : nat)
    (sz pr di sa : option nat) (prev : list ShoeRecord.t) :
  snd (handleConfirmMapping savedMappings selectedPlatform selectedType
         today now rememberMapping label (Some cur)
         (Build_Selection (Some k) sz pr di sa) prev)
  = if rememberMapping then
      filter (fun m => negb (str_eqb (SavedMapping.signature m)
                                     (PendingFile.headerSignature cur)))
             savedMappings
        ++ [SavedMapping.mk (PendingFile.headerSignature cur)
              (ColMap.mk (Z.of_nat k) (selected sz) (selected pr)
                 (selected di) (selected sa)) label]
    else savedMappings.
Proof.
  unfold handleConfirmMapping. cbn [sel_sku sel_size sel_price sel_discount
                                    sel_sales].
  now destruct (extractRecords _ _ _ _ _ _ _ _).
Qed.

(** X12. A confirmation with "remember" ticked stores the chosen columns under
    the header signature of the file: looking that signature up afterwards
    gives exactly this choice, the memory holds one entry for it, and every
    other signature is looked up as before.  Without "remember" the memory
    is left as it was. *)
Theorem confirmed_mapping_is_remembered (savedMappings : list SavedMapping.t)
    (selectedPlatform : jsstring) (selectedType : DataType)
    (today : jsstring) (now : nat -> N) (label : jsstring)
    (cur : PendingFile.t) (k : nat) (sz pr di sa : option nat)
    (prev : list ShoeRecord.t) :
  let sel := Build_Selection (Some k) sz pr di sa in
  let chosen := ColMap.mk (Z.of_nat k) (selected sz) (selected pr)
                  (selected di) (selected sa) in
  let sig := PendingFile.headerSignature cur in
  let confirm remember :=
    snd (handleConfirmMapping savedMappings selectedPlatform selectedType
           today now remember label (Some cur) sel prev) in
  findSaved (confirm true) sig = Some (SavedMapping.mk sig chosen label)
  /\ length (filter (fun m => str_eqb (SavedMapping.signature m) sig)
                    (confirm true)) = 1%nat
  /\ (forall s, s <> sig ->
        findSaved (confirm true) s = findSaved savedMappings s)
  /\ confirm false = savedMappings.
Proof.
  cbv beta zeta. rewrite !handleConfirmMapping_memory.
  split; [|split; [|split]].
  - rewrite findSaved_app, findSaved_forget_same. unfold findSaved.
    cbn [find SavedMapping.signature]. now rewrite str_eqb_refl.
  - rewrite filter_app, filter_forget_same.
    cbn [filter SavedMapping.signature app]. now rewrite str_eqb_refl.
  - intros s Hs. rewrite findSaved_app, findSaved_forget_other by exact Hs.
    destruct (findSaved savedMappings s); [reflexivity|].
    unfold findSaved. cbn [find SavedMapping.signature].
    destruct (str_eqb _ s) eqn:E; [|reflexivity].
    apply str_eqb_eq in E. congruence.
  - reflexivity.
Qed.

(** X13. Once a mapping has been remembered for a header, a later upload of any
    non-empty sheet with that header signature, for any channel and
    category, is never queued for manual mapping: it is extracted with the
    remembered columns, whether or not they satisfy the category's
    completeness policy. *)
Theorem remembered_header_is_not_asked_again
    (savedMappings : list SavedMapping.t) (selectedPlatform : jsstring)
    (selectedType : DataType) (today : jsstring) (now : nat -> N)
    (label : jsstring) (cur : PendingFile.t) (k : nat)
    (sz pr di sa : option nat) (prev : list ShoeRecord.t)
    (laterPlatform : jsstring) (laterType : DataType) (laterDay : jsstring)
    (laterNow : nat -> N) (st : UploadState.t) (f : UploadedFile.t) :
  let chosen := ColMap.mk (Z.of_nat k) (selected sz) (selected pr)
                  (selected di) (selected sa) in
  let memory :=
    snd (handleConfirmMapping savedMappings selectedPlatform selectedType
           today now true label (Some cur)
           (Build_Selection (Some k) sz pr di sa) prev) in
  let st' := uploadFile memory laterPlatform laterType laterDay laterNow
               st f in
  UploadedFile.rawData f <> [] ->
  join (utf8 "|")
       (headerRowOf (UploadedFile.rawData f) (UploadedFile.headerIndex f))
  = PendingFile.headerSignature cur ->
  UploadState.mappingQueue st' = UploadState.mappingQueue st
  /\ UploadState.allNewRecords st'
     = UploadState.allNewRecords st
         ++ fst (extractRecords chosen (UploadedFile.name f) laterPlatform
                   laterType laterDay laterNow (UploadedFile.rawData f)
                   (UploadedFile.headerIndex f)).
Proof.
  cbv zeta. intros Hne Hsig. rewrite handleConfirmMapping_memory.
  unfold uploadFile.
  destruct (UploadedFile.rawData f) as [|r0 rest] eqn:Eraw; [congruence|].
  cbn [length Nat.eqb]. unfold chooseMapping. rewrite Hsig.
  rewrite findSaved_app, findSaved_forget_same. unfold findSaved.
  cbn [find SavedMapping.signature SavedMapping.map].
  rewrite str_eqb_refl. unfold isComplete.
  destruct (extractRecords _ _ _ _ _ _ _ _) as [records fileErrors].
  cbn [fst]. destruct records as [|x l]; cbn [UploadState.mappingQueue
    UploadState.allNewRecords]; split; try reflexivity.
  now rewrite app_nil_r.
Qed.

(** The stock file whose header nothing recognises, mapped once by hand
    for inventory with "remember" ticked, is afterwards accepted as a
    market-price file although no price column was chosen: its record is
    stored with price 0. *)
Lemma remembered_header_is_not_asked_again_witness :
  let memory :=
    snd (handleConfirmMapping [] sample_channel INVENTORY sample_today
           sample_now true (utf8 "Auto-saved") (Some sample_pending)
           sample_selection [sample_old_record]) in
  let st' := uploadFile memory sample_channel MARKET sample_today
               sample_now sample_state0 sample_unmapped_file in
  UploadState.mappingQueue st' = []
  /\ map ShoeRecord.productCode (UploadState.allNewRecords st')
     = [utf8 "AB12"]
  /\ map ShoeRecord.price (UploadState.allNewRecords st') = [Fin 0].
Proof.
  cbv zeta.
  destruct (remembered_header_is_not_asked_again [] sample_channel INVENTORY
              sample_today sample_now (utf8 "Auto-saved") sample_pending
              0 None None None (Some 1%nat) [sample_old_record]
              sample_channel MARKET sample_today sample_now sample_state0
              sample_unmapped_file) as [Hq Hr].
  - discriminate.
  - reflexivity.
  - split; [exact Hq|]. unfold sample_selection. rewrite Hr.
    split; reflexivity.
Defined.

(** ** Which market price the matcher uses *)

Lemma filter_comm {A} (f g : A -> bool) (l : list A) :
  filter f (filter g l) = filter g (filter f l).
Proof.
  induction l as [|x l IH]; simpl; [reflexivity|].
  destruct (f x) eqn:Ef, (g x) eqn:Eg; simpl; rewrite ?Ef, ?Eg, IH;
    reflexivity.
Qed.

Lemma stored_app (a b : list ShoeRecord.t) (sku : jsstring)
    (ty : DataType) :
  stored (a ++ b) sku ty = stored a sku ty ++ stored b sku ty.
Proof. apply filter_app. Qed.

Lemma stored_other_channels (selectedPlatform : jsstring)
    (prev : list ShoeRecord.t) (sku : jsstring) :
  stored (filter (fun p => negb (sameSlot selectedPlatform MARKET p)) prev)
         sku MARKET
  = filter (fun d => negb (str_eqb (ShoeRecord.platform d) selectedPlatform))
           (stored prev sku MARKET).
Proof.
  unfold stored. rewrite filter_comm.
  induction prev as [|x l IH]; simpl; [reflexivity|].
  destruct (str_eqb (ShoeRecord.productCode x) sku
            && DataType_eqb (ShoeRecord.dataType x) MARKET) eqn:E; simpl;
    [|exact IH].
  apply andb_true_iff in E. destruct E as [_ E]. unfold sameSlot at 1.
  rewrite E, andb_true_r.
  destruct (negb (str_eqb (ShoeRecord.platform x) selectedPlatform));
    now rewrite IH.
Qed.

(** X14. After market prices have been uploaded for a channel, the price the
    matcher uses for a SKU is that of the earliest stored market record of
    the SKU from another channel, if there is one; only otherwise is it the
    first price of the SKU in the uploaded files (0 when they have none). *)
Theorem other_channels_price_comes_first
    (savedMappings : list SavedMapping.t) (selectedPlatform : jsstring)
    (today : jsstring) (now : nat -> N) (files : list UploadedFile.t)
    (prev : list ShoeRecord.t) (sku : jsstring) :
  let out := handleFileUpload savedMappings selectedPlatform MARKET today
               now files prev in
  let new := UploadState.allNewRecords (snd out) in
  new <> [] ->
  marketPriceOf (fst out) sku
  = match filter (fun d => negb (str_eqb (ShoeRecord.platform d)
                                         selectedPlatform))
                 (stored prev sku MARKET) with
    | d :: _ => ShoeRecord.price d
    | [] => marketPriceOf new sku
    end.
Proof.
  cbv zeta. intros Hne.
  destruct (handleFileUpload_store savedMappings selectedPlatform MARKET
              today now files prev) as (_ & _ & Hnew).
  rewrite (Hnew Hne). unfold marketPriceOf.
  rewrite stored_app, stored_other_channels.
  now destruct (filter _ (stored prev sku MARKET)).
Qed.

(** The store prices A1 at 1000 through one channel; a file of another
    channel pricing it at 1500 is uploaded, and the matcher goes on using
    1000. *)
Lemma other_channels_price_comes_first_witness :
  let out := handleFileUpload [] (utf8 "Nice") MARKET sample_today
               sample_now [sample_nice_prices] sample_store in
  map ShoeRecord.price (UploadState.allNewRecords (snd out)) = [Fin 1500]
  /\ marketPriceOf (fst out) (utf8 "A1") = Fin 1000.
Proof.
  cbv zeta. split; [reflexivity|].
  rewrite (other_channels_price_comes_first [] (utf8 "Nice") sample_today
             sample_now [sample_nice_prices] sample_store (utf8 "A1")).
  - reflexivity.
  - vm_compute. discriminate.
Defined.

(** ** Stock counts *)

Section Counting.

(** A count that is a non-negative integer, or Infinity ([None]). *)
Let emb (o : option N) : number :=
  match o with Some k => ofN k | None => Inf false end.
Let oadd (a b : option N) : option N :=
  match a, b with Some x, Some y => Some (x + y)%N | _, _ => None end.
Let ole (a b : option N) : Prop :=
  match a, b with
  | _, None => True
  | Some x, Some y => (x <= y)%N
  | None, Some _ => False
  end.
Let whole (r : ShoeRecord.t) : option N :=
  match ShoeRecord.salesNum r with
  | Fin q => Some (Z.to_N (Qnum q))
  | Inf _ => None
  | NaN => Some 0%N
  end.
Let sum (l : list ShoeRecord.t) : option N :=
  fold_right oadd (Some 0%N) (map whole l).
Let counted (r : ShoeRecord.t) : Prop :=
  whole_or_infinite (ShoeRecord.salesNum r).

Lemma counted_emb (r : ShoeRecord.t) :
  counted r -> ShoeRecord.salesNum r = emb (whole r).
Proof.
  unfold counted, whole. intros [H|[k H]]; rewrite H; [reflexivity|].
  unfold ofN, emb. cbn [Qnum]. now rewrite N2Z.id.
Qed.

Lemma nadd_emb (a b : option N) : nadd (emb a) (emb b) = emb (oadd a b).
Proof.
  destruct a as [a|], b as [b|]; try reflexivity.
  unfold emb, oadd, ofN, nadd, Qplus. cbn [Qnum Qden].
  rewrite !Z.mul_1_r, N2Z.inj_add. reflexivity.
Qed.

Lemma oadd_assoc (a b c : option N) :
  oadd (oadd a b) c = oadd a (oadd b c).
Proof.
  destruct a, b, c; simpl; try reflexivity. now rewrite N.add_assoc.
Qed.

(** A sum of sales counts that are non-negative integers or Infinity is
    one. *)
Lemma sum_sales_whole (l : list ShoeRecord.t) :
  Forall counted l ->
  forall a,
    fold_left (fun acc r => nadd acc (ShoeRecord.salesNum r)) l (emb a)
    = emb (oadd a (sum l)).
Proof.
  induction 1 as [|x l Hx _ IH]; intros a.
  - destruct a; simpl; [now rewrite N.add_0_r | reflexivity].
  - cbn [fold_left]. rewrite (counted_emb x Hx), nadd_emb, IH.
    unfold sum. cbn [map fold_right]. now rewrite oadd_assoc.
Qed.

Lemma sum_filter_le (f : ShoeRecord.t -> bool) (l : list ShoeRecord.t) :
  ole (sum (filter f l)) (sum l).
Proof.
  unfold sum. induction l as [|x l IH]; simpl; [lia|].
  destruct (f x); simpl;
    destruct (whole x), (fold_right oadd (Some 0%N) (map whole (filter f l))),
      (fold_right oadd (Some 0%N) (map whole l));
    simpl in *; try exact I; try contradiction; lia.
Qed.

Lemma emb_whole (a : option N) : whole_or_infinite (emb a).
Proof. destruct a as [k|]; [right; now exists k | now left]. Qed.

Lemma emb_le (a b : option N) : ole a b -> num_le (emb a) (emb b).
Proof.
  destruct a as [x|], b as [y|]; simpl; intros H;
    try contradiction; try (now repeat split).
  apply num_le_Fin. unfold Qle. cbn [Qnum Qden]. lia.
Qed.

Lemma stored_as_filter (masterData : list ShoeRecord.t) (sku : jsstring)
    (ty : DataType) :
  stored masterData sku ty
  = filter (fun d => str_eqb (ShoeRecord.productCode d) sku)
      (filter (fun d => DataType_eqb (ShoeRecord.dataType d) ty) masterData).
Proof.
  unfold stored. induction masterData as [|x l IH]; simpl; [reflexivity|].
  destruct (DataType_eqb (ShoeRecord.dataType x) ty); simpl.
  - rewrite andb_true_r.
    destruct (str_eqb (ShoeRecord.productCode x) sku); now rewrite IH.
  - now rewrite andb_false_r.
Qed.

(** The count of a SKU against the total of its category. *)
Lemma countOf_within (masterData : list ShoeRecord.t) (sku : jsstring)
    (ty : DataType) :
  Forall (fun r => whole_or_infinite (ShoeRecord.salesNum r)) masterData ->
  let c := countOf masterData sku ty in
  let t := fold_left (fun acc curr => nadd acc (ShoeRecord.salesNum curr))
             (filter (fun d => DataType_eqb (ShoeRecord.dataType d) ty)
                     masterData) (Fin 0) in
  whole_or_infinite c /\ whole_or_infinite t /\ num_le c t.
Proof.
  intros H. cbv zeta. unfold countOf. rewrite stored_as_filter.
  set (byType := filter _ masterData).
  set (bySku := filter _ byType).
  assert (Hsub : forall (P : ShoeRecord.t -> Prop),
            Forall P masterData -> Forall P byType /\ Forall P bySku).
  { intros P HP. assert (Forall P byType).
    { apply Forall_forall. intros r Hr. apply filter_In in Hr.
      now apply (proj1 (Forall_forall _ _) HP). }
    split; [assumption|].
    apply Forall_forall. intros r Hr. apply filter_In in Hr.
    now apply (proj1 (Forall_forall P byType)). }
  destruct (Hsub _ H) as [Ht Hc].
  change (Fin 0) with (emb (Some 0%N)).
  rewrite (sum_sales_whole _ Hc), (sum_sales_whole _ Ht).
  pose proof (sum_filter_le
                (fun d => str_eqb (ShoeRecord.productCode d) sku) byType)
    as Hle.
  fold bySku in Hle.
  assert (E0 : forall o, oadd (Some 0%N) o = o) by (now intros [k|]).
  rewrite !E0.
  split; [apply emb_whole|]. split; [apply emb_whole|].
  now apply emb_le.
Qed.

End Counting.

(** The remaining fields of a processed row's result. *)
Lemma arbitrageRow_rest (masterData : list ShoeRecord.t)
    (fileName todayDate : jsstring) (getTime : jsstring -> number)
    (cols : Columns.t) (o : option row) (res : ArbitrageResult.t) :
  arbitrageRow masterData fileName todayDate getTime cols o = Some res ->
  exists r, o = Some r /\
    let sku := ArbitrageResult.productCode res in
    let sales := salesOf masterData fileName todayDate getTime cols sku r in
    ArbitrageResult.salesHistory res = fst sales
    /\ ArbitrageResult.salesVolume res = snd sales
    /\ ArbitrageResult.supplierName res
       = (if hasUploadSales cols r then utf8 "本次导入"
          else utf8 "历史匹配")
    /\ ArbitrageResult.supplierSourceFile res = fileName
    /\ ArbitrageResult.supplierDate res = todayDate
    /\ ArbitrageResult.inventoryCount res = countOf masterData sku INVENTORY
    /\ ArbitrageResult.futureCount res = countOf masterData sku FUTURE.
Proof.
  unfold arbitrageRow. intros H.
  destruct o as [r|]; [|discriminate]. exists r. split; [reflexivity|].
  destruct (negb (truthy (get r (Columns.skuIdx cols)))); [discriminate|].
  destruct (str_eqb (cleanProductCode (get r (Columns.skuIdx cols))) []);
    [discriminate|].
  destruct (salesOf _ _ _ _ _ _ _) as [salesHistory displaySales] eqn:Es.
  injection H as <-. cbv zeta.
  cbn [ArbitrageResult.productCode ArbitrageResult.salesHistory
       ArbitrageResult.salesVolume ArbitrageResult.supplierName
       ArbitrageResult.supplierSourceFile ArbitrageResult.supplierDate
       ArbitrageResult.inventoryCount ArbitrageResult.futureCount].
  rewrite Es. repeat split.
Qed.

(** Every result the matcher shows is the result of a row below the
    header, computed with the columns detected in the header. *)
Lemma processArbitrage_results (masterData : list ShoeRecord.t)
    (fileName todayDate : jsstring) (getTime : jsstring -> number)
    (rawData : sheet) (headerRowIndex : nat)
    (out : list ArbitrageResult.t) :
  processArbitrage masterData fileName todayDate getTime rawData
    headerRowIndex = Results out ->
  out <> []
  /\ exists hr,
       nth_error rawData headerRowIndex = Some (Some hr)
       /\ forall res, In res out ->
            exists o, In o (skipn (S headerRowIndex) rawData)
              /\ arbitrageRow masterData fileName todayDate getTime
                   (detectColumns (map (fun c => trim (String_ c)) hr)) o
                 = Some res.
Proof.
  unfold processArbitrage. intros H.
  destruct rawData as [|x rest] eqn:Raw; [discriminate|]. rewrite <- Raw in *.
  destruct (nth_error rawData headerRowIndex) as [[hr|]|]; try discriminate.
  set (cols := detectColumns (map (fun c => trim (String_ c)) hr)) in *.
  destruct ((Columns.skuIdx cols =? -1) || (Columns.tagPriceIdx cols =? -1));
    [discriminate|].
  pose proof (rankRows_spec masterData fileName todayDate getTime cols
                (skipn (S headerRowIndex) rawData)) as (_ & Hfrom & _).
  destruct (rankRows _ _ _ _ _ _) as [|y l]; [discriminate|].
  injection H as <-. split; [discriminate|]. exists hr.
  split; [reflexivity | exact Hfrom].
Qed.

(** X15. Over a store whose sales counts are non-negative integers or
    Infinity (as the upload paths leave it), the inventory and futures
    counts of every matcher result and the two totals of the dashboard are
    non-negative integers or Infinity, and neither count exceeds the
    dashboard's total for its category. *)
Theorem stock_counts_within_dashboard_totals
    (masterData : list ShoeRecord.t) (fileName todayDate : jsstring)
    (getTime : jsstring -> number) (rawData : sheet)
    (headerRowIndex : nat) (out : list ArbitrageResult.t) :
  Forall (fun r => whole_or_infinite (ShoeRecord.salesNum r)) masterData ->
  processArbitrage masterData fileName todayDate getTime rawData
    headerRowIndex = Results out ->
  whole_or_infinite (Dashboard.totalInventory masterData)
  /\ whole_or_infinite (Dashboard.totalFuture masterData)
  /\ forall res, In res out ->
       whole_or_infinite (ArbitrageResult.inventoryCount res)
       /\ whole_or_infinite (ArbitrageResult.futureCount res)
       /\ num_le (ArbitrageResult.inventoryCount res)
                 (Dashboard.totalInventory masterData)
       /\ num_le (ArbitrageResult.futureCount res)
                 (Dashboard.totalFuture masterData).
Proof.
  intros Hc Hout.
  destruct (countOf_within masterData [] INVENTORY Hc) as (_ & Hti & _).
  destruct (countOf_within masterData [] FUTURE Hc) as (_ & Htf & _).
  split; [exact Hti|]. split; [exact Htf|].
  intros res Hin.
  destruct (processArbitrage_results _ _ _ _ _ _ _ Hout)
    as (_ & hr & _ & Hfrom).
  destruct (Hfrom res Hin) as (o & _ & Hrow).
  destruct (arbitrageRow_rest _ _ _ _ _ _ _ Hrow)
    as (r & _ & _ & _ & _ & _ & _ & Hi & Hf).
  rewrite Hi, Hf.
  destruct (countOf_within masterData (ArbitrageResult.productCode res)
              INVENTORY Hc) as (Hci & _ & Hlei).
  destruct (countOf_within masterData (ArbitrageResult.productCode res)
              FUTURE Hc) as (Hcf & _ & Hlef).
  split; [exact Hci|]. split; [exact Hcf|]. split; [exact Hlei|].
  exact Hlef.
Qed.

(** A store with 3 and 4 pairs in stock and 6 on order: the result for
    AB12 counts 3 in stock and 6 on order, against totals of 7 and 6. *)
Lemma stock_counts_within_dashboard_totals_witness :
  exists res,
    processArbitrage sample_counted_store (utf8 "buy.xlsx") sample_today
      sample_getTime sample_ab12_sheet 0 = Results [res]
    /\ ArbitrageResult.inventoryCount res = Fin 3
    /\ ArbitrageResult.futureCount res = Fin 6
    /\ Dashboard.totalInventory sample_counted_store = Fin 7
    /\ Dashboard.totalFuture sample_counted_store = Fin 6
    /\ num_le (ArbitrageResult.inventoryCount res)
              (Dashboard.totalInventory sample_counted_store)
    /\ num_le (ArbitrageResult.futureCount res)
              (Dashboard.totalFuture sample_counted_store).
Proof.
  assert (Hc : Forall (fun r => whole_or_infinite (ShoeRecord.salesNum r))
                      sample_counted_store).
  { constructor; [right; now exists 3%N|].
    constructor; [right; now exists 4%N|].
    constructor; [right; now exists 6%N | constructor]. }
  assert (Hout : exists res,
            processArbitrage sample_counted_store (utf8 "buy.xlsx")
              sample_today sample_getTime sample_ab12_sheet 0
            = Results [res]
            /\ ArbitrageResult.inventoryCount res = Fin 3
            /\ ArbitrageResult.futureCount res = Fin 6).
  { vm_compute. eexists. split; [reflexivity|]. split; reflexivity. }
  destruct Hout as (res & Hout & Hi & Hf).
  exists res. split; [exact Hout|]. split; [exact Hi|]. split; [exact Hf|].
  split; [reflexivity|]. split; [reflexivity|].
  destruct (stock_counts_within_dashboard_totals sample_counted_store
              (utf8 "buy.xlsx") sample_today sample_getTime
              sample_ab12_sheet 0 [res] Hc Hout) as (_ & _ & Hle).
  destruct (Hle res (or_introl eq_refl)) as (_ & _ & Hli & Hlf).
  split; [exact Hli | exact Hlf].
Defined.

(** ** Sales history *)

Lemma Map_set_In {V} (m : list (jsstring * V)) (k : jsstring) (v : V)
    (k' : jsstring) (v' : V) :
  NoDup (map fst m) ->
  In (k', v') (Map_set m k v) ->
  (k' = k /\ v' = v) \/ (k' <> k /\ In (k', v') m).
Proof.
  induction m as [|[k0 v0] m IH]; simpl; intros Hnd Hin.
  - destruct Hin as [E|[]]. injection E as <- <-. now left.
  - inversion Hnd as [|? ? Hnot Hnd']; subst.
    destruct (str_eqb k0 k) eqn:E.
    + apply str_eqb_eq in E. subst k0. destruct Hin as [E|Hin].
      * injection E as <- <-. now left.
      * right. split; [|now right]. intros ->. apply Hnot.
        now apply (in_map fst) in Hin.
    + apply str_eqb_neq in E. destruct Hin as [E'|Hin].
      * injection E' as <- <-. right. split; [exact E | now left].
      * destruct (IH Hnd' Hin) as [H|[H1 H2]]; [now left|].
        right. split; [exact H1 | now right].
Qed.

Section History.

Let fin (d : ShoeRecord.t) : Prop := isNaN (ShoeRecord.salesNum d) = false.

(** Filing a record that is new under its key, or that beats the entry
    under its key. *)
Lemma deduplicated_set (done : list ShoeRecord.t)
    (m : list (jsstring * SalesHistoryItem.t)) (x : ShoeRecord.t) :
  fin x -> deduplicated done m ->
  (forall d', In d' done -> historyKey d' = historyKey x ->
     num_le (ShoeRecord.salesNum d') (ShoeRecord.salesNum x)) ->
  deduplicated (done ++ [x]) (Map_set m (historyKey x) (historyItemOf x)).
Proof.
  intros Hx (Hnd & Hval & Hcov) Hbeat. split; [|split].
  - now apply Map_set_NoDup.
  - intros k h Hin.
    destruct (Map_set_In _ _ _ _ _ Hnd Hin) as [[-> ->]|[Hk Hold]].
    + exists x. split; [apply in_or_app; right; now left|].
      split; [reflexivity|]. split; [reflexivity|].
      intros d' Hd' Hkey. apply in_app_or in Hd'.
      destruct Hd' as [Hd'|[<-|[]]]; [now apply Hbeat|].
      now apply num_le_refl.
    + destruct (Hval k h Hold) as (d & Hd & -> & -> & Hmax).
      exists d. split; [apply in_or_app; now left|].
      split; [reflexivity|]. split; [reflexivity|].
      intros d' Hd' Hkey. apply in_app_or in Hd'.
      destruct Hd' as [Hd'|[<-|[]]]; [now apply Hmax | congruence].
  - intros d Hd. rewrite Map_get_set.
    destruct (str_eqb (historyKey x) (historyKey d)) eqn:E; [discriminate|].
    apply in_app_or in Hd. destruct Hd as [Hd|[<-|[]]]; [now apply Hcov|].
    now rewrite str_eqb_refl in E.
Qed.

Lemma deduplicated_step (done : list ShoeRecord.t)
    (m : list (jsstring * SalesHistoryItem.t)) (x : ShoeRecord.t) :
  fin x -> Forall fin done -> deduplicated done m ->
  deduplicated (done ++ [x]) (addHistory m x).
Proof.
  intros Hx Hdone Hm. pose proof Hm as (Hnd & Hval & Hcov).
  unfold addHistory. fold (historyItemOf x).
  destruct (Map_get m (historyKey x)) as [existing|] eqn:G.
  - pose proof (Map_get_In _ _ _ G) as Hin.
    destruct (Hval _ _ Hin) as (d0 & Hd0 & Hk0 & -> & Hmax0).
    cbn [historyItemOf SalesHistoryItem.sales].
    assert (Hf0 : fin d0) by exact (proj1 (Forall_forall _ _) Hdone d0 Hd0).
    destruct (ngt_num_le (ShoeRecord.salesNum x) (ShoeRecord.salesNum d0)
                Hx Hf0) as [Hgt Hle].
    destruct (ngt (ShoeRecord.salesNum x) (ShoeRecord.salesNum d0)).
    + apply deduplicated_set; auto. intros d' Hd' Hkey.
      apply (num_le_trans _ (ShoeRecord.salesNum d0)); auto.
    + split; [exact Hnd|]. split.
      * intros k h Hkh. destruct (Hval k h Hkh) as (d & Hd & -> & -> & Hmax).
        exists d. split; [apply in_or_app; now left|].
        split; [reflexivity|]. split; [reflexivity|].
        intros d' Hd' Hkey. apply in_app_or in Hd'.
        destruct Hd' as [Hd'|[<-|[]]]; [now apply Hmax|].
        rewrite <- Hkey in Hkh.
        apply (Map_In_get _ _ _ Hnd) in Hkh. rewrite G in Hkh.
        assert (Hs : ShoeRecord.salesNum d0 = ShoeRecord.salesNum d).
        { apply (f_equal (fun o => match o with
                                   | Some i => SalesHistoryItem.sales i
                                   | None => NaN
                                   end)) in Hkh. exact Hkh. }
        rewrite <- Hs. now apply Hle.
      * intros d Hd. apply in_app_or in Hd.
        destruct Hd as [Hd|[<-|[]]]; [now apply Hcov|]. now rewrite G.
  - apply deduplicated_set; auto. intros d' Hd' Hkey.
    elim (Hcov d' Hd'). now rewrite Hkey.
Qed.

Lemma deduplicated_fold (rows : list ShoeRecord.t) :
  forall done m,
    Forall fin (done ++ rows) -> deduplicated done m ->
    deduplicated (done ++ rows) (fold_left addHistory rows m).
Proof.
  induction rows as [|x rows IH]; intros done m Hfin Hm; simpl.
  - now rewrite app_nil_r.
  - replace (done ++ x :: rows) with ((done ++ [x]) ++ rows) in *
      by (now rewrite <- app_assoc).
    apply IH; [exact Hfin|].
    apply Forall_app in Hfin. destruct Hfin as [Hfin _].
    apply Forall_app in Hfin. destruct Hfin as [Hd Hx].
    apply deduplicated_step; auto. now inversion Hx.
Qed.

End History.

(** [Math.max] over numbers: the greatest of them. *)
Lemma fold_nmax (l : list number) :
  Forall (fun x => isNaN x = false) l ->
  forall a, isNaN a = false ->
    let p := fold_left nmax l a in
    isNaN p = false
    /\ In p (a :: l)
    /\ forall x, In x (a :: l) -> num_le x p.
Proof.
  induction 1 as [|x l Hx _ IH]; intros a Ha; cbv zeta.
  - simpl. split; [exact Ha|]. split; [now left|].
    intros x [<-|[]]. now apply num_le_refl.
  - cbn [fold_left].
    assert (E : nmax a x = if ngt x a then x else a)
      by (destruct a, x; try discriminate; reflexivity).
    rewrite E. destruct (ngt_num_le x a Hx Ha) as [Hgt Hle].
    destruct (ngt x a).
    + destruct (IH x Hx) as (Hp & Hin & Hmax).
      split; [exact Hp|]. split; [now right|].
      intros y [<-|Hy]; [|now apply Hmax].
      apply (num_le_trans _ x); [now apply Hgt | apply Hmax; now left].
    + destruct (IH a Ha) as (Hp & Hin & Hmax).
      split; [exact Hp|]. split.
      * destruct Hin as [E'|Hin]; [now left | right; now right].
      * intros y [<-|[<-|Hy]];
          [apply Hmax; now left | | apply Hmax; now right].
        apply (num_le_trans _ a); [now apply Hle | apply Hmax; now left].
Qed.

Lemma Math_max_greatest (l : list number) :
  l <> [] -> Forall (fun x => isNaN x = false) l ->
  isNaN (Math_max l) = false
  /\ In (Math_max l) l
  /\ forall x, In x l -> num_le x (Math_max l).
Proof.
  intros Hne Hfin. destruct l as [|x l]; [congruence|].
  inversion Hfin as [|? ? Hx Hl]; subst. unfold Math_max.
  exact (fold_nmax l Hl x Hx).
Qed.

(** What a row without sales of its own shows as sales: the history of
    the stored records of its SKU. *)
Lemma salesOf_stored (masterData : list ShoeRecord.t)
    (fileName todayDate : jsstring) (getTime : jsstring -> number)
    (cols : Columns.t) (sku : jsstring) (r : row) :
  hasUploadSales cols r = false ->
  let matches := historyMatches masterData sku in
  let sales := salesOf masterData fileName todayDate getTime cols sku r in
  (matches = [] -> sales = ([], Fin 0))
  /\ (forall d, In d matches -> num_le (ShoeRecord.salesNum d) (snd sales))
  /\ (matches <> [] ->
      exists d, In d matches /\ snd sales = ShoeRecord.salesNum d)
  /\ NoDup (map itemKey (fst sales))
  /\ (forall h, In h (fst sales) ->
        exists d, In d matches /\ h = historyItemOf d
          /\ forall d', In d' matches -> historyKey d' = historyKey d ->
               num_le (ShoeRecord.salesNum d') (ShoeRecord.salesNum d))
  /\ (forall d, In d matches ->
        exists h, In h (fst sales) /\ itemKey h = historyKey d)
  /\ ((forall h, In h (fst sales) ->
         exists t, getTime (SalesHistoryItem.date h) = Fin t) ->
      StronglySorted
        (fun a b => num_le (getTime (SalesHistoryItem.date b))
                           (getTime (SalesHistoryItem.date a)))
        (fst sales)).
Proof.
  intros Hup. cbv zeta. unfold salesOf. rewrite Hup.
  fold (historyMatches masterData sku).
  assert (Hfin : Forall (fun d => isNaN (ShoeRecord.salesNum d) = false)
                        (historyMatches masterData sku)).
  { apply Forall_forall. intros d Hd. apply filter_In in Hd.
    destruct Hd as [_ Hd]. apply andb_true_iff in Hd.
    destruct Hd as [Hd _]. apply andb_true_iff in Hd.
    destruct Hd as [_ Hd]. destruct (ShoeRecord.salesNum d) as [|q|sg];
      [discriminate | reflexivity | reflexivity]. }
  destruct (historyMatches masterData sku) as [|x rest].
  - cbn [fst snd]. repeat split; try contradiction; try congruence;
      constructor.
  - cbv beta iota. set (matches := x :: rest) in *.
    assert (Hx : In x matches) by now left.
    assert (Hnn : matches <> []) by discriminate.
    clearbody matches.
    set (m := fold_left addHistory matches []).
    destruct (deduplicated_fold matches [] [] Hfin)
      as (Hnd & Hval & Hcov).
    { repeat split; [constructor | intros k h [] | intros d []]. }
    fold m in Hnd, Hval, Hcov. cbn [app] in Hval, Hcov.
    set (cmp := fun a b : SalesHistoryItem.t =>
                  nsub (getTime (SalesHistoryItem.date b))
                       (getTime (SalesHistoryItem.date a))).
    pose proof (Array_sort_perm cmp (Map_values m)) as Hperm.
    set (hist := Array_sort cmp (Map_values m)) in *. cbn [fst snd].
    assert (Hentry : forall h, In h hist ->
              exists d, In d matches /\ In (historyKey d, h) m
                /\ h = historyItemOf d
                /\ forall d', In d' matches ->
                     historyKey d' = historyKey d ->
                     num_le (ShoeRecord.salesNum d') (ShoeRecord.salesNum d)).
    { intros h Hh. apply (Permutation_in _ Hperm) in Hh.
      apply in_map_iff in Hh. destruct Hh as ([k h'] & E & Hin).
      simpl in E. subst h'.
      destruct (Hval k h Hin) as (d & Hd & -> & -> & Hmax).
      exists d. split; [exact Hd|]. split; [exact Hin|].
      split; [reflexivity | exact Hmax]. }
    assert (Hcover : forall d, In d matches ->
              exists h, In h hist /\ itemKey h = historyKey d
                /\ num_le (ShoeRecord.salesNum d) (SalesHistoryItem.sales h)).
    { intros d Hd. pose proof (Hcov d Hd) as Hg.
      destruct (Map_get m (historyKey d)) as [h|] eqn:G; [|congruence].
      apply Map_get_In in G.
      destruct (Hval _ _ G) as (d0 & Hd0 & Hk & -> & Hmax).
      exists (historyItemOf d0). split; [|split].
      - apply (Permutation_in _ (Permutation_sym Hperm)).
        apply in_map_iff. now exists (historyKey d, historyItemOf d0).
      - now rewrite Hk.
      - now apply Hmax. }
    assert (Hsales : Forall (fun x => isNaN x = false)
                       (map SalesHistoryItem.sales hist)).
    { apply Forall_forall. intros s Hs. apply in_map_iff in Hs.
      destruct Hs as (h & <- & Hh).
      destruct (Hentry h Hh) as (d & Hd & _ & -> & _).
      exact (proj1 (Forall_forall _ _) Hfin d Hd). }
    assert (Hne : map SalesHistoryItem.sales hist <> []).
    { destruct (Hcover x Hx) as (h & Hh & _).
      destruct hist; [contradiction | discriminate]. }
    destruct (Math_max_greatest _ Hne Hsales) as (_ & Hin & Hmax).
    split; [intros E; congruence|].
    split; [|split; [|split; [|split; [|split]]]].
    + intros d Hd. destruct (Hcover d Hd) as (h & Hh & _ & Hle).
      apply (num_le_trans _ _ _ Hle). apply Hmax.
      now apply in_map.
    + intros _. apply in_map_iff in Hin. destruct Hin as (h & Hs & Hh).
      destruct (Hentry h Hh) as (d & Hd & _ & -> & _).
      exists d. split; [exact Hd | now rewrite <- Hs].
    + assert (Hkeys : map itemKey (Map_values m) = map fst m).
      { unfold Map_values. rewrite map_map. apply map_ext_in.
        intros [k h] Hkh. destruct (Hval k h Hkh) as (d & _ & -> & -> & _).
        reflexivity. }
      apply (Permutation_NoDup
               (Permutation_map itemKey (Permutation_sym Hperm))).
      now rewrite Hkeys.
    + intros h Hh. destruct (Hentry h Hh) as (d & Hd & _ & -> & Hm).
      exists d. split; [exact Hd|]. split; [reflexivity | exact Hm].
    + intros d Hd. destruct (Hcover d Hd) as (h & Hh & Hk & _).
      now exists h.
    + intros Htimes.
      apply (Array_sort_desc
               (fun h => getTime (SalesHistoryItem.date h))).
      apply Forall_forall. intros h Hh.
      destruct (Htimes h) as [t Et]; [|now rewrite Et].
      now apply (Permutation_in _ (Permutation_sym Hperm)).
Qed.

(** X16. The sales a matcher result shows.  Every result is the result of a
    row [r] below the header, for the SKU in that row's SKU cell.  When the
    row carries sales of its own (a sales column was detected and the
    row's cell in it is present and not blank), the sales volume is the
    count [extractSalesNum] reads in that cell and the history is the one
    entry of this import with that count.  Otherwise the result shows the
    stored supplier and market records of its SKU with sales above 0: the
    history entries have distinct keys date#file#channel, each is the
    entry of a stored record with the greatest sales stored under its key,
    every such record has an entry under its key, and the sales volume is
    the greatest sales of all of them (0 with no history when there are
    none). *)
Theorem sales_volume_is_the_stored_peak
    (masterData : list ShoeRecord.t) (fileName todayDate : jsstring)
    (getTime : jsstring -> number) (rawData : sheet)
    (headerRowIndex : nat) (out : list ArbitrageResult.t)
    (res : ArbitrageResult.t) :
  processArbitrage masterData fileName todayDate getTime rawData
    headerRowIndex = Results out ->
  In res out ->
  exists hr r,
    nth_error rawData headerRowIndex = Some (Some hr)
    /\ In (Some r) (skipn (S headerRowIndex) rawData)
    /\ let cols := detectColumns (map (fun c => trim (String_ c)) hr) in
       let matches :=
         historyMatches masterData (ArbitrageResult.productCode res) in
       let history := ArbitrageResult.salesHistory res in
       let volume := ArbitrageResult.salesVolume res in
       ArbitrageResult.productCode res
       = cleanProductCode (get r (Columns.skuIdx cols))
       /\ if hasUploadSales cols r
          then
            ArbitrageResult.supplierName res = utf8 "本次导入"
            /\ volume = extractSalesNum (get r (Columns.salesIdx cols))
            /\ history = [SalesHistoryItem.mk todayDate fileName volume
                            (utf8 "本次导入")]
          else
            ArbitrageResult.supplierName res = utf8 "历史匹配"
            /\ (matches = [] -> history = [] /\ volume = Fin 0)
            /\ (forall d, In d matches ->
                  num_le (ShoeRecord.salesNum d) volume)
            /\ (matches <> [] ->
                exists d, In d matches /\ volume = ShoeRecord.salesNum d)
            /\ NoDup (map itemKey history)
            /\ (forall h, In h history ->
                  exists d, In d matches /\ h = historyItemOf d
                    /\ forall d', In d' matches ->
                         historyKey d' = historyKey d ->
                         num_le (ShoeRecord.salesNum d')
                                (ShoeRecord.salesNum d))
            /\ (forall d, In d matches ->
                  exists h, In h history /\ itemKey h = historyKey d).
Proof.
  intros Hout Hin.
  destruct (processArbitrage_results _ _ _ _ _ _ _ Hout)
    as (_ & hr & Hhr & Hfrom).
  destruct (Hfrom res Hin) as (o & Ho & Hrow).
  destruct (arbitrageRow_rest _ _ _ _ _ _ _ Hrow)
    as (r & -> & Hh & Hv & Hn & _). cbv zeta in Hh, Hv.
  destruct (arbitrageRow_Some _ _ _ _ _ _ _ Hrow) as (r0 & E & Hcode & _).
  injection E as <-.
  exists hr, r. split; [exact Hhr|]. split; [exact Ho|]. cbv zeta.
  split; [exact Hcode|].
  set (cols := detectColumns (map (fun c => trim (String_ c)) hr)) in *.
  destruct (hasUploadSales cols r) eqn:Hup.
  - split; [exact Hn|]. rewrite Hh, Hv. unfold salesOf. rewrite Hup.
    cbn [fst snd]. split; reflexivity.
  - split; [exact Hn|].
    destruct (salesOf_stored masterData fileName todayDate getTime cols
                (ArbitrageResult.productCode res) r Hup)
      as (H0 & H1 & H2 & H3 & H4 & H5 & _).
    rewrite Hh, Hv.
    split; [intros E; now rewrite (H0 E)|].
    split; [exact H1|]. split; [exact H2|]. split; [exact H3|].
    split; [exact H4 | exact H5].
Qed.

(** Three stored records of AB12, two of them from the same file, date and
    channel: the result shows two history entries, 35 for the supplier
    file, and 35 as sales volume.  A supplier sheet that lists AB12 with
    "12双" sold shows 12, whatever the store holds. *)
Lemma sales_volume_is_the_stored_peak_witness :
  (exists res,
     processArbitrage sample_history_store (utf8 "buy.xlsx") sample_today
       sample_getTime sample_ab12_sheet 0 = Results [res]
     /\ ArbitrageResult.salesVolume res = Fin 35
     /\ map SalesHistoryItem.sales (ArbitrageResult.salesHistory res)
        = [Fin 12; Fin 35]
     /\ ArbitrageResult.supplierName res = utf8 "历史匹配"
     /\ forall d,
          In d (historyMatches sample_history_store
                  (ArbitrageResult.productCode res)) ->
          num_le (ShoeRecord.salesNum d) (ArbitrageResult.salesVolume res))
  /\ (exists res,
        processArbitrage sample_history_store (utf8 "sup.xlsx")
          sample_today sample_getTime sample_sold_sheet 0 = Results [res]
        /\ ArbitrageResult.salesVolume res = Fin 12
        /\ ArbitrageResult.salesHistory res
           = [SalesHistoryItem.mk sample_today (utf8 "sup.xlsx") (Fin 12)
                (utf8 "本次导入")]).
Proof.
  split.
  - assert (Hout : exists res,
              processArbitrage sample_history_store (utf8 "buy.xlsx")
                sample_today sample_getTime sample_ab12_sheet 0
              = Results [res]
              /\ ArbitrageResult.salesVolume res = Fin 35
              /\ map SalesHistoryItem.sales (ArbitrageResult.salesHistory res)
                 = [Fin 12; Fin 35]
              /\ ArbitrageResult.supplierName res = utf8 "历史匹配").
    { vm_compute. eexists. split; [reflexivity|]. split; [reflexivity|].
      split; reflexivity. }
    destruct Hout as (res & Hout & Hv & Hh & Hn).
    exists res. split; [exact Hout|]. split; [exact Hv|].
    split; [exact Hh|]. split; [exact Hn|].
    destruct (sales_volume_is_the_stored_peak sample_history_store
                (utf8 "buy.xlsx") sample_today sample_getTime
                sample_ab12_sheet 0 [res] res Hout (or_introl eq_refl))
      as (hr & r & _ & _ & _ & Hbranch).
    destruct (hasUploadSales _ r).
    + destruct Hbranch as (Hup & _). rewrite Hn in Hup.
      apply (f_equal (@hd_error _)) in Hup. vm_compute in Hup.
      discriminate Hup.
    + destruct Hbranch as (_ & _ & Hle & _). exact Hle.
  - assert (Hout : exists res,
              processArbitrage sample_history_store (utf8 "sup.xlsx")
                sample_today sample_getTime sample_sold_sheet 0
              = Results [res]
              /\ ArbitrageResult.supplierName res = utf8 "本次导入").
    { vm_compute. eexists. split; reflexivity. }
    destruct Hout as (res & Hout & Hn).
    exists res. split; [exact Hout|].
    destruct (sales_volume_is_the_stored_peak sample_history_store
                (utf8 "sup.xlsx") sample_today sample_getTime
                sample_sold_sheet 0 [res] res Hout (or_introl eq_refl))
      as (hr & r & Hhr & Hr & Hcode & Hbranch).
    injection Hhr as <-.
    destruct Hr as [E|[]]. injection E as <-.
    cbv zeta in Hbranch.
    match type of Hbranch with
    | if ?c then _ else _ =>
      assert (Hc : c = true) by (vm_compute; reflexivity);
      rewrite Hc in Hbranch
    end.
    destruct Hbranch as (_ & Hv & Hh).
    match type of Hv with
    | _ = ?sold =>
      assert (Es : sold = Fin 12) by (vm_compute; reflexivity);
      rewrite Es in Hv
    end.
    split; [exact Hv|]. rewrite Hh, Hv. reflexivity.
Defined.

(** X17. The sales history of a matcher result is ordered by date, newest
    first, whenever the dates of its entries are dates the host can
    read. *)
Theorem sales_history_is_newest_first
    (masterData : list ShoeRecord.t) (fileName todayDate : jsstring)
    (getTime : jsstring -> number) (rawData : sheet)
    (headerRowIndex : nat) (out : list ArbitrageResult.t)
    (res : ArbitrageResult.t) :
  processArbitrage masterData fileName todayDate getTime rawData
    headerRowIndex = Results out ->
  In res out ->
  (forall h, In h (ArbitrageResult.salesHistory res) ->
     exists t, getTime (SalesHistoryItem.date h) = Fin t) ->
  StronglySorted
    (fun a b => num_le (getTime (SalesHistoryItem.date b))
                       (getTime (SalesHistoryItem.date a)))
    (ArbitrageResult.salesHistory res).
Proof.
  intros Hout Hin Htimes.
  destruct (processArbitrage_results _ _ _ _ _ _ _ Hout)
    as (_ & hr & _ & Hfrom).
  destruct (Hfrom res Hin) as (o & _ & Hrow).
  destruct (arbitrageRow_rest _ _ _ _ _ _ _ Hrow)
    as (r & _ & Hh & _). cbv zeta in Hh.
  set (cols := detectColumns (map (fun c => trim (String_ c)) hr)) in *.
  destruct (hasUploadSales cols r) eqn:Hup.
  - rewrite Hh. unfold salesOf. rewrite Hup. cbn [fst].
    constructor; constructor.
  - destruct (salesOf_stored masterData fileName todayDate getTime cols
                (ArbitrageResult.productCode res) r Hup)
      as (_ & _ & _ & _ & _ & _ & Hsorted).
    rewrite Hh in *. now apply Hsorted.
Qed.

(** The history of AB12 lists the market file of 10 April before the
    supplier file of 1 April. *)
Lemma sales_history_is_newest_first_witness :
  exists res,
    processArbitrage sample_history_store (utf8 "buy.xlsx") sample_today
      sample_getTime sample_ab12_sheet 0 = Results [res]
    /\ map SalesHistoryItem.date (ArbitrageResult.salesHistory res)
       = [utf8 "2024-04-10"; utf8 "2024-04-01"]
    /\ StronglySorted
         (fun a b => num_le (sample_getTime (SalesHistoryItem.date b))
                            (sample_getTime (SalesHistoryItem.date a)))
         (ArbitrageResult.salesHistory res).
Proof.
  assert (Hout : exists res,
            processArbitrage sample_history_store (utf8 "buy.xlsx")
              sample_today sample_getTime sample_ab12_sheet 0
            = Results [res]
            /\ map SalesHistoryItem.date (ArbitrageResult.salesHistory res)
               = [utf8 "2024-04-10"; utf8 "2024-04-01"])
    by (vm_compute; eexists; repeat split).
  destruct Hout as (res & Hout & Hd).
  exists res. split; [exact Hout|]. split; [exact Hd|].
  apply (sales_history_is_newest_first sample_history_store
           (utf8 "buy.xlsx") sample_today sample_getTime sample_ab12_sheet
           0 [res] res Hout (or_introl eq_refl)).
  intros h _. unfold sample_getTime, ofN. now eexists.
Defined.

(** ** The channel list *)

(** Dropping channels keeps the remaining names distinct. *)
Lemma filter_keeps_distinct {A B} (key : A -> B) (keep : A -> bool) :
  forall channels : list A,
    NoDup (map key channels) -> NoDup (map key (filter keep channels)).
Proof.
  intros channels. induction channels as [|c rest IH]; simpl; intros H;
    [constructor|].
  inversion H as [|? ? Hnot Hnd]; subst.
  destruct (keep c); [|now apply IH]. simpl. constructor; [|now apply IH].
  intros Hin. apply Hnot. apply in_map_iff in Hin.
  destruct Hin as (y & E & Hy). apply filter_In in Hy.
  apply in_map_iff. exists y. tauto.
Qed.

Lemma NoDup_map_inj {A B} (f : A -> B) (l : list A) (a b : A) :
  NoDup (map f l) -> In a l -> In b l -> f a = f b -> a = b.
Proof.
  induction l as [|x l IH]; simpl; intros H Ha Hb E; [contradiction|].
  inversion H as [|? ? Hnot Hnd]; subst.
  destruct Ha as [->|Ha], Hb as [->|Hb]; auto.
  - elim Hnot. rewrite E. now apply in_map.
  - elim Hnot. rewrite <- E. now apply in_map.
Qed.

Lemma addChannel_spec (channels : list Channel.t) (name : jsstring) :
  (In name (map Channel.name channels)
   /\ App.addChannel channels name = channels)
  \/ (~ In name (map Channel.name channels)
      /\ App.addChannel channels name
         = channels ++ [Channel.mk name true]).
Proof.
  unfold App.addChannel.
  destruct (existsb _ channels) eqn:E.
  - left. split; [|reflexivity]. apply existsb_exists in E.
    destruct E as (c & Hc & E). apply str_eqb_eq in E. subst name.
    now apply in_map.
  - right. split; [|reflexivity]. intros Hin. apply in_map_iff in Hin.
    destruct Hin as (c & <- & Hc).
    assert (existsb (fun c0 => str_eqb (Channel.name c0) (Channel.name c))
                    channels = true); [|congruence].
    apply existsb_exists. exists c. split; [exact Hc | apply str_eqb_refl].
Qed.

(** One action of the sidebar keeps the names distinct, keeps every
    channel that cannot be removed, and adds removable channels only. *)
Lemma act_keeps (channels : list Channel.t) (a : Sidebar.action) :
  NoDup (map Channel.name channels) ->
  NoDup (map Channel.name (Sidebar.act channels a))
  /\ (forall c, In c channels -> Channel.isRemovable c = false ->
        In c (Sidebar.act channels a))
  /\ (forall c, In c (Sidebar.act channels a) ->
        In c channels \/ Channel.isRemovable c = true).
Proof.
  intros Hnd. destruct a as [text|i]; simpl.
  - unfold Sidebar.handleAdd.
    destruct (negb (str_eqb (trim text) [])); [|now auto].
    destruct (addChannel_spec channels (trim text)) as [[_ ->]|[Hnew ->]];
      [now auto|].
    split; [|split].
    + rewrite map_app. simpl.
      apply (Permutation_NoDup (Permutation_cons_append _ _)).
      now constructor.
    + intros c Hc _. apply in_or_app. now left.
    + intros c Hc. apply in_app_or in Hc.
      destruct Hc as [Hc|[<-|[]]]; [now left | now right].
  - unfold Sidebar.clickRemove.
    destruct (nth_error channels i) as [channel|] eqn:E; [|now auto].
    destruct (Channel.isRemovable channel) eqn:R; [|now auto].
    apply nth_error_In in E. unfold App.removeChannel.
    split; [|split].
    + now apply filter_keeps_distinct.
    + intros c Hc Hfix. apply filter_In. split; [exact Hc|].
      destruct (str_eqb (Channel.name c) (Channel.name channel)) eqn:Es;
        [|reflexivity].
      apply str_eqb_eq in Es.
      rewrite (NoDup_map_inj Channel.name channels c channel Hnd Hc E Es)
        in Hfix.
      congruence.
    + intros c Hc. apply filter_In in Hc. now left.
Qed.

(** X18. Whatever is added and removed through the sidebar, starting from a
    list of channels with distinct names: the names stay distinct, every
    channel marked as not removable is still there, and every channel that
    was not there at the start is removable. *)
Theorem fixed_channels_survive (channels : list Channel.t)
    (actions : list Sidebar.action) :
  NoDup (map Channel.name channels) ->
  let final := fold_left Sidebar.act actions channels in
  NoDup (map Channel.name final)
  /\ (forall c, In c channels -> Channel.isRemovable c = false ->
        In c final)
  /\ (forall c, In c final ->
        In c channels \/ Channel.isRemovable c = true).
Proof.
  cbv zeta. revert channels.
  induction actions as [|a actions IH]; intros channels Hnd; simpl.
  - repeat split; auto.
  - destruct (act_keeps channels a Hnd) as (H1 & H2 & H3).
    destruct (IH _ H1) as (I1 & I2 & I3).
    split; [exact I1|]. split.
    + intros c Hc Hfix. apply I2; [now apply H2 | exact Hfix].
    + intros c Hc. destruct (I3 c Hc) as [Hin|Hr]; [|now right].
      now apply H3.
Qed.

(** From the default channels: the bin of the first channel does nothing,
    a new channel is added under its trimmed name, Nice is removed, and
    adding a name that exists changes nothing. *)
Lemma fixed_channels_survive_witness :
  let final :=
    fold_left Sidebar.act
      [Sidebar.Remove 0; Sidebar.Add (utf8 " StockX ");
       Sidebar.Remove 2; Sidebar.Add (utf8 "得物")]
      App.DEFAULT_CHANNELS in
  map Channel.name final
  = [utf8 "天马"; utf8 "得物"; utf8 "自有库存"; utf8 "阿迪期货";
     utf8 "StockX"]
  /\ NoDup (map Channel.name final)
  /\ In (Channel.mk (utf8 "得物") false) final.
Proof.
  cbv zeta. split; [reflexivity|].
  assert (Hnd : NoDup (map Channel.name App.DEFAULT_CHANNELS)).
  { repeat constructor; simpl; intros H;
      repeat (destruct H as [H|H]; [discriminate|]); exact H. }
  destruct (fixed_channels_survive App.DEFAULT_CHANNELS
              [Sidebar.Remove 0; Sidebar.Add (utf8 " StockX ");
               Sidebar.Remove 2; Sidebar.Add (utf8 "得物")] Hnd)
    as (H1 & H2 & _).
  split; [exact H1|]. apply H2; [|reflexivity].
  right. now left.
Defined.

(** X19. A channel added through the sidebar under a new name can be removed
    again with its bin, which gives back the list as it was. *)
Theorem added_channel_can_be_removed (channels : list Channel.t)
    (newChannelName : jsstring) :
  trim newChannelName <> [] ->
  ~ In (trim newChannelName) (map Channel.name channels) ->
  let added := Sidebar.handleAdd channels newChannelName in
  added = channels ++ [Channel.mk (trim newChannelName) true]
  /\ Sidebar.clickRemove added (length channels) = channels.
Proof.
  intros Hne Hnew. cbv zeta. unfold Sidebar.handleAdd.
  apply str_eqb_neq in Hne. rewrite Hne. cbn [negb].
  destruct (addChannel_spec channels (trim newChannelName))
    as [[Hin _]|[_ ->]]; [contradiction|].
  split; [reflexivity|]. unfold Sidebar.clickRemove.
  rewrite nth_error_app2, Nat.sub_diag by lia.
  cbn [nth_error Channel.isRemovable Channel.name].
  unfold App.removeChannel. rewrite filter_app.
  cbn [filter Channel.name]. rewrite str_eqb_refl. cbn [negb].
  rewrite app_nil_r. apply filter_all. apply Forall_forall.
  intros c Hc. apply negb_true_iff. apply str_eqb_neq. intros E.
  apply Hnew. rewrite <- E. now apply in_map.
Qed.

(** StockX is added to the default channels as the sixth channel, and its
    bin gives the default channels back. *)
Lemma added_channel_can_be_removed_witness :
  let added := Sidebar.handleAdd App.DEFAULT_CHANNELS (utf8 " StockX ") in
  length added = 6%nat
  /\ Sidebar.clickRemove added 5 = App.DEFAULT_CHANNELS.
Proof.
  cbv zeta.
  destruct (added_channel_can_be_removed App.DEFAULT_CHANNELS
              (utf8 " StockX ")) as [Ha Hr].
  - discriminate.
  - simpl. intros H.
    repeat (destruct H as [H|H]; [discriminate|]). exact H.
  - split; [now rewrite Ha | exact Hr].
Defined.

(** ** The queue of files waiting for a mapping *)

Lemma handleSkipFile_next (x : Queued.t) (q : list Queued.t) :
  ~ In (Queued.id x) (map Queued.id q) ->
  handleSkipFile (openQueue (x :: q)) = openQueue q.
Proof.
  intros Hnew. unfold handleSkipFile, openQueue.
  cbn [MappingState.currentMappingFile MappingState.pendingFiles hd_error
       filter].
  rewrite str_eqb_refl. cbn [negb].
  rewrite filter_all; [reflexivity|].
  apply Forall_forall. intros f Hf. apply negb_true_iff, str_eqb_neq.
  intros E. apply Hnew. rewrite <- E. now apply in_map.
Qed.

(** X20. With distinct ids, the files queued by an upload are shown in the
    mapping dialog one after the other in upload order: after [n] files
    have been skipped, the dialog shows the file at position [n] and the
    files from there on are still waiting; after as many steps as there
    were files the dialog is closed, and it stays closed. *)
Theorem queue_is_walked_in_order (mappingQueue : list Queued.t) (n : nat) :
  NoDup (map Queued.id mappingQueue) ->
  let st := Nat.iter n handleSkipFile (openQueue mappingQueue) in
  MappingState.pendingFiles st = skipn n mappingQueue
  /\ MappingState.currentMappingFile st = nth_error mappingQueue n
  /\ ((length mappingQueue <= n)%nat -> st = MappingState.mk [] None).
Proof.
  intros Hnd. cbv zeta.
  assert (H : Nat.iter n handleSkipFile (openQueue mappingQueue)
              = openQueue (skipn n mappingQueue)).
  { induction n as [|n IH]; [reflexivity|].
    rewrite Nat.iter_succ, IH.
    assert (Hs : NoDup (map Queued.id (skipn n mappingQueue))).
    { rewrite <- (firstn_skipn n mappingQueue), map_app in Hnd.
      now apply NoDup_app_remove_l in Hnd. }
    replace (skipn (S n) mappingQueue) with (tl (skipn n mappingQueue)).
    - destruct (skipn n mappingQueue) as [|x q]; [reflexivity|].
      apply handleSkipFile_next. now inversion Hs.
    - clear. revert mappingQueue.
      induction n as [|n IH]; intros [|x q]; try reflexivity.
      cbn [skipn]. apply IH. }
  rewrite H. unfold openQueue.
  cbn [MappingState.pendingFiles MappingState.currentMappingFile].
  split; [reflexivity|]. split.
  - clear. revert mappingQueue.
    induction n as [|n IH]; intros [|x q]; try reflexivity.
    cbn [skipn nth_error]. apply IH.
  - intros Hlen. now rewrite skipn_all2.
Qed.

(** Two files wait for a mapping: after one step the dialog shows the
    second, after two steps it is closed. *)
Lemma queue_is_walked_in_order_witness :
  let first := Queued.mk (utf8 "k3j9x0q1a") sample_pending in
  let second := Queued.mk (utf8 "p07hz2m4c") sample_pending in
  MappingState.currentMappingFile
    (Nat.iter 1 handleSkipFile (openQueue [first; second])) = Some second
  /\ Nat.iter 2 handleSkipFile (openQueue [first; second])
     = MappingState.mk [] None.
Proof.
  cbv zeta.
  assert (Hnd : NoDup (map Queued.id
                         [Queued.mk (utf8 "k3j9x0q1a") sample_pending;
                          Queued.mk (utf8 "p07hz2m4c") sample_pending])).
  { repeat constructor; simpl; intros H;
      repeat (destruct H as [H|H]; [discriminate|]); exact H. }
  split.
  - exact (proj1 (proj2 (queue_is_walked_in_order _ 1 Hnd))).
  - apply (proj2 (proj2 (queue_is_walked_in_order _ 2 Hnd))). simpl. lia.
Defined.

(** ** Manual entry *)





(** ** The header, seen by the data centre and by the matcher *)

Lemma startsWith_prefix (s k : jsstring) :
  startsWith s k = true <-> exists post, s = k ++ post.
Proof.
  revert s. induction k as [|c k IH]; intros s; simpl.
  - split; [intros _; now exists s | now destruct s].
  - destruct s as [|d s]; simpl;
      [split; [discriminate | intros [p H]; discriminate]|].
    rewrite andb_true_iff, N.eqb_eq, IH. split.
    + intros [-> [post ->]]. now exists post.
    + intros [post H]. injection H as -> ->. split; [reflexivity|].
      now exists post.
Qed.

Lemma includes_infix (s k : jsstring) :
  includes s k = true <-> exists pre post, s = pre ++ k ++ post.
Proof.
  induction s as [|d s IH]; cbn [includes].
  - rewrite orb_false_r, startsWith_prefix. split.
    + intros [post H]. now exists [], post.
    + intros (pre & post & H). destruct pre; [now exists post|discriminate].
  - rewrite orb_true_iff, startsWith_prefix, IH. split.
    + intros [[post H]|(pre & post & H)].
      * now exists [], post.
      * exists (d :: pre), post. now rewrite H.
    + intros (pre & post & H). destruct pre as [|e pre].
      * left. now exists post.
      * right. injection H as _ H. now exists pre, post.
Qed.

Lemma includes_trans (s k k' : jsstring) :
  includes s k = true -> includes k k' = true -> includes s k' = true.
Proof.
  rewrite !includes_infix. intros (p1 & q1 & ->) (p2 & q2 & ->).
  exists (p1 ++ p2), (q2 ++ q1). now rewrite !app_assoc.
Qed.

(** The two discount keyword lists accept the same header cells. *)
Lemma kwDiscount_same (c : jsstring) :
  someIncludes DataManager.kwDiscount c
  = someIncludes ArbitrageAnalyzer.kwDiscount c.
Proof.
  unfold someIncludes, DataManager.kwDiscount, ArbitrageAnalyzer.kwDiscount.
  cbn [map existsb]. rewrite !orb_false_r.
  destruct (includes c (utf8 "折扣")) eqn:E.
  - now rewrite orb_true_r.
  - assert (H1 : includes c (utf8 "平台平均下单折扣") = false).
    { destruct (includes c (utf8 "平台平均下单折扣")) eqn:E1;
        [|reflexivity].
      rewrite <- E. symmetry. now apply (includes_trans _ _ _ E1). }
    assert (H2 : includes c (utf8 "下单折扣") = false).
    { destruct (includes c (utf8 "下单折扣")) eqn:E2; [|reflexivity].
      rewrite <- E. symmetry. now apply (includes_trans _ _ _ E2). }
    rewrite H1, H2. cbn [orb]. now rewrite orb_false_r.
Qed.

Lemma DataManager_step (m : ColMap.t) (i : nat) (v : value) :
  let c := trim (String_ v) in
  ColMap.sku (DataManager.detectStep m (i, v))
  = (if someIncludes DataManager.kwSku c then Z.of_nat i
     else ColMap.sku m)
  /\ ColMap.discount (DataManager.detectStep m (i, v))
     = (if someIncludes DataManager.kwDiscount c then Z.of_nat i
        else ColMap.discount m).
Proof.
  cbv zeta. unfold DataManager.detectStep. cbn [fst snd].
  destruct (someIncludes DataManager.kwSku _),
           (someIncludes DataManager.kwSize _),
           (someIncludes DataManager.kwPrice _),
           (someIncludes DataManager.kwDiscount _),
           (someIncludes DataManager.kwSales _); split; reflexivity.
Qed.

Lemma ArbitrageAnalyzer_step (m : Columns.t) (i : nat) (c : jsstring) :
  Columns.skuIdx (ArbitrageAnalyzer.detectStep m (i, c))
  = (if someIncludes ArbitrageAnalyzer.kwSku c then Z.of_nat i
     else Columns.skuIdx m)
  /\ Columns.discountIdx (ArbitrageAnalyzer.detectStep m (i, c))
     = (if someIncludes ArbitrageAnalyzer.kwDiscount c then Z.of_nat i
        else Columns.discountIdx m).
Proof.
  unfold ArbitrageAnalyzer.detectStep. cbn [fst snd].
  destruct (someIncludes ArbitrageAnalyzer.kwSku _),
           (someIncludes ArbitrageAnalyzer.kwTagPrice _),
           (someIncludes ArbitrageAnalyzer.kwDiscount _),
           (someIncludes ArbitrageAnalyzer.kwSales _); split; reflexivity.
Qed.

Lemma detection_agrees (l : list jsstring) :
  Forall (fun c => trim c = c) l ->
  forall s mA mB,
    ColMap.sku mA = Columns.skuIdx mB ->
    ColMap.discount mA = Columns.discountIdx mB ->
    let a := fold_left DataManager.detectStep
               (combine (seq s (length l)) (map Str l)) mA in
    let b := fold_left ArbitrageAnalyzer.detectStep
               (combine (seq s (length l)) l) mB in
    ColMap.sku a = Columns.skuIdx b
    /\ ColMap.discount a = Columns.discountIdx b.
Proof.
  induction 1 as [|c l Hc _ IH]; intros s mA mB Hs Hd; cbv zeta.
  - now split.
  - cbn [length seq map combine fold_left]. apply IH.
    + rewrite (proj1 (DataManager_step mA s (Str c))),
              (proj1 (ArbitrageAnalyzer_step mB s c)).
      cbn [String_]. rewrite Hc, Hs. reflexivity.
    + rewrite (proj2 (DataManager_step mA s (Str c))),
              (proj2 (ArbitrageAnalyzer_step mB s c)).
      cbn [String_]. rewrite Hc, Hd, kwDiscount_same. reflexivity.
Qed.

(** X22. On the header cells of one and the same row, the data centre's column
    detection and the matcher's pick the same SKU column and the same
    discount column (or both none), although their discount keyword lists
    differ. *)
Theorem both_detections_agree_on_sku_and_discount (hr : row) :
  let headerRow := map (fun c => trim (String_ c)) hr in
  let colMap := autoDetectColumns (map Str headerRow) in
  let cols := detectColumns headerRow in
  ColMap.sku colMap = Columns.skuIdx cols
  /\ ColMap.discount colMap = Columns.discountIdx cols.
Proof.
  cbv zeta. unfold autoDetectColumns, detectColumns, indexed.
  rewrite (length_map Str (map (fun c => trim (String_ c)) hr)).
  apply (detection_agrees (map (fun c => trim (String_ c)) hr));
    try reflexivity.
  apply Forall_forall. intros c Hc. apply in_map_iff in Hc.
  destruct Hc as (v & <- & _). apply trim_idem.
Qed.

(** ** The matcher's error messages *)

Lemma arbitrageRow_None (masterData : list ShoeRecord.t)
    (fileName todayDate : jsstring) (getTime : jsstring -> number)
    (cols : Columns.t) (r : row) :
  arbitrageRow masterData fileName todayDate getTime cols (Some r) = None
  <-> cleanProductCode (get r (Columns.skuIdx cols)) = [].
Proof.
  unfold arbitrageRow, cleanProductCode.
  destruct (truthy (get r (Columns.skuIdx cols))); cbn [negb];
    [|now split].
  destruct (str_eqb _ []) eqn:E.
  - apply str_eqb_eq in E. now split.
  - apply str_eqb_neq in E.
    destruct (salesOf _ _ _ _ _ _ _). split; [discriminate | contradiction].
Qed.

Lemma error_messages_differ :
  ErrorMsg (utf8 "无法识别表头。请确保表格包含“货号(SKU)”和“牌价/原价”列。")
  <> ErrorMsg (utf8 "未在文件中找到有效的数据行。").
Proof.
  intros E.
  apply (f_equal (fun o => match o with
                           | ErrorMsg m => hd_error m
                           | _ => None
                           end)) in E.
  vm_compute in E. discriminate.
Qed.

(** X23. With the header row in place, the matcher answers with an error
    message in two cases only, whatever the store holds: "header not
    recognised" exactly when no SKU column or no tag-price column is
    detected, and "no valid data rows" exactly when both columns are
    detected and no row below the header has a product code. *)
Theorem matcher_error_messages (masterData : list ShoeRecord.t)
    (fileName todayDate : jsstring) (getTime : jsstring -> number)
    (rawData : sheet) (headerRowIndex : nat) (hr : row) :
  nth_error rawData headerRowIndex = Some (Some hr) ->
  let cols := detectColumns (map (fun c => trim (String_ c)) hr) in
  let detected :=
    Columns.skuIdx cols <> -1 /\ Columns.tagPriceIdx cols <> -1 in
  let noCode :=
    forall r, In (Some r) (skipn (S headerRowIndex) rawData) ->
      cleanProductCode (get r (Columns.skuIdx cols)) = [] in
  let outcome :=
    processArbitrage masterData fileName todayDate getTime rawData
      headerRowIndex in
  (outcome
   = ErrorMsg (utf8 "无法识别表头。请确保表格包含“货号(SKU)”和“牌价/原价”列。")
   <-> ~ detected)
  /\ (outcome = ErrorMsg (utf8 "未在文件中找到有效的数据行。")
      <-> detected /\ noCode)
  /\ (forall msg, outcome = ErrorMsg msg -> ~ detected \/ noCode).
Proof.
  intros Hhdr. cbv zeta.
  set (cols := detectColumns (map (fun c => trim (String_ c)) hr)).
  assert (Hbad : ~ (Columns.skuIdx cols <> -1
                    /\ Columns.tagPriceIdx cols <> -1) ->
                 processArbitrage masterData fileName todayDate getTime
                   rawData headerRowIndex
                 = ErrorMsg (utf8 "无法识别表头。请确保表格包含“货号(SKU)”和“牌价/原价”列。")).
  { intros Hnot. unfold processArbitrage.
    destruct rawData as [|x rest]; [destruct headerRowIndex; discriminate|].
    rewrite Hhdr. fold cols.
    destruct (Z.eqb_spec (Columns.skuIdx cols) (-1)); [reflexivity|].
    destruct (Z.eqb_spec (Columns.tagPriceIdx cols) (-1)); [reflexivity|].
    elim Hnot. now split. }
  destruct (Z.eqb_spec (Columns.skuIdx cols) (-1)) as [Es|Es];
    [|destruct (Z.eqb_spec (Columns.tagPriceIdx cols) (-1)) as [Et|Et]].
  1,2: assert (Hnot : ~ (Columns.skuIdx cols <> -1
                         /\ Columns.tagPriceIdx cols <> -1))
         by (intros [Hs Ht]; contradiction);
    rewrite (Hbad Hnot);
    (split; [split; [intros _; exact Hnot | reflexivity]|]);
    (split; [split; [intros E; elim (error_messages_differ E)
                    | intros [Hd _]; elim (Hnot Hd)]|]);
    intros msg _; left; exact Hnot.
  assert (Hdet : Columns.skuIdx cols <> -1
                 /\ Columns.tagPriceIdx cols <> -1) by (split; assumption).
  rewrite (processArbitrage_recognised masterData fileName todayDate getTime
             rawData headerRowIndex hr Hhdr Es Et). fold cols.
  pose proof (rankRows_spec masterData fileName todayDate getTime cols
                (skipn (S headerRowIndex) rawData)) as (_ & Hfrom & Hcov).
  assert (Hrows : rankRows masterData fileName todayDate getTime cols
                    (skipn (S headerRowIndex) rawData) = []
                  <-> forall r,
                        In (Some r) (skipn (S headerRowIndex) rawData) ->
                        cleanProductCode (get r (Columns.skuIdx cols)) = []).
  { split.
    - intros E r Hr.
      destruct (arbitrageRow masterData fileName todayDate getTime cols
                  (Some r)) as [res|] eqn:Hrow;
        [|now apply (arbitrageRow_None masterData fileName todayDate
                       getTime)].
      destruct (Hcov _ _ Hr Hrow) as (best & Hb & _).
      rewrite E in Hb. discriminate.
    - intros Hno.
      destruct (rankRows _ _ _ _ _ _) as [|res l]; [reflexivity|].
      destruct (Hfrom res (or_introl eq_refl)) as (o & Ho & Hrow).
      destruct o as [r|]; [|discriminate].
      apply Hno in Ho.
      apply (arbitrageRow_None masterData fileName todayDate getTime) in Ho.
      congruence. }
  destruct (rankRows _ _ _ _ _ _) as [|res l].
  - split; [split|].
    { intros E. symmetry in E. elim (error_messages_differ E). }
    { intros Hnot. elim (Hnot Hdet). }
    split; [split; [intros _; split; [exact Hdet | now apply Hrows] |
                    reflexivity]|].
    intros msg _. right. now apply Hrows.
  - split; [split; [discriminate | intros Hnot; elim (Hnot Hdet)]|].
    split; [split; [discriminate|]|discriminate].
    intros [_ Hno]. apply Hrows in Hno. discriminate.
Qed.

(** The titled sheet read with its title line as header: no column is
    detected, and the matcher says that the header is not recognised. *)
Lemma matcher_error_messages_witness :
  processArbitrage sample_store (utf8 "buy.xlsx") sample_today
    sample_getTime sample_titled_sheet 0
  = ErrorMsg (utf8 "无法识别表头。请确保表格包含“货号(SKU)”和“牌价/原价”列。")
  /\ processArbitrage sample_store (utf8 "buy.xlsx") sample_today
       sample_getTime sample_titled_sheet 0
     <> ErrorMsg (utf8 "未在文件中找到有效的数据行。").
Proof.
  destruct (matcher_error_messages sample_store (utf8 "buy.xlsx")
              sample_today sample_getTime sample_titled_sheet 0
              [Str (utf8 "2024 春季订货")] eq_refl) as (H1 & H2 & _).
  split.
  - apply H1. intros [Hs _]. apply Hs. reflexivity.
  - intros E. apply H2 in E. destruct E as [[Hs _] _]. apply Hs.
    reflexivity.
Defined.
